(** * OBS Print Progress overlay: reconciliation core

    A shallow embedding of [src/print-progress.js]: the layer and time
    reconcilers ([getLayerInfo], [computeLayerFromMetadata],
    [computeLayerFromProgress], [computeRemainingFromProgress],
    [getSlicerTotalSeconds], [getElapsedTime]), the G-code header parser
    ([parseGcodeHeader]), the metadata cache with its filename heuristics
    ([ensureMetadataLoaded], [fetchMetadata]), the chamber reading parser
    ([parseTempEntry]), the thumbnail extraction
    ([extractThumbnailFromGcode]) and the status poll with its retry policy
    ([fetchPrintStatus]).

    Modelling conventions.
    - A JavaScript number is [NaN], an infinity, or a finite rational;
      arithmetic on finite numbers is exact (binary rounding and the finite
      range of doubles are abstracted; zero carries no sign).
    - A JSON field value read by the code is [undefined] (field missing),
      [null], or a number.  Objects are association lists in insertion
      order.
    - A string is a sequence of 8-bit code units.
    - Regular expressions are terms of a small pattern language, run by a
      backtracking matcher.
    - The module-level variables of the script ([metadataCache],
      [apiRetryCount]) and the HTTP requests it issues are threaded
      explicitly through a [World]; what the printer answers is a
      parameter ([Network], [Response]).
    - Of the page, only the status text, the layer text and the three
      time values are kept ([View]); temperatures, the progress bar, the
      camera and the configuration are left out. *)

From Stdlib Require Import ZArith QArith Qround List Ascii String Lia Bool.
From Stdlib Require Import DecimalString.
Import ListNotations.

Set Implicit Arguments.

(* ================================================================== *)
(** ** JavaScript numbers and values *)
(* ================================================================== *)

Module JS.

Inductive num : Type :=
| NaN
| Inf (negative : bool)
| Fin (q : Q).

Inductive value : Type :=
| undefined
| null
| Num (n : num).

Definition lit (q : Q) : value := Num (Fin q).

Definition Qltb (a b : Q) : bool := negb (Qle_bool b a).
Definition Qis_zero (a : Q) : bool := Qeq_bool a 0.

(** ToNumber: [Number(undefined)] is NaN, [Number(null)] is 0. *)
Definition ToNumber (v : value) : num :=
  match v with
  | undefined => NaN
  | null => Fin 0
  | Num n => n
  end.

Definition isFinite (n : num) : bool :=
  match n with Fin _ => true | _ => false end.

(** ToBoolean on numbers: 0 and NaN are falsy. *)
Definition num_truthy (n : num) : bool :=
  match n with
  | NaN => false
  | Inf _ => true
  | Fin q => negb (Qis_zero q)
  end.

Definition truthy (v : value) : bool :=
  match v with
  | Num n => num_truthy n
  | _ => false
  end.

Definition nullish (v : value) : bool :=
  match v with
  | Num _ => false
  | _ => true
  end.

(** [a ?? b] *)
Definition coalesce (a b : value) : value := if nullish a then b else a.
(** [a || b] *)
Definition or_else (a b : value) : value := if truthy a then a else b.

Definition num_add (a b : num) : num :=
  match a, b with
  | NaN, _ | _, NaN => NaN
  | Inf s, Inf t => if Bool.eqb s t then Inf s else NaN
  | Inf s, Fin _ => Inf s
  | Fin _, Inf t => Inf t
  | Fin x, Fin y => Fin (x + y)
  end.

Definition num_sub (a b : num) : num :=
  match a, b with
  | NaN, _ | _, NaN => NaN
  | Inf s, Inf t => if Bool.eqb s t then NaN else Inf s
  | Inf s, Fin _ => Inf s
  | Fin _, Inf t => Inf (negb t)
  | Fin x, Fin y => Fin (x - y)
  end.

Definition Qneg (q : Q) : bool := Qltb q 0.

Definition num_mul (a b : num) : num :=
  match a, b with
  | NaN, _ | _, NaN => NaN
  | Inf s, Inf t => Inf (xorb s t)
  | Inf s, Fin y => if Qis_zero y then NaN else Inf (xorb s (Qneg y))
  | Fin x, Inf t => if Qis_zero x then NaN else Inf (xorb (Qneg x) t)
  | Fin x, Fin y => Fin (x * y)
  end.

(** Division; a zero divisor is read as +0. *)
Definition num_div (a b : num) : num :=
  match a, b with
  | NaN, _ | _, NaN => NaN
  | Inf _, Inf _ => NaN
  | Inf s, Fin y => Inf (xorb s (Qneg y))
  | Fin _, Inf _ => Fin 0
  | Fin x, Fin y =>
      if Qis_zero y
      then (if Qis_zero x then NaN else Inf (Qneg x))
      else Fin (x / y)
  end.

(** [a < b]; every comparison with NaN is false. *)
Definition num_lt (a b : num) : bool :=
  match a, b with
  | NaN, _ | _, NaN => false
  | Inf s, Inf t => s && negb t
  | Inf s, Fin _ => s
  | Fin _, Inf t => negb t
  | Fin x, Fin y => Qltb x y
  end.

(** [a <= b] *)
Definition num_le (a b : num) : bool :=
  match a, b with
  | NaN, _ | _, NaN => false
  | Inf s, Inf t => s || negb t
  | Inf s, Fin _ => s
  | Fin _, Inf t => negb t
  | Fin x, Fin y => Qle_bool x y
  end.

(** Truncation towards zero, and the remainder [a % b] (sign of the
    dividend). *)
Definition Qtrunc (q : Q) : Z := if Qle_bool 0 q then Qfloor q else Qceiling q.

Definition num_rem (a b : num) : num :=
  match a, b with
  | NaN, _ | _, NaN => NaN
  | Inf _, _ => NaN
  | Fin x, Inf _ => Fin x
  | Fin x, Fin y =>
      if Qis_zero y then NaN else Fin (x - y * inject_Z (Qtrunc (x / y)))
  end.

Definition num_floor (a : num) : num :=
  match a with
  | Fin q => Fin (inject_Z (Qfloor q))
  | _ => a
  end.

(** [Math.round] rounds half-way cases towards +Infinity. *)
Definition num_round (a : num) : num :=
  match a with
  | Fin q => Fin (inject_Z (Qfloor (q + (1 # 2))))
  | _ => a
  end.

Definition num_max (a b : num) : num :=
  match a, b with
  | NaN, _ | _, NaN => NaN
  | _, _ => if num_lt a b then b else a
  end.

Definition num_min (a b : num) : num :=
  match a, b with
  | NaN, _ | _, NaN => NaN
  | _, _ => if num_lt b a then b else a
  end.

(** Operators on values convert their operands with ToNumber. *)
Definition sub (a b : value) : value := Num (num_sub (ToNumber a) (ToNumber b)).
Definition add (a b : value) : value := Num (num_add (ToNumber a) (ToNumber b)).
Definition mul (a b : value) : value := Num (num_mul (ToNumber a) (ToNumber b)).
Definition div (a b : value) : value := Num (num_div (ToNumber a) (ToNumber b)).
Definition rem (a b : value) : value := Num (num_rem (ToNumber a) (ToNumber b)).
Definition lt (a b : value) : bool := num_lt (ToNumber a) (ToNumber b).
Definition le (a b : value) : bool := num_le (ToNumber a) (ToNumber b).
Definition gt (a b : value) : bool := lt b a.
Definition ge (a b : value) : bool := le b a.

Definition Math_floor (a : value) : value := Num (num_floor (ToNumber a)).
Definition Math_round (a : value) : value := Num (num_round (ToNumber a)).
Definition Math_max (a b : value) : value := Num (num_max (ToNumber a) (ToNumber b)).
Definition Math_min (a b : value) : value := Num (num_min (ToNumber a) (ToNumber b)).

Definition Number_isFinite (v : value) : bool :=
  match v with
  | Num n => isFinite n
  | _ => false
  end.

(** Objects: fields in insertion order; a missing field reads as
    [undefined]. *)
Definition obj : Type := list (string * value).

Fixpoint get (o : obj) (key : string) : value :=
  match o with
  | [] => undefined
  | (k, v) :: rest => if String.eqb k key then v else get rest key
  end.

Fixpoint set (o : obj) (key : string) (v : value) : obj :=
  match o with
  | [] => [(key, v)]
  | (k, w) :: rest =>
      if String.eqb k key then (k, v) :: rest else (k, w) :: set rest key v
  end.

(** [o?.key] on an object that may itself be missing. *)
Definition get_opt (o : option obj) (key : string) : value :=
  match o with
  | Some o => get o key
  | None => undefined
  end.

End JS.

Import JS.

Declare Scope js_scope.
Delimit Scope js_scope with js.
Bind Scope js_scope with value.
Notation "a ?? b" := (coalesce a b) (at level 52, left associativity) : js_scope.
Notation "a || b" := (or_else a b) : js_scope.
Notation "a - b" := (sub a b) : js_scope.
Notation "a + b" := (add a b) : js_scope.
Notation "a * b" := (mul a b) : js_scope.
Notation "a / b" := (div a b) : js_scope.
Notation "a 'mod' b" := (rem a b) : js_scope.
Notation "a <? b" := (lt a b) : js_scope.
Notation "a <=? b" := (le a b) : js_scope.
Notation "a >? b" := (gt a b) : js_scope.
Notation "a >=? b" := (ge a b) : js_scope.
Arguments lit q%_Q.

(* ================================================================== *)
(** ** Strings *)
(* ================================================================== *)

Module Text.

Open Scope string_scope.
Open Scope char_scope.

Definition code (c : ascii) : nat := nat_of_ascii c.

Definition in_range (lo hi : nat) (c : ascii) : bool :=
  (lo <=? code c)%nat && (code c <=? hi)%nat.

(** [\d] *)
Definition is_digit (c : ascii) : bool := in_range 48 57 c.

(** [\s], and the characters removed by [trim()]: TAB, LF, VT, FF, CR,
    space and the no-break space. *)
Definition is_space (c : ascii) : bool :=
  in_range 9 13 c || (code c =? 32)%nat || (code c =? 160)%nat.

(** [toLowerCase()] on one code unit: A-Z and the upper-case letters of
    Latin-1. *)
Definition lower_char (c : ascii) : ascii :=
  if in_range 65 90 c
     || (in_range 192 222 c && negb (code c =? 215)%nat)
  then ascii_of_nat (code c + 32)
  else c.

(** The canonical form used by an [/i] pattern against an ASCII pattern
    character: only A-Z fold. *)
Definition fold_char (c : ascii) : ascii :=
  if in_range 65 90 c then ascii_of_nat (code c + 32) else c.

Fixpoint toLowerCase (s : string) : string :=
  match s with
  | EmptyString => EmptyString
  | String c s' => String (lower_char c) (toLowerCase s')
  end.

Fixpoint trimStart (s : string) : string :=
  match s with
  | EmptyString => EmptyString
  | String c s' => if is_space c then trimStart s' else s
  end.

Fixpoint trimEnd (s : string) : string :=
  match s with
  | EmptyString => EmptyString
  | String c s' =>
      match trimEnd s' with
      | EmptyString => if is_space c then EmptyString else String c EmptyString
      | r => String c r
      end
  end.

Definition trim (s : string) : string := trimEnd (trimStart s).

Definition startsWith (s p : string) : bool := String.prefix p s.

(** [s.includes(sub)] *)
Fixpoint includes (s sub : string) : bool :=
  String.prefix sub s
  || match s with
     | EmptyString => false
     | String _ s' => includes s' sub
     end.

(** [s.split("\n")] *)
Fixpoint split_newline (s : string) : list string :=
  match s with
  | EmptyString => [EmptyString]
  | String c s' =>
      let r := split_newline s' in
      if Ascii.eqb c "010" then EmptyString :: r
      else match r with
           | h :: t => String c h :: t
           | [] => [String c EmptyString]
           end
  end.

(** [s.split(/\r?\n/)]: as above, and a CR directly before the LF
    belongs to the separator. *)
Fixpoint split_lines (s : string) : list string :=
  match s with
  | EmptyString => [EmptyString]
  | String c s' =>
      let r := split_lines s' in
      if Ascii.eqb c "010" then EmptyString :: r
      else if Ascii.eqb c "013" && String.prefix (String "010" EmptyString) s' then r
      else match r with
           | h :: t => String c h :: t
           | [] => [String c EmptyString]
           end
  end.

(** [parts.join("")] *)
Definition join (parts : list string) : string :=
  fold_right String.append EmptyString parts.

(** [line.replace(/^;/, "")] *)
Definition strip_semicolon (s : string) : string :=
  match s with
  | String c s' => if Ascii.eqb c ";" then s' else s
  | EmptyString => EmptyString
  end.

Definition digit_val (c : ascii) : Z := Z.of_nat (code c - 48).

Fixpoint all_digits (s : string) : bool :=
  match s with
  | EmptyString => true
  | String c s' => is_digit c && all_digits s'
  end.

Fixpoint digits_to_Z (acc : Z) (s : string) : Z :=
  match s with
  | EmptyString => acc
  | String c s' => digits_to_Z (10 * acc + digit_val c) s'
  end.

(** The part of [s] before the first dot, and what follows the dot
    (if there is one). *)
Fixpoint split_dot (s : string) : string * option string :=
  match s with
  | EmptyString => (EmptyString, None)
  | String c s' =>
      if Ascii.eqb c "." then (EmptyString, Some s')
      else let (a, b) := split_dot s' in (String c a, b)
  end.

(** [Number(s)] for the strings the script converts: captures of
    [[\d.]+] and [\d+], and ["0." + digits].  Such a string is a number
    when it is [digits], [digits.], [.digits] or [digits.digits]; the
    empty string converts to 0.  Any other character makes the result
    NaN here (signs, exponents, hexadecimal and surrounding blanks never
    reach this function from the script). *)
Definition Number_of_string (s : string) : num :=
  match s with
  | EmptyString => Fin 0
  | _ =>
      let (ip, rest) := split_dot s in
      let fp := match rest with Some f => f | None => EmptyString end in
      if all_digits ip && all_digits fp
         && negb (String.eqb ip EmptyString && String.eqb fp EmptyString)
      then
        let scale := Z.pow 10 (Z.of_nat (String.length fp)) in
        Fin (Qmake (digits_to_Z 0 ip * scale + digits_to_Z 0 fp) (Z.to_pos scale))
      else NaN
  end.

(** The leading digits of [s]. *)
Fixpoint leading_digits (s : string) : string :=
  match s with
  | EmptyString => EmptyString
  | String c s' => if is_digit c then String c (leading_digits s') else EmptyString
  end.

(** [parseInt(s, 10)] on a string without sign or leading blanks. *)
Definition parseInt (s : string) : num :=
  match leading_digits s with
  | EmptyString => NaN
  | d => Fin (inject_Z (digits_to_Z 0 d))
  end.

End Text.

(* ================================================================== *)
(** ** Regular expressions *)
(* ================================================================== *)

(** A backtracking matcher with the semantics of the regular expressions
    the script uses: leftmost match, alternatives tried in order, greedy
    and lazy repetition of a character class, numbered capture groups.
    Patterns are written below as terms of [re], next to the literal of
    the source. *)
Module Regex.

Definition cls : Type := ascii -> bool.

Inductive re : Type :=
| Eps
| Chr (p : cls)
| Seq (a b : re)
| Alt (a b : re)
| Opt (a : re)               (* a?  *)
| Star (p : cls)             (* p*  *)
| Plus (p : cls)             (* p+  *)
| LazyStar (p : cls)         (* p*? *)
| Group (i : nat) (a : re)   (* the i-th pair of capturing parentheses *)
| Eol.                       (* $   *)

Definition captures : Type := list (nat * string).

(** [match[i]]; [None] is [undefined]. *)
Fixpoint capture (c : captures) (i : nat) : option string :=
  match c with
  | [] => None
  | (j, s) :: rest => if Nat.eqb i j then Some s else capture rest i
  end.

Section Matcher.
Variable R : Type.

Fixpoint star_greedy (p : cls) (s : string) (k : string -> option R) : option R :=
  match s with
  | String x s' =>
      if p x
      then match star_greedy p s' k with
           | Some r => Some r
           | None => k s
           end
      else k s
  | EmptyString => k s
  end.

Fixpoint star_lazy (p : cls) (s : string) (k : string -> option R) : option R :=
  match k s with
  | Some r => Some r
  | None =>
      match s with
      | String x s' => if p x then star_lazy p s' k else None
      | EmptyString => None
      end
  end.

(** [run r s c k]: match [r] at the start of [s] with captures [c], then
    continue with [k] on what is left; [None] makes the matcher
    backtrack. *)
Fixpoint run (r : re) (s : string) (c : captures)
         (k : string -> captures -> option R) : option R :=
  match r with
  | Eps => k s c
  | Chr p =>
      match s with
      | String x s' => if p x then k s' c else None
      | EmptyString => None
      end
  | Seq a b => run a s c (fun s' c' => run b s' c' k)
  | Alt a b =>
      match run a s c k with
      | Some res => Some res
      | None => run b s c k
      end
  | Opt a =>
      match run a s c k with
      | Some res => Some res
      | None => k s c
      end
  | Star p => star_greedy p s (fun s' => k s' c)
  | Plus p =>
      match s with
      | String x s' => if p x then star_greedy p s' (fun s'' => k s'' c) else None
      | EmptyString => None
      end
  | LazyStar p => star_lazy p s (fun s' => k s' c)
  | Group i a =>
      run a s c
          (fun s' c' =>
             k s' ((i, substring 0 (String.length s - String.length s') s) :: c'))
  | Eol =>
      match s with
      | EmptyString => k s c
      | String _ _ => None
      end
  end.
End Matcher.

(** A match: the capture groups and the text after the match. *)
Record Match : Type := { groups : captures; after : string }.

Definition match_here (r : re) (s : string) : option Match :=
  run r s [] (fun s' c => Some {| groups := c; after := s' |}).

(** [regex.exec(s)] / [s.match(regex)]: the match at the leftmost
    position where there is one (the end of the string included). *)
Fixpoint exec (r : re) (s : string) : option Match :=
  match match_here r s with
  | Some m => Some m
  | None =>
      match s with
      | String _ s' => exec r s'
      | EmptyString => None
      end
  end.

Definition cat (l : list re) : re := fold_right Seq Eps l.
Definition alt (l : list re) : re :=
  match l with
  | [] => Eps
  | a :: rest => fold_left Alt rest a
  end.

Definition chr (x : ascii) : cls := fun c => Ascii.eqb c x.
Definition chr_i (x : ascii) : cls :=
  fun c => Ascii.eqb (Text.fold_char c) (Text.fold_char x).
Definition any : cls := fun _ => true.
Definition one_of (l : list cls) : cls := fun c => existsb (fun p => p c) l.

(** A literal, and a literal under the [i] flag. *)
Fixpoint Lit (s : string) : re :=
  match s with
  | EmptyString => Eps
  | String x s' => Seq (Chr (chr x)) (Lit s')
  end.

Fixpoint LitI (s : string) : re :=
  match s with
  | EmptyString => Eps
  | String x s' => Seq (Chr (chr_i x)) (LitI s')
  end.

End Regex.

(* ================================================================== *)
(** ** The overlay *)
(* ================================================================== *)

Import Text Regex.
Open Scope string_scope.

(** *** Printer status (one poll) *)

(** [status.toolhead]; [position] is the array [[x, y, z, e]]. *)
Record Toolhead : Type := { position : option (list value) }.

(** [status.print_stats]. *)
Record PrintStats : Type := {
  filename : string;
  state : string;
  info : option obj;
  print_duration : value;
  total_duration : value
}.

(** [data.result.status]; [display_status] and [virtual_sdcard] are read
    only through their [progress] field. *)
Record PrinterStatus : Type := {
  print_stats : PrintStats;
  display_status : option obj;
  virtual_sdcard : option obj;
  toolhead : option Toolhead
}.

(** [toolhead?.position?.[2]] *)
Definition toolheadZ (toolhead : option Toolhead) : value :=
  match toolhead with
  | None => undefined
  | Some t =>
      match position t with
      | None => undefined
      | Some p => nth 2 p undefined
      end
  end.

(** *** NumericFallback *)

Fixpoint firstNonNull (values : list value) : value :=
  match values with
  | [] => null
  | v :: rest => if nullish v then firstNonNull rest else v
  end.

Definition asNumber (v : value) : value :=
  let num := ToNumber v in
  if isFinite num then Num num else null.

(** *** Layers *)

Record LayerPair : Type := { current : value; total : value }.

Record LayerInfo : Type := { currentLayer : value; totalLayer : value }.

Definition computeLayerFromMetadata (toolhead : option Toolhead)
           (metadata : option obj) : LayerPair :=
  match metadata with
  | None => {| current := null; total := null |}
  | Some metadata =>
      let layerHeight := get metadata "layer_height" in
      let firstLayerHeight := (get metadata "first_layer_height" || layerHeight)%js in
      let objectHeight := get metadata "object_height" in
      let layerCount :=
        asNumber (get metadata "layer_count" ?? get metadata "total_layer"
                  ?? get metadata "total_layers")%js in
      let currentZ := toolheadZ toolhead in
      let total := (layerCount || null)%js in
      let total :=
        if negb (truthy total) && truthy layerHeight && truthy objectHeight
        then Math_max (lit 1)
               (Math_round (((objectHeight - firstLayerHeight) / layerHeight) + lit 1)%js)
        else total in
      let current :=
        if truthy layerHeight && negb (nullish currentZ)
        then
          let calc :=
            Math_floor (((currentZ - firstLayerHeight) / layerHeight) + lit 1)%js in
          let current := Math_max (lit 1) calc in
          if truthy total then Math_min total current else current
        else null in
      {| current := current; total := total |}
  end.

Definition computeLayerFromProgress (displayStatus : option obj)
           (metadata : option obj) : LayerPair :=
  match metadata with
  | None => {| current := null; total := null |}
  | Some metadata =>
      let total :=
        asNumber (get metadata "layer_count" ?? get metadata "total_layer"
                  ?? get metadata "total_layers")%js in
      let progress :=
        match get_opt displayStatus "progress" with
        | Num n => Num n
        | _ => null
        end in
      if negb (truthy total) || nullish progress || (progress <=? lit 0)%js
      then {| current := null; total := (total || null)%js |}
      else
        let current :=
          Math_max (lit 1) (Math_min total (Math_round (progress * total)%js)) in
        {| current := current; total := total |}
  end.

(** The four aliases of the slicer's current layer and the five of its
    total, read from [printStats.info || {}]. *)
Definition slicerCurrent (printStats : PrintStats) : value :=
  let slicerInfo := match info printStats with Some i => i | None => [] end in
  asNumber (get slicerInfo "current_layer" ?? get slicerInfo "currentLayer"
            ?? get slicerInfo "layer_current" ?? get slicerInfo "layer")%js.

Definition slicerTotal (printStats : PrintStats) : value :=
  let slicerInfo := match info printStats with Some i => i | None => [] end in
  asNumber (get slicerInfo "total_layer" ?? get slicerInfo "totalLayer"
            ?? get slicerInfo "layer_count" ?? get slicerInfo "layerTotal"
            ?? get slicerInfo "totalLayers")%js.

(** The naive fallback: one layer per 0.2 mm of Z. *)
Definition fallbackCurrent (toolhead : option Toolhead) (metadataLayer : LayerPair) : value :=
  let currentZ := toolheadZ toolhead in
  if negb (nullish currentZ) && (currentZ >? lit 0)%js
     && negb (truthy (current metadataLayer))
  then Math_max (lit 1) (Math_floor (currentZ / lit 0.2)%js)
  else null.

(** [getLayerInfo]; the script reads [metadataCache.data], passed here as
    [metadata]. *)
Definition getLayerInfo (metadata : option obj) (printStats : PrintStats)
           (displayStatus : option obj) (toolhead : option Toolhead) : LayerInfo :=
  let metadataLayer := computeLayerFromMetadata toolhead metadata in
  let progressLayer := computeLayerFromProgress displayStatus metadata in
  {| currentLayer :=
       firstNonNull [slicerCurrent printStats; current metadataLayer;
                     current progressLayer; fallbackCurrent toolhead metadataLayer];
     totalLayer :=
       firstNonNull [slicerTotal printStats; total metadataLayer;
                     total progressLayer] |}.

(** The text of the [layerInfo] element. *)
Inductive LayerText : Type :=
| NoLayers                                  (* "--" *)
| CurrentOfTotal (current total : value)    (* "c / t" *)
| CurrentOnly (current : value)             (* "c / --" *)
| TotalOnly (total : value).                (* "-- / t" *)

Definition formatLayerInfo (current total : value) : LayerText :=
  let hasCurrent := negb (nullish current) && (current >? lit 0)%js in
  let hasTotal := negb (nullish total) && (total >? lit 0)%js in
  if negb hasCurrent && negb hasTotal then NoLayers
  else if hasCurrent && hasTotal then CurrentOfTotal current total
  else if hasCurrent then CurrentOnly current
  else TotalOnly total.

(** *** Times *)

Definition computeRemainingFromProgress (progress printDuration : value) : value :=
  if (progress >? lit 0)%js && (progress <? lit 1)%js
  then
    let totalTime := (printDuration / progress)%js in
    (totalTime - printDuration)%js
  else null.

Fixpoint firstPositive (candidates : list value) : value :=
  match candidates with
  | [] => null
  | v :: rest =>
      let num := asNumber v in
      if truthy num && (num >? lit 0)%js then num else firstPositive rest
  end.

Definition getSlicerTotalSeconds (metadata slicerInfo : option obj) : value :=
  firstPositive
    [ get_opt metadata "estimated_time";
      get_opt metadata "slicer_estimated_time";
      get_opt metadata "slicer_time";
      get_opt metadata "estimated_print_time";
      get_opt metadata "slicer_estimated_duration";
      get_opt metadata "print_time";
      get_opt slicerInfo "estimated_time";
      get_opt slicerInfo "slicer_time";
      get_opt slicerInfo "slicer_estimated_time";
      get_opt slicerInfo "estimated_print_time";
      get_opt slicerInfo "slicer_estimated_duration" ].

Definition getElapsedTime (printStats : PrintStats) : value :=
  let totalDuration := asNumber (total_duration printStats) in
  let printDuration := asNumber (print_duration printStats) in
  (totalDuration ?? printDuration ?? null)%js.

(** The text of a time element. *)
Inductive TimeText : Type :=
| NoTime                                    (* "--" *)
| HoursMinutes (hours minutes : value)      (* "Hh Mm" *)
| MinutesSeconds (minutes secs : value)     (* "Mm Ss" *)
| SecondsOnly (secs : value).               (* "Ss" *)

Definition formatTime (seconds : value) : TimeText :=
  if negb (truthy seconds) || (seconds <? lit 0)%js then NoTime
  else
    let hours := Math_floor (seconds / lit 3600)%js in
    let minutes := Math_floor ((seconds mod lit 3600) / lit 60)%js in
    let secs := Math_floor (seconds mod lit 60)%js in
    if (hours >? lit 0)%js then HoursMinutes hours minutes
    else if (minutes >? lit 0)%js then MinutesSeconds minutes secs
    else SecondsOnly secs.

(** [setTimeValue(id, seconds)]: the text written to the element. *)
Definition setTimeValue (seconds : value) : TimeText :=
  if nullish seconds || (seconds <? lit 0)%js || negb (Number_isFinite seconds)
  then NoTime
  else formatTime seconds.

(** *** Chamber reading *)

Record ChamberReading : Type := { chamber_current : value; chamber_target : value }.

Definition parseTempEntry (entry : option obj) : option ChamberReading :=
  match entry with
  | None => None
  | Some entry =>
      let current :=
        Math_round (get entry "temperature" ?? get entry "temp"
                    ?? get entry "current" ?? get entry "temper")%js in
      let targetRaw :=
        (get entry "target" ?? get entry "target_temp"
         ?? get entry "target_temperature")%js in
      let target :=
        if negb (nullish targetRaw)
        then Math_round targetRaw
        else Math_round (get entry "temperature" ?? get entry "temp" ?? lit 0)%js in
      if negb (Number_isFinite current) then None
      else Some {| chamber_current := current;
                   chamber_target :=
                     if Number_isFinite target then target else current |}
  end.

(** *** G-code header parser *)

Definition sep : cls := one_of [chr ":"; chr "="; is_space].       (* [:=\s] *)
Definition us : cls := one_of [chr "_"; chr " "].                  (* [_ ]   *)
Definition numc : cls := one_of [is_digit; chr "."].               (* [\d.]  *)

(** [/layer[_ ]?height[:=\s]\s*([\d.]+)/i] *)
Definition re_layer_height : re :=
  cat [LitI "layer"; Opt (Chr us); LitI "height"; Chr sep; Star is_space;
       Group 1 (Plus numc)].

(** [/;\s*layer_height\s*=\s*([\d.]+)/i] *)
Definition re_layer_height_eq : re :=
  cat [Lit ";"; Star is_space; LitI "layer_height"; Star is_space; Lit "=";
       Star is_space; Group 1 (Plus numc)].

(** [/first[_ ]?layer[_ ]?height[:=\s]\s*([\d.]+)/i] *)
Definition re_first_layer_height : re :=
  cat [LitI "first"; Opt (Chr us); LitI "layer"; Opt (Chr us); LitI "height";
       Chr sep; Star is_space; Group 1 (Plus numc)].

(** [/initial[_ ]?layer[_ ]?height[:=\s]\s*([\d.]+)/i] *)
Definition re_initial_layer_height : re :=
  cat [LitI "initial"; Opt (Chr us); LitI "layer"; Opt (Chr us); LitI "height";
       Chr sep; Star is_space; Group 1 (Plus numc)].

(** [/layer[_ ]?(?:count|total|totals?)[:=\s]\s*([\d]+)/i] *)
Definition re_layer_count : re :=
  cat [LitI "layer"; Opt (Chr us);
       alt [LitI "count"; LitI "total"; cat [LitI "total"; Opt (LitI "s")]];
       Chr sep; Star is_space; Group 1 (Plus is_digit)].

(** [/total[_ ]?layers?[:=\s]\s*([\d]+)/i] *)
Definition re_total_layers : re :=
  cat [LitI "total"; Opt (Chr us); LitI "layer"; Opt (LitI "s");
       Chr sep; Star is_space; Group 1 (Plus is_digit)].

(** [/;\s*total_layer_count\s*=\s*([\d]+)/i] *)
Definition re_total_layer_count : re :=
  cat [Lit ";"; Star is_space; LitI "total_layer_count"; Star is_space; Lit "=";
       Star is_space; Group 1 (Plus is_digit)].

(** [/(?:estimated[_ ]?time|estimated[_ ]?print[_ ]?time|print[_ ]?time)[:=\s]\s*([\d.]+)/i] *)
Definition re_estimated_time : re :=
  cat [alt [cat [LitI "estimated"; Opt (Chr us); LitI "time"];
            cat [LitI "estimated"; Opt (Chr us); LitI "print"; Opt (Chr us); LitI "time"];
            cat [LitI "print"; Opt (Chr us); LitI "time"]];
       Chr sep; Star is_space; Group 1 (Plus numc)].

(** [/;time[:=\s]\s*([\d.]+)/i] *)
Definition re_time : re :=
  cat [Lit ";"; LitI "time"; Chr sep; Star is_space; Group 1 (Plus numc)].

(** [/;\s*estimated_printing_time\(normal\)\s*=\s*([\d.]+)/i] *)
Definition re_estimated_printing_time : re :=
  cat [Lit ";"; Star is_space; LitI "estimated_printing_time(normal)";
       Star is_space; Lit "="; Star is_space; Group 1 (Plus numc)].

(** [/(?:maxz|max_z|height|object[_ ]?height)[:=\s]\s*([\d.]+)/i] *)
Definition re_height : re :=
  cat [alt [LitI "maxz"; LitI "max_z"; LitI "height";
            cat [LitI "object"; Opt (Chr us); LitI "height"]];
       Chr sep; Star is_space; Group 1 (Plus numc)].

(** [match[i]] converted with [Number(...)]; an [undefined] group gives
    NaN. *)
Definition Number_of_group (m : Match) (i : nat) : num :=
  match capture (groups m) i with
  | Some s => Number_of_string s
  | None => NaN
  end.

Definition numberFromLine (line : string) (regex : re) : value :=
  match exec regex line with
  | None => null
  | Some m =>
      let num := Number_of_group m 1 in
      if isFinite num then Num num else null
  end.

(** [meta.key = meta.key ?? numberFromLine(lower, regex)] *)
Definition fill (meta : obj) (key : string) (lower : string) (regex : re) : obj :=
  set meta key (get meta key ?? numberFromLine lower regex)%js.

(** The body of the scan loop of [parseGcodeHeader], for one line. *)
Definition scanLine (meta : obj) (rawLine : string) : obj :=
  let line := trim rawLine in
  if negb (startsWith line ";") then meta
  else
    let lower := toLowerCase line in
    let meta := fill meta "layer_height" lower re_layer_height in
    let meta := fill meta "layer_height" lower re_layer_height_eq in
    let meta := fill meta "first_layer_height" lower re_first_layer_height in
    let meta := fill meta "first_layer_height" lower re_initial_layer_height in
    let meta := fill meta "layer_count" lower re_layer_count in
    let meta := fill meta "layer_count" lower re_total_layers in
    let meta := fill meta "layer_count" lower re_total_layer_count in
    let meta := fill meta "estimated_time" lower re_estimated_time in
    let meta := fill meta "estimated_time" lower re_time in
    let meta := fill meta "estimated_time" lower re_estimated_printing_time in
    let heightVal := numberFromLine lower re_height in
    match heightVal with
    | null => meta
    | _ => set meta "object_height" (get meta "object_height" ?? heightVal)%js
    end.

(** The record after the scan of the first 500 lines. *)
Definition scanHeader (text : string) : obj :=
  fold_left scanLine (firstn 500 (split_lines text)) [].

(** The two derivations that follow the scan. *)
Definition deriveGeometry (meta : obj) : obj :=
  let meta :=
    if negb (truthy (get meta "object_height")) && truthy (get meta "layer_height")
       && truthy (get meta "layer_count")
    then set meta "object_height" (get meta "layer_height" * get meta "layer_count")%js
    else meta in
  if truthy (get meta "object_height") && truthy (get meta "layer_height")
     && negb (truthy (get meta "layer_count"))
  then
    let firstLayer := (get meta "first_layer_height" || get meta "layer_height")%js in
    set meta "layer_count"
        (Math_max (lit 1)
           (Math_round (((get meta "object_height" - firstLayer)
                         / get meta "layer_height") + lit 1)%js))
  else meta.

Definition parseGcodeHeader (text : string) : option obj :=
  if String.eqb text "" then None
  else
    let meta := deriveGeometry (scanHeader text) in
    if truthy (get meta "layer_height") || truthy (get meta "first_layer_height")
       || truthy (get meta "layer_count") || truthy (get meta "object_height")
    then Some meta
    else None.

(** *** Filename heuristics (the two patch blocks of [ensureMetadataLoaded]) *)

Definition fnsep : cls := one_of [chr "_"; is_space; chr "."].     (* [_\s\.] *)

(** [/[_\s\.]0\.(\d+)(?:[_\s\.]|mm|$)/i] *)
Definition re_filename_height : re :=
  cat [Chr fnsep; Lit "0."; Group 1 (Plus is_digit);
       alt [Chr fnsep; LitI "mm"; Eol]].

(** [/(?:(\d+)d)?(?:(\d+)h)?(?:(\d+)m)?/i] *)
Definition re_filename_time : re :=
  cat [Opt (cat [Group 1 (Plus is_digit); LitI "d"]);
       Opt (cat [Group 2 (Plus is_digit); LitI "h"]);
       Opt (cat [Group 3 (Plus is_digit); LitI "m"])].

(** A capture group is truthy when it took part in the match and is not
    empty. *)
Definition group_truthy (m : Match) (i : nat) : bool :=
  match capture (groups m) i with
  | Some s => negb (String.eqb s "")
  | None => false
  end.

Definition parseInt_group (m : Match) (i : nat) : value :=
  match capture (groups m) i with
  | Some s => Num (parseInt s)
  | None => Num NaN
  end.

Definition inferLayerHeight (filename : string) (data : obj) : obj :=
  if negb (truthy (get data "layer_height"))
  then
    match exec re_filename_height filename with
    | None => data
    | Some filenameMatch =>
        let inferredHeight :=
          match capture (groups filenameMatch) 1 with
          | Some d => Num (Number_of_string ("0." ++ d))
          | None => Num NaN
          end in
        if (inferredHeight >=? lit 0.05)%js && (inferredHeight <=? lit 0.5)%js
        then
          let data := set data "layer_height" inferredHeight in
          if truthy (get data "object_height") && negb (truthy (get data "layer_count"))
          then
            let firstLayer := (get data "first_layer_height" || inferredHeight)%js in
            set data "layer_count"
                (Math_max (lit 1)
                   (Math_round (((get data "object_height" - firstLayer)
                                 / inferredHeight) + lit 1)%js))
          else data
        else data
    end
  else data.

Definition inferEstimatedTime (filename : string) (data : obj) : obj :=
  if negb (truthy (get data "estimated_time"))
  then
    match exec re_filename_time filename with
    | None => data
    | Some timeMatch =>
        if group_truthy timeMatch 1 || group_truthy timeMatch 2 || group_truthy timeMatch 3
        then
          let seconds := lit 0 in
          let seconds :=
            if group_truthy timeMatch 1
            then (seconds + parseInt_group timeMatch 1 * lit 86400)%js else seconds in
          let seconds :=
            if group_truthy timeMatch 2
            then (seconds + parseInt_group timeMatch 2 * lit 3600)%js else seconds in
          let seconds :=
            if group_truthy timeMatch 3
            then (seconds + parseInt_group timeMatch 3 * lit 60)%js else seconds in
          if (seconds >? lit 0)%js then set data "estimated_time" seconds else data
        else data
    end
  else data.

(** *** Thumbnail block extraction *)

(** [/; thumbnail begin \d+x\d+ \d+([\s\S]*?); thumbnail end/g] *)
Definition blockRegex : re :=
  cat [Lit "; thumbnail begin "; Plus is_digit; Lit "x"; Plus is_digit; Lit " ";
       Plus is_digit; Group 1 (LazyStar any); Lit "; thumbnail end"].

(** The payload of one block: every line trimmed, one leading [;] removed,
    trimmed again; empty lines dropped; the rest concatenated. *)
Definition cleanBlock (body : string) : string :=
  join (filter (fun line => negb (String.eqb line ""))
          (map (fun line => trim (strip_semicolon (trim line)))
             (split_newline body))).

Definition group_text (m : Match) (i : nat) : string :=
  match capture (groups m) i with
  | Some s => s
  | None => ""
  end.

(** The [while ((match = blockRegex.exec(text)) !== null)] loop.  [text] is
    what lies after [blockRegex.lastIndex]; [fuel] bounds the number of
    iterations. *)
Fixpoint thumbnailLoop (fuel : nat) (text : string) (lastBlock : option string)
  : option string :=
  match fuel with
  | O => lastBlock
  | S fuel' =>
      match exec blockRegex text with
      | None => lastBlock
      | Some m => thumbnailLoop fuel' (after m) (Some (cleanBlock (group_text m 1)))
      end
  end.

(** The text processing of [extractThumbnailFromGcode]: every match
    consumes at least one character, so [length text] iterations and one
    more test are enough. *)
Definition extractThumbnail (text : string) : option string :=
  thumbnailLoop (S (String.length text)) text None.

(** *** Metadata cache, network and poll state *)

(** [metadataCache]: one slot. *)
Record MetadataCache : Type := {
  cache_filename : option string;
  cache_data : option obj;
  cache_source : option string
}.

(** The HTTP requests of the metadata and thumbnail paths. *)
Inductive Request : Type :=
| GetMetadata (file : string)     (* /server/files/metadata?filename=file      *)
| GetFileHead (path : string)     (* /server/files/path, bytes 0-65535         *)
| GetGcodeHead (path : string).   (* /server/files/gcodes/path, bytes 0-100000 *)

(** What the printer answers; [None] stands for a response that is not
    [ok], for a failed request, and (metadata) for a body without a
    [result] object. *)
Record Network : Type := {
  metadata_of : string -> option obj;
  file_head : string -> option string;
  gcode_head : string -> option string
}.

(** The mutable state of the script that the modelled functions touch,
    and the log of the requests they issued. *)
Record World : Type := {
  metadataCache : MetadataCache;
  apiRetryCount : nat;
  requests : list Request
}.

Definition initialWorld : World :=
  {| metadataCache := {| cache_filename := None; cache_data := None; cache_source := None |};
     apiRetryCount := 0;
     requests := [] |}.

(** State passing for the [async] functions. *)
Definition M (A : Type) : Type := World -> A * World.

Definition ret {A : Type} (a : A) : M A := fun w => (a, w).

Definition bind {A B : Type} (m : M A) (f : A -> M B) : M B :=
  fun w => let (a, w') := m w in f a w'.

Notation "x <- m ;; k" := (bind m (fun x => k))
  (at level 61, m at next level, right associativity).
Notation "m ;;; k" := (bind m (fun _ => k))
  (at level 61, right associativity).

Definition getCache : M MetadataCache := fun w => (metadataCache w, w).

Definition setCache (c : MetadataCache) : M unit :=
  fun w => (tt, {| metadataCache := c; apiRetryCount := apiRetryCount w;
                   requests := requests w |}).

Definition getRetryCount : M nat := fun w => (apiRetryCount w, w).

Definition setRetryCount (n : nat) : M unit :=
  fun w => (tt, {| metadataCache := metadataCache w; apiRetryCount := n;
                   requests := requests w |}).

Definition fetch (r : Request) : M unit :=
  fun w => (tt, {| metadataCache := metadataCache w; apiRetryCount := apiRetryCount w;
                   requests := requests w ++ [r] |}).

Definition option_string_eqb (a : option string) (b : string) : bool :=
  match a with
  | Some a => String.eqb a b
  | None => false
  end.

Definition is_some {A : Type} (o : option A) : bool :=
  match o with Some _ => true | None => false end.

Definition normalizeFilename (filename : string) : option string :=
  if String.eqb filename "" then None else Some filename.

Definition maxApiRetries : nat := 5.

Definition show_nat (n : nat) : string := NilEmpty.string_of_uint (Nat.to_uint n).

(** [state.charAt(0).toUpperCase() + state.slice(1)] *)
Definition upper_char (c : ascii) : ascii :=
  if in_range 97 122 c
     || (in_range 224 254 c && negb (code c =? 247)%nat)
  then ascii_of_nat (code c - 32)
  else c.

Definition capitalize (s : string) : string :=
  match s with
  | EmptyString => EmptyString
  | String c s' => String (upper_char c) s'
  end.

(** What one poll writes to the page (status pill, layer text, and the
    arguments of the three [setTimeValue] calls). *)
Record View : Type := {
  status : string;
  layerInfo : LayerText;
  timeEstimate : value;
  timeSlicer : value;
  timeTotal : value
}.

(** The response of the status query: the request fails (the message of
    the thrown error), the response is not [ok], a status arrives, or the
    response is [ok] but no status can be read from it: parsing the body,
    or reading [result.status] or the file name of [print_stats], throws
    an error with the given message. *)
Inductive Response : Type :=
| Rejected (message : string)
| HttpError (code : nat) (statusText : string)
| Ok (status : PrinterStatus)
| Unreadable (message : string).

(** How one call of [fetchPrintStatus] ends. *)
Inductive Outcome : Type :=
| Rendered (view : View)
| RetryScheduled (delay : Z) (status : string)   (* setTimeout(fetchPrintStatus, delay) *)
| Failed (status : string).                      (* no retry for this cycle *)

Definition isNetworkError (message : string) : bool :=
  includes message "Failed to fetch" || includes message "NetworkError"
  || includes message "TypeError".

Section Printer.

Variable PRINTER_IP : string.
Variable net : Network.

Definition fetchMetadataFromApi (fileParam : string) : M (option obj) :=
  fetch (GetMetadata fileParam) ;;;
  ret (metadata_of net fileParam).

Definition fetchMetadataFromGcode (fileParam : string) : M (option obj) :=
  fetch (GetFileHead fileParam) ;;;
  ret (match file_head net fileParam with
       | None => None
       | Some text => parseGcodeHeader text
       end).

(** The result carries the record and its source tag. *)
Definition fetchMetadata (filename : string) : M (option (obj * string)) :=
  match normalizeFilename filename with
  | None => ret None
  | Some fileParam =>
      apiMeta <- fetchMetadataFromApi fileParam ;;
      match apiMeta with
      | Some data => ret (Some (data, "api"))
      | None =>
          headerMeta <- fetchMetadataFromGcode fileParam ;;
          match headerMeta with
          | Some data => ret (Some (data, "gcode-header"))
          | None => ret None
          end
      end
  end.

Definition ensureMetadataLoaded (filename state : string) : M unit :=
  if negb (String.eqb state "printing") || String.eqb filename "" then ret tt
  else
    cache <- getCache ;;
    if option_string_eqb (cache_filename cache) filename && is_some (cache_data cache)
    then ret tt
    else
      setCache {| cache_filename := Some filename;
                  cache_data := cache_data cache;
                  cache_source := cache_source cache |} ;;;
      metaResult <- fetchMetadata filename ;;
      let data := option_map fst metaResult in
      let source := option_map snd metaResult in
      let data := option_map (inferLayerHeight filename) data in
      let data := option_map (inferEstimatedTime filename) data in
      setCache {| cache_filename := Some filename;
                  cache_data := data;
                  cache_source := source |}.

Definition extractThumbnailFromGcode (filename : string) : M (option string) :=
  match normalizeFilename filename with
  | None => ret None
  | Some path =>
      fetch (GetGcodeHead path) ;;;
      ret (match gcode_head net path with
           | None => None
           | Some text => extractThumbnail text
           end)
  end.

(** The [try] block of [fetchPrintStatus] after a status arrived. *)
Definition renderStatus (s : PrinterStatus) : M View :=
  let printStats := print_stats s in
  let displayStatus := display_status s in
  let virtualSdcard := virtual_sdcard s in
  ensureMetadataLoaded (filename printStats) (state printStats) ;;;
  cache <- getCache ;;
  let state := state printStats in
  let statusText := capitalize state in
  if String.eqb state "printing" then
    let rawProgress :=
      (get_opt virtualSdcard "progress" ?? get_opt displayStatus "progress" ?? lit 0)%js in
    let progress :=
      Math_max (lit 0) (Math_min (lit 1) (Num (ToNumber rawProgress) || lit 0)%js) in
    let layers := getLayerInfo (cache_data cache) printStats displayStatus (toolhead s) in
    let printDuration := (print_duration printStats || lit 0)%js in
    let estimateRemaining := computeRemainingFromProgress progress printDuration in
    let slicerTotal := getSlicerTotalSeconds (cache_data cache) (info printStats) in
    let slicerRemaining :=
      if negb (nullish slicerTotal)
      then Math_max (lit 0) (slicerTotal - printDuration)%js
      else null in
    let elapsedTime := getElapsedTime printStats in
    ret {| status := statusText;
           layerInfo := formatLayerInfo (currentLayer layers) (totalLayer layers);
           timeEstimate := estimateRemaining;
           timeSlicer := slicerRemaining;
           timeTotal := elapsedTime |}
  else if String.eqb state "paused" then
    let slicerTotal := getSlicerTotalSeconds (cache_data cache) (info printStats) in
    ret {| status := statusText;
           layerInfo := NoLayers;
           timeEstimate := null;
           timeSlicer := slicerTotal;
           timeTotal := getElapsedTime printStats |}
  else
    let slicerTotal := getSlicerTotalSeconds (cache_data cache) (info printStats) in
    ret {| status := statusText;
           layerInfo := NoLayers;
           timeEstimate := null;
           timeSlicer := slicerTotal;
           timeTotal := null |}.

(** The [catch] block of [fetchPrintStatus]. *)
Definition handleError (message : string) : M Outcome :=
  count <- getRetryCount ;;
  if isNetworkError message && (count <? maxApiRetries)%nat
  then
    let count := S count in
    setRetryCount count ;;;
    let delay := Z.min (2000 * 2 ^ (Z.of_nat count - 1)) 30000 in
    ret (RetryScheduled delay
           ("Retrying... (" ++ show_nat count ++ "/" ++ show_nat maxApiRetries ++ ")"))
  else
    ret (Failed
           (if includes message "HTTP 401" || includes message "HTTP 403"
            then "Authentication Error"
            else if includes message "HTTP 404" then "API Not Found"
            else "Unreachable: " ++ PRINTER_IP)).

Definition fetchPrintStatus (response : Response) : M Outcome :=
  match response with
  | Rejected message => handleError message
  | HttpError code statusText =>
      handleError ("HTTP " ++ show_nat code ++ ": " ++ statusText)
  | Ok s =>
      setRetryCount 0 ;;;
      view <- renderStatus s ;;
      ret (Rendered view)
  | Unreadable message =>
      setRetryCount 0 ;;;
      handleError message
  end.

(** A run of consecutive polls, each with its response; the outcomes in
    order. *)
Fixpoint polls (responses : list Response) : M (list Outcome) :=
  match responses with
  | [] => ret []
  | r :: rest =>
      o <- fetchPrintStatus r ;;
      os <- polls rest ;;
      ret (o :: os)
  end.

End Printer.

(* ================================================================== *)
(** ** Specification vocabulary and sample inputs *)
(* ================================================================== *)

(** A layer value is acceptable when it is absent or a positive number. *)
Definition positive_or_null (v : value) : Prop :=
  v = null \/ exists q : Q, v = lit q /\ (0 < q)%Q.

(** A value that is absent or a finite number that is not negative. *)
Definition nonneg_or_null (v : value) : Prop :=
  v = null \/ exists q : Q, v = lit q /\ (0 <= q)%Q.

(** A value that JSON can carry: missing, [null] or a finite number. *)
Definition json_value (v : value) : bool :=
  match v with
  | Num (Fin _) => true
  | Num _ => false
  | _ => true
  end.

Definition json_obj (o : option obj) : bool :=
  match o with
  | Some o => forallb (fun kv => json_value (snd kv)) o
  | None => true
  end.

(** The layer count a metadata record states, under its three aliases. *)
Definition metadataLayerCount (metadata : option obj) : value :=
  asNumber (get_opt metadata "layer_count" ?? get_opt metadata "total_layer"
            ?? get_opt metadata "total_layers")%js.

(** The four geometry fields tested by the last line of
    [parseGcodeHeader]. *)
Definition geometry_populated (meta : obj) : bool :=
  truthy (get meta "layer_height") || truthy (get meta "first_layer_height")
  || truthy (get meta "layer_count") || truthy (get meta "object_height").

(** Some field of the five was set to a number by the scan. *)
Definition some_field_populated (meta : obj) : bool :=
  existsb (fun key => negb (nullish (get meta key)))
    ["layer_height"; "first_layer_height"; "layer_count"; "object_height";
     "estimated_time"].

(** All the blocks of a text, in order: the captures of the successive
    matches of [blockRegex]. *)
Fixpoint thumbnailBlocks (fuel : nat) (text : string) : list string :=
  match fuel with
  | O => []
  | S fuel' =>
      match exec blockRegex text with
      | None => []
      | Some m => group_text m 1 :: thumbnailBlocks fuel' (after m)
      end
  end.

Definition lastBlockPayload (text : string) : option string :=
  match rev (thumbnailBlocks (S (String.length text)) text) with
  | [] => None
  | body :: _ => Some (cleanBlock body)
  end.

(** The requests of one full metadata resolution for [file], and the
    record it finds (before the filename heuristics). *)
Definition resolutionRequests (net : Network) (file : string) : list Request :=
  GetMetadata file
  :: match metadata_of net file with
     | Some _ => []
     | None => [GetFileHead file]
     end.

Definition resolutionResult (net : Network) (file : string) : option obj :=
  match metadata_of net file with
  | Some data => Some data
  | None =>
      match file_head net file with
      | Some text => parseGcodeHeader text
      | None => None
      end
  end.

(** [n] successive calls of [ensureMetadataLoaded] for the same file while
    printing. *)
Definition ensureCalls (net : Network) (file : string) (n : nat) (w : World) : World :=
  Nat.iter n (fun w => snd (ensureMetadataLoaded net file "printing" w)) w.

(** The body of a block as slicers write it: a line break, then every
    payload line as a comment line. *)
Definition LF : string := String "010" "".

Definition commentLines (payload : list string) : string :=
  LF ++ join (map (fun line => "; " ++ line ++ LF) payload).

Fixpoint all_chars (p : ascii -> bool) (s : string) : bool :=
  match s with
  | EmptyString => true
  | String c s' => p c && all_chars p s'
  end.

(** A character of a payload line: not a blank and not the comment
    marker (the base64 alphabet is of this kind). *)
Definition payload_char (c : ascii) : bool := negb (is_space c) && negb (Ascii.eqb c ";").

(** A pattern that cannot match the empty string. *)
Fixpoint consuming (r : re) : bool :=
  match r with
  | Chr _ | Plus _ => true
  | Seq a b => consuming a || consuming b
  | Alt a b => consuming a && consuming b
  | Group _ a => consuming a
  | _ => false
  end.

Module Sample.

(** Toolhead at Z = 1.8 mm. *)
Definition toolhead_z18 : option Toolhead :=
  Some {| position := Some [lit 0; lit 0; lit 1.8; lit 0] |}.

(** Metadata: 0.2 mm layers, 100 of them. *)
Definition metadata_100 : option obj :=
  Some [("layer_height", lit 0.2); ("layer_count", lit 100)].

(** Metadata that states a layer count of 0, or a negative one, for an
    object 20 mm high. *)
Definition metadata_count0 : option obj :=
  Some [("layer_height", lit 0.2); ("object_height", lit 20); ("layer_count", lit 0)].

Definition metadata_negative : option obj :=
  Some [("layer_height", lit 0.2); ("object_height", lit 20); ("layer_count", lit (-5))].

Definition progress_12 : option obj := Some [("progress", lit 0.12)].

Definition stats (file st : string) (i : option obj) : PrintStats :=
  {| filename := file; state := st; info := i;
     print_duration := lit 600; total_duration := lit 660 |}.

(** The slicer reports layer 5, layer 0, or nothing. *)
Definition stats_layer5 : PrintStats :=
  stats "a.gcode" "printing" (Some [("current_layer", lit 5)]).
Definition stats_layer0 : PrintStats :=
  stats "a.gcode" "printing" (Some [("current_layer", lit 0)]).
Definition stats_noinfo : PrintStats :=
  stats "a.gcode" "printing" (Some [("total_layer", null); ("current_layer", null)]).

(** A printer that answers no metadata request. *)
Definition silent : Network :=
  {| metadata_of := fun _ => None;
     file_head := fun _ => None;
     gcode_head := fun _ => None |}.

(** A printer whose metadata API knows the file but none of the fields
    the overlay reads. *)
Definition bare_api : Network :=
  {| metadata_of := fun _ => Some [("size", lit 123456)];
     file_head := fun _ => None;
     gcode_head := fun _ => None |}.

(** After a finished print: the cache still holds the file's record. *)
Definition world_after_print : World :=
  {| metadataCache :=
       {| cache_filename := Some "a.gcode";
          cache_data := Some [("estimated_time", lit 3600)];
          cache_source := Some "api" |};
     apiRetryCount := 0;
     requests := [] |}.

Definition status_complete : PrinterStatus :=
  {| print_stats := stats "a.gcode" "complete" None;
     display_status := Some [("progress", lit 1)];
     virtual_sdcard := Some [("progress", lit 1)];
     toolhead := toolhead_z18 |}.

(** The cache after a resolution of ["a.gcode"] that found nothing. *)
Definition world_unresolved : World :=
  {| metadataCache :=
       {| cache_filename := Some "a.gcode"; cache_data := None; cache_source := None |};
     apiRetryCount := 0;
     requests := [] |}.

(** The record in the cache after [ensureMetadataLoaded] ran for [file]
    on a fresh page while printing. *)
Definition resolved (net : Network) (file : string) : option obj :=
  cache_data (metadataCache (snd (ensureMetadataLoaded net file "printing" initialWorld))).

Definition heuristics_file : string := "model_0.28mm_2h15m.gcode".
Definition duration_first_file : string := "2h15m_model_0.28mm.gcode".

(** Two thumbnail blocks, with G-code in between. *)
Definition two_thumbnails : string :=
  "; thumbnail begin 32x32 16" ++ LF ++
  "; AAAA" ++ LF ++
  "; BBBB" ++ LF ++
  "; thumbnail end" ++ LF ++
  "G28" ++ LF ++
  "; thumbnail begin 300x300 24" ++ LF ++
  "; CCCC  " ++ LF ++
  ";DDDD" ++ LF ++
  "; EE==" ++ LF ++
  "; thumbnail end" ++ LF ++
  "G1 X0 Y0" ++ LF.

(** A printer that serves that text as the head of every G-code file. *)
Definition thumbnail_printer : Network :=
  {| metadata_of := fun _ => None;
     file_head := fun _ => None;
     gcode_head := fun _ => Some two_thumbnails |}.

End Sample.


(* ================================================================== *)
(** ** Further vocabulary *)
(* ================================================================== *)

From Stdlib Require Import Lqa.

(** The progress ratio used while printing: [rawProgress] converted to a
    number, NaN and 0 replaced by 0, clamped to [0, 1]. *)
Definition clampedProgress (rawProgress : value) : value :=
  Math_max (lit 0) (Math_min (lit 1) (Num (ToNumber rawProgress) || lit 0)%js).

(** A field that is missing, [null], or a finite number that is not
    negative. *)
Definition nonneg_or_missing (v : value) : Prop :=
  nullish v = true \/ exists q : Q, v = lit q /\ (0 <= q)%Q.

(** The text for a whole number of seconds [t]: hours and minutes from one
    hour on, minutes and seconds from one minute on, seconds below. *)
Definition clockText (t : Z) : TimeText :=
  let h := (t / 3600)%Z in
  let m := ((t mod 3600) / 60)%Z in
  let sec := (t mod 60)%Z in
  if (0 <? h)%Z then HoursMinutes (lit (inject_Z h)) (lit (inject_Z m))
  else if (0 <? m)%Z then MinutesSeconds (lit (inject_Z m)) (lit (inject_Z sec))
  else SecondsOnly (lit (inject_Z sec)).

(** A field that was never set, or holds [null] or a finite number that
    is not negative. *)
Definition nonneg_field (v : value) : Prop :=
  v = undefined \/ v = null \/ exists q : Q, v = lit q /\ (0 <= q)%Q.

(** The cache entry that a full resolution of [file] produces: the record
    of the API, else the one parsed from the head of the file, patched by
    the filename heuristics, with its source tag. *)
Definition resolvedEntry (net : Network) (file : string) : MetadataCache :=
  {| cache_filename := Some file;
     cache_data :=
       option_map (inferEstimatedTime file)
         (option_map (inferLayerHeight file) (resolutionResult net file));
     cache_source :=
       match metadata_of net file with
       | Some _ => Some "api"
       | None =>
           match resolutionResult net file with
           | Some _ => Some "gcode-header"
           | None => None
           end
       end |}.

(** A retry was scheduled. *)
Definition is_retry (o : Outcome) : bool :=
  match o with
  | RetryScheduled _ _ => true
  | _ => false
  end.

(** The request itself failed: it was rejected, or the response was not
    [ok]. *)
Definition is_failure (r : Response) : bool :=
  match r with
  | Rejected _ | HttpError _ _ => true
  | Ok _ | Unreadable _ => false
  end.

(** The delay of a scheduled retry lies between the base and the cap. *)
Definition delay_in_range (o : Outcome) : Prop :=
  match o with
  | RetryScheduled delay _ => (2000 <= delay <= 30000)%Z
  | _ => True
  end.

(** No line feed in a string. *)
Definition no_line_feed (s : string) : bool :=
  all_chars (fun c => negb (Ascii.eqb c "010")) s.

(* ================================================================== *)
(** ** Camera feed *)
(* ================================================================== *)

(** The camera element of the page, with the retry counter that
    [setupCamera] keeps in its closure. *)
Record Camera : Type := {
  cam_retryCount : nat;
  cam_src : string;
  cam_hidden : bool;
  cam_loaded : bool;
  cam_transform : string
}.

Definition cameraMaxRetries : nat := 3.

(** [flips.join(' ')] *)
Definition cameraTransform (flipX flipY : bool) : string :=
  match flipX, flipY with
  | true, true => "scaleX(-1) scaleY(-1)"
  | true, false => "scaleX(-1)"
  | false, true => "scaleY(-1)"
  | false, false => ""
  end.

Section CameraSetup.

Variable CAMERA_URL : string.
Variable CAMERA_FLIP_X CAMERA_FLIP_Y : bool.

(** [loadCamera]; [now] is [Date.now()]. *)
Definition loadCamera (now : nat) (cam : Camera) : Camera :=
  {| cam_retryCount := cam_retryCount cam;
     cam_src :=
       CAMERA_URL
       ++ (if (0 <? cam_retryCount cam)%nat
           then "?retry=" ++ show_nat (cam_retryCount cam) ++ "&t=" ++ show_nat now
           else "");
     cam_hidden := false;
     cam_loaded := cam_loaded cam;
     cam_transform := cameraTransform CAMERA_FLIP_X CAMERA_FLIP_Y |}.

(** [cameraEl.onload] *)
Definition cameraOnLoad (cam : Camera) : Camera :=
  {| cam_retryCount := cam_retryCount cam;
     cam_src := cam_src cam;
     cam_hidden := cam_hidden cam;
     cam_loaded := true;
     cam_transform := cam_transform cam |}.

(** [cameraEl.onerror]: the new state and the delay of the reload it
    schedules, if any. *)
Definition cameraOnError (cam : Camera) : Camera * option Z :=
  let retryCount := S (cam_retryCount cam) in
  ({| cam_retryCount := retryCount;
      cam_src := cam_src cam;
      cam_hidden := cam_hidden cam;
      cam_loaded := false;
      cam_transform := cam_transform cam |},
   if (retryCount <=? cameraMaxRetries)%nat
   then Some (Z.min (1000 * 2 ^ (Z.of_nat retryCount - 1)) 8000)
   else None).

(** The element as [setupCamera] leaves it, before any event. *)
Definition setupCamera (cam : Camera) : Camera :=
  if String.eqb CAMERA_URL ""
  then {| cam_retryCount := cam_retryCount cam;
          cam_src := cam_src cam;
          cam_hidden := true;
          cam_loaded := cam_loaded cam;
          cam_transform := cam_transform cam |}
  else loadCamera 0 {| cam_retryCount := 0;
                       cam_src := cam_src cam;
                       cam_hidden := cam_hidden cam;
                       cam_loaded := cam_loaded cam;
                       cam_transform := cam_transform cam |}.

(** What happens to the element afterwards: the image loads, fails to
    load, or a scheduled reload fires (at time [now]). *)
Inductive CameraEvent : Type :=
| ImageLoaded
| ImageFailed
| ReloadFires (now : nat).

(** The element after a sequence of events, and the delays of the reloads
    scheduled on the way. *)
Fixpoint cameraRun (events : list CameraEvent) (cam : Camera) : Camera * list Z :=
  match events with
  | [] => (cam, [])
  | ImageLoaded :: rest => cameraRun rest (cameraOnLoad cam)
  | ReloadFires now :: rest => cameraRun rest (loadCamera now cam)
  | ImageFailed :: rest =>
      let (cam', scheduled) := cameraOnError cam in
      let (final, delays) := cameraRun rest cam' in
      (final, match scheduled with
              | Some delay => delay :: delays
              | None => delays
              end)
  end.

End CameraSetup.

(** The number of failed loads in a sequence of events. *)
Definition loadFailures (events : list CameraEvent) : nat :=
  List.length (filter (fun e => match e with ImageFailed => true | _ => false end) events).

(* ================================================================== *)
(** ** Printer configuration *)
(* ================================================================== *)

(** A field of a configuration object: missing, [null], a boolean, a
    number or a string (nested objects are not modelled). *)
Inductive jsval : Type :=
| JUndefined
| JNull
| JBool (b : bool)
| JNumber (n : num)
| JString (s : string).

Definition config : Type := list (string * jsval).

Fixpoint field (c : config) (key : string) : jsval :=
  match c with
  | [] => JUndefined
  | (k, v) :: rest => if String.eqb k key then v else field rest key
  end.

(** An element of a printer list: an object, or something that is not
    one ([null], a number, a string, a boolean). *)
Inductive item : Type :=
| Primitive (v : jsval)
| Object (c : config).

(** ToBoolean *)
Definition js_truthy (v : jsval) : bool :=
  match v with
  | JUndefined | JNull => false
  | JBool b => b
  | JNumber n => num_truthy n
  | JString s => negb (String.eqb s "")
  end.

(** [a || b] *)
Definition js_or (a b : jsval) : jsval := if js_truthy a then a else b.

(** [typeof v !== 'string' || !v.trim()] *)
Definition not_a_filled_string (v : jsval) : bool :=
  match v with
  | JString s => String.eqb (trim s) ""
  | _ => true
  end.

Definition num_neg (a : num) : num :=
  match a with
  | NaN => NaN
  | Inf s => Inf (negb s)
  | Fin q => Fin (- q)
  end.

(** The value of a digit in a base up to 16. *)
Definition digit_in_base (base : Z) (c : ascii) : option Z :=
  let v :=
    if is_digit c then Some (digit_val c)
    else if in_range 97 102 c then Some (Z.of_nat (code c - 87))
    else if in_range 65 70 c then Some (Z.of_nat (code c - 55))
    else None in
  match v with
  | Some d => if (d <? base)%Z then Some d else None
  | None => None
  end.

Fixpoint digits_in_base (base acc : Z) (s : string) : option Z :=
  match s with
  | EmptyString => Some acc
  | String c s' =>
      match digit_in_base base c with
      | Some d => digits_in_base base (base * acc + d) s'
      | None => None
      end
  end.

(** [0x...], [0o...], [0b...] after the prefix. *)
Definition nonDecimalLiteral (base : Z) (digits : string) : num :=
  match digits with
  | EmptyString => NaN
  | _ =>
      match digits_in_base base 0 digits with
      | Some v => Fin (inject_Z v)
      | None => NaN
      end
  end.

(** The text before the first [e] or [E], and what follows it. *)
Fixpoint split_exponent (s : string) : string * option string :=
  match s with
  | EmptyString => (EmptyString, None)
  | String c s' =>
      if Ascii.eqb c "e" || Ascii.eqb c "E" then (EmptyString, Some s')
      else let (a, b) := split_exponent s' in (String c a, b)
  end.

Definition unsigned_digits (s : string) : option Z :=
  match s with
  | EmptyString => None
  | _ => if all_digits s then Some (digits_to_Z 0 s) else None
  end.

(** The exponent part after the [e]: an optional sign and digits. *)
Definition exponentValue (s : string) : option Z :=
  match s with
  | String c d =>
      if Ascii.eqb c "+" then unsigned_digits d
      else if Ascii.eqb c "-" then option_map Z.opp (unsigned_digits d)
      else unsigned_digits s
  | EmptyString => None
  end.

(** An unsigned decimal literal: [Infinity], or digits with an optional
    fraction and an optional exponent. *)
Definition unsignedDecimal (s : string) : num :=
  if String.eqb s "Infinity" then Inf false
  else
    let (mantissa, exponent) := split_exponent s in
    match mantissa with
    | EmptyString => NaN
    | _ =>
        match Number_of_string mantissa, exponent with
        | Fin m, None => Fin m
        | Fin m, Some e =>
            match exponentValue e with
            | Some k => Fin (m * Qpower 10 k)
            | None => NaN
            end
        | other, _ => other
        end
    end.

(** [Number(s)] for any string: blanks around the literal are dropped,
    the empty string is 0, then a literal with a base prefix or a signed
    decimal literal; anything else is NaN. *)
Definition StringToNumber (s : string) : num :=
  match trim s with
  | EmptyString => Fin 0
  | String c rest as t =>
      if Ascii.eqb c "+" then unsignedDecimal rest
      else if Ascii.eqb c "-" then num_neg (unsignedDecimal rest)
      else
        match rest with
        | String p digits =>
            if Ascii.eqb c "0" && (Ascii.eqb p "x" || Ascii.eqb p "X")
            then nonDecimalLiteral 16 digits
            else if Ascii.eqb c "0" && (Ascii.eqb p "o" || Ascii.eqb p "O")
            then nonDecimalLiteral 8 digits
            else if Ascii.eqb c "0" && (Ascii.eqb p "b" || Ascii.eqb p "B")
            then nonDecimalLiteral 2 digits
            else unsignedDecimal t
        | EmptyString => unsignedDecimal t
        end
  end.

(** [Number(v)] *)
Definition js_Number (v : jsval) : num :=
  match v with
  | JUndefined => NaN
  | JNull => Fin 0
  | JBool b => if b then Fin 1 else Fin 0
  | JNumber n => n
  | JString s => StringToNumber s
  end.

(** The messages of [validateConfig]. *)
Inductive ConfigError : Type :=
| NotAnObject      (* Configuration must be an object *)
| MissingId        (* Printer configuration missing required "id" field *)
| MissingName      (* Printer configuration missing "name" field *)
| MissingIp        (* Printer configuration missing "ip" field (IP address or hostname) *)
| IpNotString      (* Printer "ip" must be a non-empty string *)
| BadInterval.     (* updateInterval must be between 500 and 60000 milliseconds *)

Record Validation : Type := { valid : bool; errors : list ConfigError }.

Definition is_nil {A : Type} (l : list A) : bool :=
  match l with [] => true | _ => false end.

Definition validateConfig (cfg : item) (isFromList : bool) : Validation :=
  match cfg with
  | Primitive _ => {| valid := false; errors := [NotAnObject] |}
  | Object c =>
      let errors := [] in
      let errors :=
        if isFromList && (negb (js_truthy (field c "id")) || not_a_filled_string (field c "id"))
        then (errors ++ [MissingId])%list else errors in
      let errors :=
        if negb (js_truthy (field c "name")) && negb (js_truthy (field c "label"))
        then (errors ++ [MissingName])%list else errors in
      let errors :=
        if negb (js_truthy (field c "ip")) && negb (js_truthy (field c "host"))
        then (errors ++ [MissingIp])%list
        else
          let ip := js_or (field c "ip") (field c "host") in
          if not_a_filled_string ip then (errors ++ [IpNotString])%list else errors in
      let errors :=
        match field c "updateInterval" with
        | JUndefined => errors
        | raw =>
            let interval := js_Number raw in
            if negb (isFinite interval) || num_lt interval (Fin 500)
               || num_lt (Fin 60000) interval
            then (errors ++ [BadInterval])%list else errors
        end in
      {| valid := is_nil errors; errors := errors |}
  end.

(** The messages of [validatePrinterList]; printers are numbered from 1. *)
Inductive ListError : Type :=
| NotAnArray                                    (* printers.json must contain a "printers" array *)
| EmptyList                                     (* printers.json "printers" array is empty *)
| PrinterError (number : nat) (e : ConfigError) (* Printer #n: message *)
| DuplicateId (number : nat) (id : jsval).      (* Printer #n: Duplicate id "id" *)

Record ListValidation : Type := {
  list_valid : bool;
  list_errors : list ListError;
  validConfigs : list item
}.

(** SameValueZero, the equality of a [Set]. *)
Definition same_value (a b : jsval) : bool :=
  match a, b with
  | JUndefined, JUndefined | JNull, JNull => true
  | JBool x, JBool y => Bool.eqb x y
  | JString x, JString y => String.eqb x y
  | JNumber NaN, JNumber NaN => true
  | JNumber (Inf x), JNumber (Inf y) => Bool.eqb x y
  | JNumber (Fin x), JNumber (Fin y) => Qeq_bool x y
  | _, _ => false
  end.

Definition item_field (cfg : item) (key : string) : jsval :=
  match cfg with
  | Object c => field c key
  | Primitive _ => JUndefined
  end.

(** The [forEach] of [validatePrinterList], from the element at [index]
    on; [ids] is the set of the ids accepted so far. *)
Fixpoint validateEach (index : nat) (printerList : list item)
         (allErrors : list ListError) (accepted : list item) (ids : list jsval)
  : list ListError * list item :=
  match printerList with
  | [] => (allErrors, accepted)
  | cfg :: rest =>
      let result := validateConfig cfg true in
      if negb (valid result)
      then validateEach (S index) rest
             (allErrors ++ map (PrinterError (index + 1)) (errors result))%list accepted ids
      else if existsb (same_value (item_field cfg "id")) ids
      then validateEach (S index) rest
             (allErrors ++ [DuplicateId (index + 1) (item_field cfg "id")])%list accepted ids
      else validateEach (S index) rest allErrors (accepted ++ [cfg])%list
             (ids ++ [item_field cfg "id"])%list
  end.

(** [printerList] is [None] when the value is not an array. *)
Definition validatePrinterList (printerList : option (list item)) : ListValidation :=
  match printerList with
  | None => {| list_valid := false; list_errors := [NotAnArray]; validConfigs := [] |}
  | Some [] => {| list_valid := false; list_errors := [EmptyList]; validConfigs := [] |}
  | Some printerList =>
      let (allErrors, accepted) := validateEach 0 printerList [] [] [] in
      {| list_valid := is_nil allErrors && negb (is_nil accepted);
         list_errors := allErrors;
         validConfigs := accepted |}
  end.

(** What [validateConfig] asks of a printer of a list. *)
Definition filled_string (v : jsval) : Prop :=
  exists s, v = JString s /\ trim s <> "".

Definition interval_in_range (v : jsval) : Prop :=
  exists q, js_Number v = Fin q /\ (500 <= q)%Q /\ (q <= 60000)%Q.

Definition well_formed (cfg : item) : Prop :=
  exists c, cfg = Object c
    /\ filled_string (field c "id")
    /\ (js_truthy (field c "name") = true \/ js_truthy (field c "label") = true)
    /\ filled_string (js_or (field c "ip") (field c "host"))
    /\ (field c "updateInterval" = JUndefined
        \/ interval_in_range (field c "updateInterval")).

Definition error_number (e : ListError) : nat :=
  match e with
  | PrinterError number _ | DuplicateId number _ => number
  | NotAnArray | EmptyList => 0
  end.

(** The result of an expression that may throw. *)
Inductive completion (A : Type) : Type :=
| Normal (a : A)
| TypeError.
Arguments Normal {A} a.
Arguments TypeError {A}.

(** [a ?? b] *)
Definition js_coalesce (a b : jsval) : jsval :=
  match a with
  | JUndefined | JNull => b
  | _ => a
  end.

(** [v === s] for a string literal [s] *)
Definition is_string (v : jsval) (s : string) : bool :=
  match v with
  | JString t => String.eqb t s
  | _ => false
  end.

(** The [data-*] attributes of the page body that [applyConfig] reads;
    each is a string, or [JUndefined] when the attribute is missing. *)
Record Dataset : Type := {
  printerName : jsval;
  printerIp : jsval;
  cameraFlipX : jsval;
  cameraFlipY : jsval;
  chamberEnabled : jsval;
  showChamber : jsval;
  updateInterval : jsval;
  debug : jsval
}.

Record Settings : Type := {
  PRINTER_NAME : jsval;
  PRINTER_IP : jsval;
  CAMERA_URL : jsval;
  CAMERA_FLIP_X : bool;
  CAMERA_FLIP_Y : bool;
  SHOW_CHAMBER : bool;
  UPDATE_INTERVAL : num;
  DEBUG : bool
}.

Section Conversions.

(** [String(n)] on a number is left open: what is proved holds however
    numbers are printed. *)
Variable numberToString : num -> string.

(** [String(v)] *)
Definition js_String (v : jsval) : string :=
  match v with
  | JUndefined => "undefined"
  | JNull => "null"
  | JBool b => if b then "true" else "false"
  | JNumber n => numberToString n
  | JString s => s
  end.

Definition parseBool (val : jsval) : bool :=
  match val with
  | JUndefined | JNull => false
  | JBool b => b
  | _ =>
      let str := toLowerCase (js_String val) in
      String.eqb str "true" || String.eqb str "1" || String.eqb str "yes"
  end.

(** Reading a property of a list element throws on [null] and
    [undefined]; the other primitives have none of the properties read
    here. *)
Definition property (cfg : item) (key : string) : completion jsval :=
  match cfg with
  | Object c => Normal (field c key)
  | Primitive JUndefined | Primitive JNull => TypeError
  | Primitive _ => Normal JUndefined
  end.

(** The name under which [selectConfig] looks a printer up. *)
Definition lookupName (cfg : item) : completion string :=
  match property cfg "id", property cfg "name", property cfg "label" with
  | Normal id, Normal name, Normal label =>
      Normal (toLowerCase (js_String (js_or (js_or (js_or id name) label) (JString ""))))
  | _, _, _ => TypeError
  end.

(** [list.find(...) || null]: the elements are objects when they match,
    so the found element is never falsy. *)
Fixpoint findConfig (list : list item) (lowerKey : string) : completion (option item) :=
  match list with
  | [] => Normal None
  | cfg :: rest =>
      match lookupName cfg with
      | TypeError => TypeError
      | Normal id => if String.eqb id lowerKey then Normal (Some cfg) else findConfig rest lowerKey
      end
  end.

Definition selectConfig (list : list item) (key : string) : completion (option item) :=
  if String.eqb key "" then Normal None
  else findConfig list (toLowerCase key).

Definition applyConfig (cfg : option config) (dataset : Dataset) : Settings :=
  let config := match cfg with Some c => c | None => [] end in
  let name :=
    js_or (js_or (js_or (field config "name") (field config "label")) (printerName dataset))
          (JString "Printer") in
  let ip :=
    js_or (js_or (js_or (field config "ip") (field config "host")) (printerIp dataset))
          (JString "localhost") in
  let camera := js_or (field config "camera") (JString "") in
  let flipX :=
    parseBool (js_coalesce (js_coalesce (field config "flipHorizontal") (cameraFlipX dataset))
                           (JString "false")) in
  let flipY :=
    parseBool (js_coalesce (js_coalesce (field config "flipVertical") (cameraFlipY dataset))
                           (JString "false")) in
  let chamber :=
    parseBool (js_coalesce
                 (js_coalesce (js_coalesce (field config "showChamber") (chamberEnabled dataset))
                              (showChamber dataset))
                 (JString "false")) in
  let requested :=
    js_Number (js_or (js_or (js_or (field config "updateInterval") (field config "intervalMs"))
                            (updateInterval dataset))
                     (JNumber (Fin 2000))) in
  let interval := if num_truthy requested then requested else Fin 2000 in
  let dbg := parseBool (js_coalesce (js_coalesce (field config "debug") (debug dataset))
                                    (JString "false")) in
  let camera :=
    if negb (js_truthy camera) && js_truthy ip && negb (is_string ip "localhost")
    then JString ("http://" ++ js_String ip ++ "/webcam/?action=stream")
    else camera in
  {| PRINTER_NAME := name;
     PRINTER_IP := ip;
     CAMERA_URL := camera;
     CAMERA_FLIP_X := flipX;
     CAMERA_FLIP_Y := flipY;
     SHOW_CHAMBER := chamber;
     UPDATE_INTERVAL := interval;
     DEBUG := dbg |}.

End Conversions.

(* ================================================================== *)
(** ** Chamber temperature detection *)
(* ================================================================== *)

Definition chamberCandidates : list string :=
  [ "temperature_sensor chamber";
    "temperature_sensor chamber_temp";
    "temperature_sensor chamber-temp";
    "temperature_sensor enclosure_temp";
    "temperature_sensor enclosure";
    "temperature_host enclosure_temp";
    "temperature_host enclosure";
    "temperature_sensor chamber2";
    "temperature_sensor enclosure_upper";
    "temperature_sensor chamber_average" ].

(** The requests sent to the printer while looking for the chamber. *)
Inductive ChamberRequest : Type :=
| ListObjects                          (* /printer/objects/list *)
| QueryObject (objName : string).      (* /printer/objects/query?objName *)

(** The three variables of the detection, and the requests sent so far,
    oldest first. *)
Record ChamberState : Type := {
  chamberObjectName : option string;
  objectListCache : option (list string);
  objectListFetchedAt : Z;
  chamberRequests : list ChamberRequest
}.

Definition initialChamberState : ChamberState :=
  {| chamberObjectName := None;
     objectListCache := None;
     objectListFetchedAt := 0;
     chamberRequests := [] |}.

Definition sendRequest (r : ChamberRequest) (s : ChamberState) : ChamberState :=
  {| chamberObjectName := chamberObjectName s;
     objectListCache := objectListCache s;
     objectListFetchedAt := objectListFetchedAt s;
     chamberRequests := (chamberRequests s ++ [r])%list |}.

Definition setChamberObjectName (name : string) (s : ChamberState) : ChamberState :=
  {| chamberObjectName := Some name;
     objectListCache := objectListCache s;
     objectListFetchedAt := objectListFetchedAt s;
     chamberRequests := chamberRequests s |}.

Definition setObjectList (list : list string) (now : Z) (s : ChamberState) : ChamberState :=
  {| chamberObjectName := chamberObjectName s;
     objectListCache := Some list;
     objectListFetchedAt := now;
     chamberRequests := chamberRequests s |}.

(** A string or [null] as a condition: [null] and the empty string are
    falsy. *)
Definition truthy_name (name : option string) : option string :=
  match name with
  | Some n => if String.eqb n "" then None else Some n
  | None => None
  end.

(** [list.indexOf(x)], [None] for -1 *)
Fixpoint indexOf (list : list string) (x : string) : option nat :=
  match list with
  | [] => None
  | y :: rest =>
      if String.eqb y x then Some 0%nat
      else option_map S (indexOf rest x)
  end.

(** What the chamber chip shows. *)
Inductive ChamberChip : Type :=
| ChipReading (temps : ChamberReading)   (* current and target, in degrees *)
| ChipPlaceholder                        (* -- *)
| ChipHidden.

Section Chamber.

(** The printer: its answer to the list request, an array of object
    names or [None] when the request fails, is not ok or holds no
    array; and for each object name the first entry of the status it
    answers a query with, [None] when [querySingleObject] gives
    [null]. *)
Variable listing : option (list string).
Variable status : string -> option obj.

Definition fetchObjectList (now : Z) (s : ChamberState) : option (list string) * ChamberState :=
  let fresh :=
    match objectListCache s with
    | Some _ => (now - objectListFetchedAt s <? 30000)%Z
    | None => false
    end in
  if fresh then (objectListCache s, s)
  else
    let s := sendRequest ListObjects s in
    match listing with
    | Some list => (Some list, setObjectList list now s)
    | None => (None, s)
    end.

Definition querySingleObject (objName : string) (s : ChamberState) : option obj * ChamberState :=
  (status objName, sendRequest (QueryObject objName) s).

(** The loop of [getChamberObjectName] over the candidates. *)
Fixpoint matchCandidates (candidates objects lower : list string) : option string :=
  match candidates with
  | [] => None
  | candidate :: rest =>
      match indexOf lower (toLowerCase candidate) with
      | Some idx => Some (nth idx objects "")
      | None => matchCandidates rest objects lower
      end
  end.

Definition getChamberObjectName (now : Z) (s : ChamberState) : option string * ChamberState :=
  match truthy_name (chamberObjectName s) with
  | Some name => (Some name, s)
  | None =>
      let (objects, s) := fetchObjectList now s in
      match objects with
      | None => (None, s)
      | Some objects =>
          let lower := map toLowerCase objects in
          match matchCandidates chamberCandidates objects lower with
          | Some name => (Some name, setChamberObjectName name s)
          | None => (None, s)
          end
      end
  end.

(** The loop of [fetchChamberTemp] over the candidates. *)
Fixpoint probeCandidates (candidates : list string) (s : ChamberState)
  : option ChamberReading * ChamberState :=
  match candidates with
  | [] => (None, s)
  | candidate :: rest =>
      let (data, s) := querySingleObject candidate s in
      match parseTempEntry data with
      | Some parsed => (Some parsed, setChamberObjectName candidate s)
      | None => probeCandidates rest s
      end
  end.

Definition fetchChamberTemp (now : Z) (s : ChamberState) : option ChamberReading * ChamberState :=
  let (objName, s) := getChamberObjectName now s in
  let (known, s) :=
    match truthy_name objName with
    | Some objName =>
        let (data, s) := querySingleObject objName s in
        (parseTempEntry data, s)
    | None => (None, s)
    end in
  match known with
  | Some parsed => (Some parsed, s)
  | None => probeCandidates chamberCandidates s
  end.

(** [updateChamber] on a page that has the chamber chip. *)
Definition updateChamber (SHOW_CHAMBER : bool) (now : Z) (s : ChamberState)
  : ChamberChip * ChamberState :=
  let (temps, s) := fetchChamberTemp now s in
  (match temps with
   | Some temps => ChipReading temps
   | None => if SHOW_CHAMBER then ChipPlaceholder else ChipHidden
   end, s).

End Chamber.

(** Sample printers for the configuration and the chamber detection. *)
Module SamplePrinters.

Definition voron : config :=
  [("id", JString "Voron"); ("name", JString "Voron 2.4"); ("ip", JString "10.0.0.5");
   ("updateInterval", JString " 750 "); ("intervalMs", JNumber (Fin 5))].

Definition ender : config :=
  [("id", JString "ender"); ("name", JString "voron"); ("host", JString "ender.local")].

Definition printers : list item := [Object voron; Object ender].

Definition with_null : list item := [Object voron; Primitive JNull].

Definition page : Dataset :=
  {| printerName := JUndefined; printerIp := JUndefined; cameraFlipX := JUndefined;
     cameraFlipY := JUndefined; chamberEnabled := JUndefined; showChamber := JUndefined;
     updateInterval := JString "3000"; debug := JUndefined |}.

Definition numberToString (n : num) : string := "0".

(** A printer whose chamber sensor is spelled with capitals. *)
Definition listing : option (list string) :=
  Some ["heater_bed"; "Temperature_Sensor Chamber"; "extruder"].

Definition status (objName : string) : option obj :=
  if String.eqb objName "Temperature_Sensor Chamber"
  then Some [("temperature", lit 41.6)]
  else None.

(** A printer without any chamber sensor. *)
Definition no_sensor (objName : string) : option obj := None.

End SamplePrinters.

(* ================================================================== *)
(** ** File name shown *)
(* ================================================================== *)

(** [s.split(sep)] for a separator of one character *)
Fixpoint split_on (sep : ascii) (s : string) : list string :=
  match s with
  | EmptyString => [EmptyString]
  | String c s' =>
      let r := split_on sep s' in
      if Ascii.eqb c sep then EmptyString :: r
      else match r with
           | h :: t => String c h :: t
           | [] => [String c EmptyString]
           end
  end.

(** [parts.pop()] of an array of strings that is not empty *)
Definition pop (parts : list string) : string := last parts EmptyString.

(** [s.replace(regex, '')] for a regex without the [g] flag: the
    leftmost match is removed. *)
Fixpoint remove_match (r : re) (s : string) : string :=
  match match_here r s with
  | Some m => after m
  | None =>
      match s with
      | String c s' => String c (remove_match r s')
      | EmptyString => EmptyString
      end
  end.

(** [/\.gcode$/i] *)
Definition gcodeSuffix : re := Seq (LitI ".gcode") Eol.

(** [filename] is [None] for [null] and [undefined]. *)
Definition formatFilename (filename : option string) : option string :=
  match filename with
  | None | Some EmptyString => None
  | Some filename =>
      let normalized := pop (split_on "/" filename) in
      Some (remove_match gcodeSuffix normalized)
  end.

Definition not_slash (c : ascii) : bool := negb (Ascii.eqb c "/").
(* ================================================================== *)
(** ** Properties *)
(* ================================================================== *)

(** Steps through the state-passing combinators. *)
Ltac run_state :=
  unfold bind, ret, getCache, setCache, getRetryCount, setRetryCount, fetch.

Create HintDb js_values.

(** *** Values *)

Lemma get_set (o : obj) (k k' : string) (v : value) :
  get (set o k v) k' = if String.eqb k k' then v else get o k'.
Proof.
  induction o as [|[j w] o IH]; simpl.
  - reflexivity.
  - destruct (String.eqb j k) eqn:Ejk; simpl.
    + apply String.eqb_eq in Ejk; subst j.
      destruct (String.eqb k k'); reflexivity.
    + rewrite IH.
      destruct (String.eqb j k') eqn:Ejk'; [|reflexivity].
      apply String.eqb_eq in Ejk'; subst j. now rewrite String.eqb_sym, Ejk.
Qed.

Lemma Qltb_lt (a b : Q) : Qltb a b = true <-> (a < b)%Q.
Proof.
  unfold Qltb. rewrite negb_true_iff. split; intro H.
  - apply Qnot_le_lt. intro L. apply Qle_bool_iff in L. congruence.
  - destruct (Qle_bool b a) eqn:E; [|reflexivity].
    apply Qle_bool_iff in E. exfalso. eapply Qlt_not_le; eauto.
Qed.

Lemma Qltb_ge (a b : Q) : Qltb a b = false <-> (b <= a)%Q.
Proof.
  unfold Qltb. rewrite negb_false_iff. apply Qle_bool_iff.
Qed.

Lemma Qis_zero_false_pos (q : Q) : (0 < q)%Q -> Qis_zero q = false.
Proof.
  intro H. unfold Qis_zero. destruct (Qeq_bool q 0) eqn:E; [|reflexivity].
  apply Qeq_bool_eq in E. rewrite E in H. exfalso. eapply Qlt_irrefl; eauto.
Qed.

(** *** Remaining time by progress *)

(** C3: for a progress [p] strictly between 0 and 1 and a duration [d],
    [computeRemainingFromProgress] returns [d/p - d]; for [p <= 0] or
    [p >= 1] it returns [null].  (The result does not depend on [d] being
    non-negative.) *)
Theorem remaining_by_progress (p d : Q) :
  ((0 < p)%Q -> (p < 1)%Q ->
   computeRemainingFromProgress (lit p) (lit d) = lit (d / p - d))
  /\ ((p <= 0)%Q \/ (1 <= p)%Q ->
      computeRemainingFromProgress (lit p) (lit d) = null).
Proof.
  unfold computeRemainingFromProgress, gt, lt, sub, div, lit; simpl. split.
  - intros H0 H1.
    rewrite (proj2 (Qltb_lt 0 p) H0), (proj2 (Qltb_lt p 1) H1). simpl.
    now rewrite (Qis_zero_false_pos H0).
  - intros [H | H].
    + now rewrite (proj2 (Qltb_ge 0 p) H).
    + rewrite (proj2 (Qltb_ge p 1) H). now rewrite andb_false_r.
Qed.

Lemma remaining_by_progress_witness :
  computeRemainingFromProgress (lit 0.25) (lit 600) = lit (600 / 0.25 - 600)
  /\ computeRemainingFromProgress (lit 1) (lit 600) = null.
Proof.
  split.
  - apply (proj1 (remaining_by_progress 0.25 600)); reflexivity.
  - apply (proj2 (remaining_by_progress 1 600)). right. discriminate.
Defined.

(** *** Chamber reading *)

(** When the reading comes from [temperature] or [temp] and no target
    alias is present, the target is the reading. *)
Lemma chamber_target_follows_temperature (entry : obj) (q : Q) :
  (get entry "temperature" ?? get entry "temp")%js = lit q ->
  nullish (get entry "target" ?? get entry "target_temp"
           ?? get entry "target_temperature")%js = true ->
  exists r, parseTempEntry (Some entry)
            = Some {| chamber_current := r; chamber_target := r |}.
Proof.
  intros Hq Ht. unfold parseTempEntry. rewrite Ht. simpl.
  assert (E1 : (get entry "temperature" ?? get entry "temp"
                ?? get entry "current" ?? get entry "temper")%js = lit q).
  { rewrite Hq. reflexivity. }
  assert (E2 : (get entry "temperature" ?? get entry "temp" ?? lit 0)%js = lit q).
  { rewrite Hq. reflexivity. }
  rewrite E1, E2. simpl. eexists. reflexivity.
Qed.

(** C8 (the code departs from the claim): an entry whose reading [q] is
    found under the alias [current] or [temper] only, and that has no
    target field, parses successfully with the reading as current
    temperature, but its target is 0, not the reading: the default of the
    target reads only [temperature] and [temp].  So the entry
    [{current: 25}] gives current 25 and target 0. *)
Theorem chamber_target_default_ignores_current_alias (entry : obj) (q : Q) :
  nullish (get entry "temperature" ?? get entry "temp")%js = true ->
  (get entry "current" ?? get entry "temper")%js = lit q ->
  nullish (get entry "target" ?? get entry "target_temp"
           ?? get entry "target_temperature")%js = true ->
  parseTempEntry (Some entry)
  = Some {| chamber_current := Math_round (lit q); chamber_target := lit 0 |}.
Proof.
  intros Hreading Halias Htarget. unfold parseTempEntry. rewrite Htarget.
  assert (E1 : (get entry "temperature" ?? get entry "temp"
                ?? get entry "current" ?? get entry "temper")%js = lit q).
  { unfold coalesce at 1 2. rewrite Hreading.
    unfold coalesce in Halias. exact Halias. }
  assert (E2 : (get entry "temperature" ?? get entry "temp" ?? lit 0)%js = lit 0).
  { unfold coalesce at 1. now rewrite Hreading. }
  rewrite E1, E2. reflexivity.
Qed.

Lemma chamber_target_default_ignores_current_alias_witness :
  parseTempEntry (Some [("current", lit 25)])
  = Some {| chamber_current := lit 25; chamber_target := lit 0 |}.
Proof.
  apply (@chamber_target_default_ignores_current_alias [("current", lit 25)] 25);
    reflexivity.
Defined.

(** *** Filename heuristics *)

(** The duration pattern matches the empty string in front of any name
    that does not start with a digit, with no group set. *)
Lemma filename_time_matches_empty (c : ascii) (rest : string) :
  is_digit c = false ->
  exec re_filename_time (String c rest)
  = Some {| groups := []; after := String c rest |}.
Proof.
  intro H. unfold exec, match_here, re_filename_time, cat.
  cbn [fold_right run]. now rewrite H.
Qed.

(** C5 (the code departs from the claim): for [model_0.28mm_2h15m.gcode]
    and a metadata record without layer height or estimated time, the
    layer height 0.28 is inferred but no estimated time is.  The duration
    pattern is tried from the first character and can match nothing: for
    every name that does not start with a digit the record is left as it
    is.  A name that starts with the duration does give 8100 seconds. *)
Theorem filename_heuristics_on_sample :
  get_opt (Sample.resolved Sample.bare_api Sample.heuristics_file) "layer_height"
  = lit 0.28
  /\ get_opt (Sample.resolved Sample.bare_api Sample.heuristics_file) "estimated_time"
     = undefined
  /\ (forall (c : ascii) (rest : string) (data : obj),
        is_digit c = false -> inferEstimatedTime (String c rest) data = data)
  /\ get_opt (Sample.resolved Sample.bare_api Sample.duration_first_file) "estimated_time"
     = lit 8100.
Proof.
  split; [vm_compute; reflexivity|]. split; [vm_compute; reflexivity|].
  split; [|vm_compute; reflexivity].
  intros c rest data H. unfold inferEstimatedTime.
  rewrite (@filename_time_matches_empty c rest H).
  now destruct (negb (truthy (get data "estimated_time"))).
Qed.

Lemma filename_heuristics_on_sample_witness :
  inferEstimatedTime Sample.heuristics_file [("size", lit 123456)]
  = [("size", lit 123456)].
Proof.
  apply (proj1 (proj2 (proj2 filename_heuristics_on_sample))). reflexivity.
Defined.

(** *** Times while idle *)

Lemma firstPositive_null_or_positive (candidates : list value) :
  positive_or_null (firstPositive candidates).
Proof.
  induction candidates as [|v rest IH]; simpl.
  - now left.
  - destruct (truthy (asNumber v) && (asNumber v >? lit 0)%js) eqn:E; [|exact IH].
    apply andb_true_iff in E as [_ E]. right.
    unfold asNumber in *. destruct (ToNumber v) as [| |q]; simpl in *; try discriminate.
    exists q. split; [reflexivity|]. now apply Qltb_lt.
Qed.

Lemma firstPositive_head (q : Q) (rest : list value) :
  (0 < q)%Q -> firstPositive (lit q :: rest) = lit q.
Proof.
  intro H. cbn [firstPositive]. unfold asNumber, gt, lt. simpl.
  now rewrite (Qis_zero_false_pos H), (proj2 (Qltb_lt 0 q) H).
Qed.

(** C7, counterexample: after a finished print (state [complete]) whose
    record is still cached with an estimated time of 3600 s, the slicer
    time written by the poll is 3600 (shown as "1h 0m"), not null. *)
Lemma idle_slicer_time_not_null :
  fst (fetchPrintStatus "printer.local" Sample.silent (Ok Sample.status_complete)
         Sample.world_after_print)
  = Rendered {| status := "Complete"; layerInfo := NoLayers;
                timeEstimate := null; timeSlicer := lit 3600; timeTotal := null |}
  /\ setTimeValue (lit 3600) = HoursMinutes (lit 1) (lit 0).
Proof. split; vm_compute; reflexivity. Qed.

(** C7, as amended: when the state is neither [printing] nor [paused], the
    poll writes null for the progress-based remaining time and for the
    elapsed time; the slicer slot receives the slicer's total time, taken
    from the cached metadata and the slicer info, which is null or a
    positive number (the cached [estimated_time] when that is positive);
    the cache is left as it was. *)
Theorem idle_times (PRINTER_IP : string) (net : Network) (s : PrinterStatus) (w : World) :
  state (print_stats s) <> "printing" ->
  state (print_stats s) <> "paused" ->
  exists view,
    fst (fetchPrintStatus PRINTER_IP net (Ok s) w) = Rendered view
    /\ timeEstimate view = null
    /\ timeTotal view = null
    /\ timeSlicer view
       = getSlicerTotalSeconds (cache_data (metadataCache w)) (info (print_stats s))
    /\ positive_or_null (timeSlicer view)
    /\ (forall q, (0 < q)%Q ->
        get_opt (cache_data (metadataCache w)) "estimated_time" = lit q ->
        timeSlicer view = lit q)
    /\ metadataCache (snd (fetchPrintStatus PRINTER_IP net (Ok s) w)) = metadataCache w.
Proof.
  intros Hp Hq.
  apply String.eqb_neq in Hp. apply String.eqb_neq in Hq.
  unfold fetchPrintStatus, renderStatus, ensureMetadataLoaded. run_state.
  rewrite Hp, Hq. simpl.
  eexists. repeat split; try reflexivity.
  - apply firstPositive_null_or_positive.
  - intros q Hpos E. cbn [timeSlicer]. unfold getSlicerTotalSeconds.
    rewrite E. now apply firstPositive_head.
Qed.

Lemma idle_times_witness :
  exists view,
    fst (fetchPrintStatus "printer.local" Sample.silent (Ok Sample.status_complete)
           Sample.world_after_print) = Rendered view
    /\ timeEstimate view = null
    /\ timeTotal view = null.
Proof.
  destruct (@idle_times "printer.local" Sample.silent Sample.status_complete
              Sample.world_after_print) as (view & H1 & H2 & H3 & _).
  - discriminate.
  - discriminate.
  - exists view. repeat split; assumption.
Defined.

(** *** Retry policy of the status poll *)

(** C6: starting from a retry count of 0, six consecutive polls that fail
    with a network error schedule retries after 2000, 4000, 8000, 16000
    and 30000 ms (that is [min(2000 * 2^(k-1), 30000)] for retry [k]),
    and the failure of the fifth retry schedules nothing: it reports the
    printer as unreachable, with the count left at 5. *)
Theorem retry_backoff (PRINTER_IP : string) (net : Network) (message : string) (w : World) :
  isNetworkError message = true ->
  includes message "HTTP 401" = false ->
  includes message "HTTP 403" = false ->
  includes message "HTTP 404" = false ->
  apiRetryCount w = 0%nat ->
  fst (polls PRINTER_IP net (repeat (Rejected message) 6) w)
  = [RetryScheduled 2000 "Retrying... (1/5)";
     RetryScheduled 4000 "Retrying... (2/5)";
     RetryScheduled 8000 "Retrying... (3/5)";
     RetryScheduled 16000 "Retrying... (4/5)";
     RetryScheduled 30000 "Retrying... (5/5)";
     Failed ("Unreachable: " ++ PRINTER_IP)]
  /\ map (fun k => Z.min (2000 * 2 ^ (k - 1)) 30000) [1; 2; 3; 4; 5]%Z
     = [2000; 4000; 8000; 16000; 30000]%Z
  /\ apiRetryCount (snd (polls PRINTER_IP net (repeat (Rejected message) 6) w)) = 5%nat.
Proof.
  intros Hnet H401 H403 H404 Hcount.
  destruct w as [cache count reqs]. simpl in Hcount. subst count.
  unfold polls, fetchPrintStatus, handleError. run_state.
  simpl. rewrite Hnet, H401, H403, H404. simpl.
  repeat split; reflexivity.
Qed.

Lemma retry_backoff_witness :
  fst (polls "192.168.1.50" Sample.silent (repeat (Rejected "Failed to fetch") 6) initialWorld)
  = [RetryScheduled 2000 "Retrying... (1/5)";
     RetryScheduled 4000 "Retrying... (2/5)";
     RetryScheduled 8000 "Retrying... (3/5)";
     RetryScheduled 16000 "Retrying... (4/5)";
     RetryScheduled 30000 "Retrying... (5/5)";
     Failed "Unreachable: 192.168.1.50"].
Proof.
  apply (@retry_backoff "192.168.1.50" Sample.silent "Failed to fetch" initialWorld);
    reflexivity.
Defined.

(** *** Metadata cache *)

(** With data in the cache for the active file, the call does nothing. *)
Lemma cached_metadata_is_reused (net : Network) (file : string) (w : World) (data : obj) :
  cache_filename (metadataCache w) = Some file ->
  cache_data (metadataCache w) = Some data ->
  ensureMetadataLoaded net file "printing" w = (tt, w).
Proof.
  intros Hf Hd. unfold ensureMetadataLoaded. run_state. simpl.
  destruct (String.eqb file ""); [reflexivity|].
  rewrite Hf, Hd. simpl. now rewrite String.eqb_refl.
Qed.

Lemma ensureMetadataLoaded_resolves (net : Network) (file : string) (w : World) :
  file <> "" ->
  cache_data (metadataCache w) = None ->
  snd (ensureMetadataLoaded net file "printing" w)
  = {| metadataCache :=
         {| cache_filename := Some file;
            cache_data :=
              option_map (inferEstimatedTime file)
                (option_map (inferLayerHeight file) (resolutionResult net file));
            cache_source :=
              match metadata_of net file with
              | Some _ => Some "api"
              | None =>
                  match resolutionResult net file with
                  | Some _ => Some "gcode-header"
                  | None => None
                  end
              end |};
       apiRetryCount := apiRetryCount w;
       requests := (requests w ++ resolutionRequests net file)%list |}.
Proof.
  intros Hne Hd. apply String.eqb_neq in Hne.
  unfold ensureMetadataLoaded, fetchMetadata, fetchMetadataFromApi,
    fetchMetadataFromGcode, normalizeFilename, resolutionResult, resolutionRequests.
  run_state. simpl. rewrite Hne, Hd, andb_false_r. simpl.
  destruct (metadata_of net file) as [data|]; simpl.
  - reflexivity.
  - rewrite <- app_assoc. simpl.
    destruct (file_head net file) as [text|]; simpl.
    + destruct (parseGcodeHeader text); reflexivity.
    + reflexivity.
Qed.

(** C10: when the cache holds the active file name with no data, a call of
    [ensureMetadataLoaded] for that name while printing performs the
    resolution again: it asks the metadata API, then (when the API has
    nothing) the head of the file, and stores what it found.  With a
    printer that keeps answering nothing, the cache stays in that state
    and [n] successive calls issue [n] rounds of both requests. *)
Theorem failed_resolution_not_cached (net : Network) (file : string) (w : World) :
  file <> "" ->
  cache_filename (metadataCache w) = Some file ->
  cache_data (metadataCache w) = None ->
  (requests (ensureCalls net file 1 w)
   = requests w ++ resolutionRequests net file)%list
  /\ cache_data (metadataCache (ensureCalls net file 1 w))
     = option_map (inferEstimatedTime file)
         (option_map (inferLayerHeight file) (resolutionResult net file))
  /\ (resolutionResult net file = None ->
      forall n,
        (requests (ensureCalls net file n w)
         = requests w ++ List.concat (repeat [GetMetadata file; GetFileHead file] n))%list
        /\ cache_data (metadataCache (ensureCalls net file n w)) = None).
Proof.
  intros Hne Hf Hd. unfold ensureCalls at 1 2. simpl.
  rewrite (ensureMetadataLoaded_resolves net w Hne Hd). simpl.
  split; [reflexivity|]. split; [reflexivity|].
  intros Hnone n. clear Hf.
  induction n as [|n IH]; simpl.
  - now rewrite app_nil_r.
  - destruct IH as [IHr IHd].
    unfold ensureCalls in *. 
    rewrite (ensureMetadataLoaded_resolves net _ Hne IHd). simpl.
    rewrite IHr, Hnone. simpl. split; [|reflexivity].
    rewrite <- app_assoc. f_equal.
    unfold resolutionRequests. unfold resolutionResult in Hnone.
    destruct (metadata_of net file); [discriminate|].
    clear. induction n; simpl; [reflexivity|]. now rewrite IHn.
Qed.

Lemma failed_resolution_not_cached_witness :
  requests (ensureCalls Sample.silent "a.gcode" 3 Sample.world_unresolved)
  = [GetMetadata "a.gcode"; GetFileHead "a.gcode";
     GetMetadata "a.gcode"; GetFileHead "a.gcode";
     GetMetadata "a.gcode"; GetFileHead "a.gcode"].
Proof.
  destruct (@failed_resolution_not_cached Sample.silent "a.gcode" Sample.world_unresolved)
    as (_ & _ & H).
  - discriminate.
  - reflexivity.
  - reflexivity.
  - destruct (H eq_refl 3%nat) as [Hr _]. exact Hr.
Defined.

(** *** G-code header parser *)

Lemma truthy_not_nullish (v : value) : truthy v = true -> nullish v = false.
Proof. destruct v; simpl; congruence. Qed.

Lemma geometry_is_some_field (meta : obj) :
  geometry_populated meta = true -> some_field_populated meta = true.
Proof.
  unfold geometry_populated, some_field_populated. simpl.
  destruct (get meta "layer_height"), (get meta "first_layer_height"),
    (get meta "layer_count"), (get meta "object_height");
    simpl; intro H; try reflexivity; try discriminate.
Qed.

(** The derivations after the scan neither create the first geometry field
    nor remove one. *)
Lemma deriveGeometry_populated (meta : obj) :
  geometry_populated (deriveGeometry meta) = geometry_populated meta.
Proof.
  unfold deriveGeometry, geometry_populated.
  destruct (truthy (get meta "layer_height")) eqn:Elh;
    destruct (truthy (get meta "first_layer_height")) eqn:Ef;
    destruct (truthy (get meta "layer_count")) eqn:Elc;
    destruct (truthy (get meta "object_height")) eqn:Eoh; simpl;
    repeat (rewrite ?get_set; simpl;
            rewrite ?Elh, ?Ef, ?Elc, ?Eoh, ?andb_false_r, ?andb_true_r, ?orb_true_r; simpl);
    try reflexivity.
Qed.

(** C4, counterexample: a header whose only metadata comment is an
    estimated-time line populates [estimated_time], yet the parser returns
    null, so "non-null exactly when some recognized field matched" fails. *)
Lemma header_with_time_only :
  ~ (parseGcodeHeader ";TIME:3600" <> None
     <-> some_field_populated (scanHeader ";TIME:3600") = true).
Proof.
  intros [_ H]. apply H; vm_compute; reflexivity.
Qed.

(** C4, as amended: the parser returns a record exactly when the scan left
    a non-zero number in one of the four geometry fields ([layer_height],
    [first_layer_height], [layer_count], [object_height]); the record is
    the scanned one completed by the two derivations.  [estimated_time] is
    collected by the scan but does not count: alone, it gives null. *)
Theorem header_null_iff_no_geometry (text : string) :
  (parseGcodeHeader text <> None <-> geometry_populated (scanHeader text) = true)
  /\ (geometry_populated (scanHeader text) = true ->
      parseGcodeHeader text = Some (deriveGeometry (scanHeader text)))
  /\ (parseGcodeHeader text <> None -> some_field_populated (scanHeader text) = true)
  /\ (get (scanHeader ";TIME:3600") "estimated_time" = lit 3600
      /\ parseGcodeHeader ";TIME:3600" = None).
Proof.
  assert (E : parseGcodeHeader text
              = if geometry_populated (scanHeader text)
                then Some (deriveGeometry (scanHeader text)) else None).
  { unfold parseGcodeHeader.
    destruct (String.eqb text "") eqn:Et.
    - apply String.eqb_eq in Et. subst text. reflexivity.
    - rewrite <- deriveGeometry_populated. reflexivity. }
  assert (I : parseGcodeHeader text <> None <-> geometry_populated (scanHeader text) = true).
  { rewrite E. destruct (geometry_populated (scanHeader text)); split; congruence. }
  split; [exact I|]. split; [intro H; now rewrite E, H|].
  split; [intro H; now apply geometry_is_some_field, I|].
  split; vm_compute; reflexivity.
Qed.

Lemma header_null_iff_no_geometry_witness :
  parseGcodeHeader ("; layer_height = 0.2" ++ LF ++ ";TIME:3600")
  = Some [("layer_height", lit 0.2); ("first_layer_height", null);
          ("layer_count", null); ("estimated_time", lit 3600)].
Proof.
  rewrite (proj1 (proj2 (header_null_iff_no_geometry
                           ("; layer_height = 0.2" ++ LF ++ ";TIME:3600")))).
  - vm_compute. reflexivity.
  - vm_compute. reflexivity.
Defined.

(** *** Layer reconciliation *)

Lemma fallbackCurrent_defined (toolhead : option Toolhead) (metadataLayer : LayerPair) :
  fallbackCurrent toolhead metadataLayer <> undefined.
Proof.
  unfold fallbackCurrent, Math_max.
  destruct (negb (nullish (toolheadZ toolhead)) && (toolheadZ toolhead >? lit 0)%js
            && negb (truthy (current metadataLayer))); discriminate.
Qed.

(** C1: the current layer returned by [getLayerInfo] is the first
    candidate that is neither null nor undefined, in the order: slicer
    value, value derived from the metadata geometry, value derived from
    the progress ratio, Z/0.2 mm fallback.  So a slicer value of 5 wins
    over a metadata-derived 9, and without a slicer value a
    metadata-derived 9 wins over a progress-derived 12. *)
Theorem layer_precedence (metadata : option obj) (printStats : PrintStats)
        (displayStatus : option obj) (toolhead : option Toolhead) :
  let fromSlicer := slicerCurrent printStats in
  let fromMetadata := current (computeLayerFromMetadata toolhead metadata) in
  let fromProgress := current (computeLayerFromProgress displayStatus metadata) in
  let fromZ := fallbackCurrent toolhead (computeLayerFromMetadata toolhead metadata) in
  let result := currentLayer (getLayerInfo metadata printStats displayStatus toolhead) in
  result = (if negb (nullish fromSlicer) then fromSlicer
            else if negb (nullish fromMetadata) then fromMetadata
            else if negb (nullish fromProgress) then fromProgress
            else fromZ)
  /\ (fromSlicer = lit 5 -> fromMetadata = lit 9 -> result = lit 5)
  /\ (fromSlicer = null -> fromMetadata = lit 9 -> fromProgress = lit 12 ->
      result = lit 9).
Proof.
  intros fromSlicer fromMetadata fromProgress fromZ result.
  assert (E : result = (if negb (nullish fromSlicer) then fromSlicer
                        else if negb (nullish fromMetadata) then fromMetadata
                        else if negb (nullish fromProgress) then fromProgress
                        else fromZ)).
  { subst result. unfold getLayerInfo. simpl.
    fold fromSlicer fromMetadata fromProgress fromZ.
    destruct (nullish fromSlicer); simpl; [|reflexivity].
    destruct (nullish fromMetadata); simpl; [|reflexivity].
    destruct (nullish fromProgress); simpl; [|reflexivity].
    pose proof (@fallbackCurrent_defined toolhead (computeLayerFromMetadata toolhead metadata)) as D.
    fold fromZ in D. destruct fromZ; simpl; congruence. }
  split; [exact E|]. split.
  - intros Hs _. rewrite E, Hs. reflexivity.
  - intros Hs Hm _. rewrite E, Hs, Hm. reflexivity.
Qed.

Lemma layer_precedence_witness :
  currentLayer (getLayerInfo Sample.metadata_100 Sample.stats_layer5
                  Sample.progress_12 Sample.toolhead_z18) = lit 5
  /\ currentLayer (getLayerInfo Sample.metadata_100 Sample.stats_noinfo
                     Sample.progress_12 Sample.toolhead_z18) = lit 9.
Proof.
  split.
  - apply (proj1 (proj2 (@layer_precedence Sample.metadata_100 Sample.stats_layer5
                           Sample.progress_12 Sample.toolhead_z18)));
      vm_compute; reflexivity.
  - apply (proj2 (proj2 (@layer_precedence Sample.metadata_100 Sample.stats_noinfo
                           Sample.progress_12 Sample.toolhead_z18)));
      vm_compute; reflexivity.
Defined.

(** Finite and positive values, and how the operators keep them. *)
Definition fin (v : value) : Prop := exists q : Q, v = lit q.
Definition pos (v : value) : Prop := exists q : Q, v = lit q /\ (0 < q)%Q.

Lemma pos_fin (v : value) : pos v -> fin v.
Proof. intros (q & -> & _). now exists q. Qed.

Lemma pos_positive_or_null (v : value) : pos v -> positive_or_null v.
Proof. intro H. now right. Qed.

Lemma pos_truthy (v : value) : pos v -> truthy v = true.
Proof.
  intros (q & -> & H). simpl. now rewrite (Qis_zero_false_pos H).
Qed.

Lemma json_truthy_fin (v : value) : json_value v = true -> truthy v = true -> fin v.
Proof.
  destruct v as [| |[| |q]]; simpl; try discriminate. intros _ _. now exists q.
Qed.

Lemma json_defined_fin (v : value) : json_value v = true -> nullish v = false -> fin v.
Proof.
  destruct v as [| |[| |q]]; simpl; try discriminate. intros _ _. now exists q.
Qed.

Lemma json_get (o : obj) (key : string) :
  json_obj (Some o) = true -> json_value (get o key) = true.
Proof.
  simpl. induction o as [|[k v] o IH]; simpl; [reflexivity|].
  intro H. apply andb_true_iff in H as [Hv Ho].
  destruct (String.eqb k key); auto.
Qed.

Lemma fin_sub (a b : value) : fin a -> fin b -> fin (a - b)%js.
Proof. intros [x ->] [y ->]. now exists (x - y)%Q. Qed.

Lemma fin_add (a b : value) : fin a -> fin b -> fin (a + b)%js.
Proof. intros [x ->] [y ->]. now exists (x + y)%Q. Qed.

Lemma fin_mul (a b : value) : fin a -> fin b -> fin (a * b)%js.
Proof. intros [x ->] [y ->]. now exists (x * y)%Q. Qed.

Lemma fin_div (a b : value) : fin a -> fin b -> truthy b = true -> fin (a / b)%js.
Proof.
  intros [x ->] [y ->]. simpl. intro H. apply negb_true_iff in H.
  exists (x / y)%Q. unfold div. simpl. now rewrite H.
Qed.

Lemma fin_floor (a : value) : fin a -> fin (Math_floor a).
Proof. intros [x ->]. now eexists. Qed.

Lemma fin_round (a : value) : fin a -> fin (Math_round a).
Proof. intros [x ->]. now eexists. Qed.

Lemma fin_min (a b : value) : fin a -> fin b -> fin (Math_min a b).
Proof.
  intros [x ->] [y ->]. unfold Math_min. simpl.
  destruct (Qltb y x); now eexists.
Qed.

Lemma pos_min (a b : value) : pos a -> pos b -> pos (Math_min a b).
Proof.
  intros (x & -> & Hx) (y & -> & Hy). unfold Math_min. simpl.
  destruct (Qltb y x); eexists; split; try reflexivity; assumption.
Qed.

Lemma pos_max_one (a : value) : fin a -> pos (Math_max (lit 1) a).
Proof.
  intros [x ->]. unfold Math_max. simpl.
  destruct (Qltb 1 x) eqn:E; eexists; split; try reflexivity.
  apply Qltb_lt in E. eapply Qlt_trans; [|exact E]. reflexivity.
Qed.

Lemma fin_or_else (a b : value) : json_value a = true -> fin b -> fin (a || b)%js.
Proof.
  intros Ha Hb. unfold or_else. destruct (truthy a) eqn:E; [|exact Hb].
  now apply json_truthy_fin.
Qed.

Lemma fin_lit (q : Q) : fin (lit q).
Proof. now exists q. Qed.

#[local] Hint Resolve fin_lit fin_sub fin_add fin_mul fin_div fin_floor fin_round fin_min
  fin_or_else pos_min pos_max_one pos_fin pos_positive_or_null
  json_truthy_fin json_defined_fin json_get : js_values.

Lemma nonneg_or_null_cases (v : value) :
  nonneg_or_null v -> truthy v = false \/ (pos v /\ truthy v = true).
Proof.
  intros [-> | (q & -> & Hq)]; [now left|].
  destruct (Qeq_bool q 0) eqn:Z.
  - left. unfold lit. simpl. unfold Qis_zero. now rewrite Z.
  - right. assert (0 < q)%Q as P.
    { apply Qle_lt_or_eq in Hq as [Hq | Hq]; [exact Hq|].
      symmetry in Hq. apply Qeq_bool_iff in Hq. congruence. }
    split; [now exists q | apply pos_truthy; now exists q].
Qed.

Lemma firstNonNull_positive (values : list value) :
  Forall positive_or_null values -> positive_or_null (firstNonNull values).
Proof.
  induction 1 as [|v rest Hv _ IH]; simpl; [now left|].
  destruct Hv as [-> | (q & -> & Hq)]; simpl; [exact IH|].
  right. now exists q.
Qed.

Lemma metadata_layers_positive (toolhead : option Toolhead) (metadata : option obj) :
  nonneg_or_null (metadataLayerCount metadata) ->
  json_obj metadata = true ->
  json_value (toolheadZ toolhead) = true ->
  positive_or_null (current (computeLayerFromMetadata toolhead metadata))
  /\ positive_or_null (total (computeLayerFromMetadata toolhead metadata)).
Proof.
  intros Hc Hj Hz. destruct metadata as [md|]; [|split; now left].
  unfold metadataLayerCount in Hc. simpl in Hc.
  unfold computeLayerFromMetadata.
  set (layerHeight := get md "layer_height").
  set (firstLayerHeight := (get md "first_layer_height" || layerHeight)%js).
  set (objectHeight := get md "object_height").
  set (layerCount := asNumber _) in *.
  assert (Jl : json_value layerHeight = true) by now apply json_get.
  assert (Jo : json_value objectHeight = true) by now apply json_get.
  assert (Jf : json_value (get md "first_layer_height") = true) by now apply json_get.
  set (total0 := (layerCount || null)%js).
  assert (T0 : (total0 = null /\ truthy total0 = false) \/ (pos total0 /\ truthy total0 = true)).
  { subst total0. unfold or_else.
    destruct (nonneg_or_null_cases Hc) as [Ht | [P Ht]]; rewrite Ht; auto. }
  set (total1 := if negb (truthy total0) && truthy layerHeight && truthy objectHeight
                 then _ else total0).
  assert (T1 : (total1 = null /\ truthy total1 = false) \/ (pos total1 /\ truthy total1 = true)).
  { subst total1.
    destruct (negb (truthy total0) && truthy layerHeight && truthy objectHeight) eqn:E;
      [|exact T0].
    apply andb_true_iff in E as [E Eo]. apply andb_true_iff in E as [_ El].
    right.
    assert (P : pos (Math_max (lit 1)
                       (Math_round ((objectHeight - firstLayerHeight) / layerHeight + lit 1)%js))).
    { subst firstLayerHeight. auto 10 with js_values. }
    split; [exact P|now apply pos_truthy]. }
  simpl. split.
  - destruct (truthy layerHeight && negb (nullish (toolheadZ toolhead))) eqn:E;
      [|now left].
    apply andb_true_iff in E as [El Ez]. apply negb_true_iff in Ez.
    assert (P : pos (Math_max (lit 1)
                       (Math_floor ((toolheadZ toolhead - firstLayerHeight)
                                    / layerHeight + lit 1)%js))).
    { subst firstLayerHeight. auto 10 with js_values. }
    fold total0. fold total1.
    destruct T1 as [[_ Ht] | [Pt Ht]]; rewrite Ht.
    + now apply pos_positive_or_null.
    + now apply pos_positive_or_null, pos_min.
  - fold total0. fold total1.
    destruct T1 as [[-> _] | [Pt _]]; [now left|now apply pos_positive_or_null].
Qed.

Lemma progress_layers_positive (displayStatus : option obj) (metadata : option obj) :
  nonneg_or_null (metadataLayerCount metadata) ->
  json_value (get_opt displayStatus "progress") = true ->
  positive_or_null (current (computeLayerFromProgress displayStatus metadata))
  /\ positive_or_null (total (computeLayerFromProgress displayStatus metadata)).
Proof.
  intros Hc Hp. destruct metadata as [md|]; [|split; now left].
  unfold metadataLayerCount in Hc. simpl in Hc.
  unfold computeLayerFromProgress.
  set (layerCount := asNumber _) in *.
  set (progress := match get_opt displayStatus "progress" with
                   | Num n => Num n
                   | _ => null
                   end).
  destruct (negb (truthy layerCount) || nullish progress || (progress <=? lit 0)%js) eqn:E;
    simpl.
  - split; [now left|]. unfold or_else.
    destruct (nonneg_or_null_cases Hc) as [Ht | [P Ht]]; rewrite Ht;
      [now left|now apply pos_positive_or_null].
  - apply orb_false_iff in E as [E _]. apply orb_false_iff in E as [Et En].
    apply negb_false_iff in Et.
    destruct (nonneg_or_null_cases Hc) as [Ht | [P _]]; [congruence|].
    split; [|now apply pos_positive_or_null].
    assert (Fp : fin progress); [|auto 10 with js_values].
    subst progress. destruct (get_opt displayStatus "progress") as [| |[| |q]];
      simpl in *; try discriminate. now exists q.
Qed.

Lemma fallback_positive (toolhead : option Toolhead) (metadataLayer : LayerPair) :
  json_value (toolheadZ toolhead) = true ->
  positive_or_null (fallbackCurrent toolhead metadataLayer).
Proof.
  intro Hz. unfold fallbackCurrent.
  destruct (negb (nullish (toolheadZ toolhead)) && (toolheadZ toolhead >? lit 0)%js
            && negb (truthy (current metadataLayer))) eqn:E; [|now left].
  apply andb_true_iff in E as [E _]. apply andb_true_iff in E as [E _].
  apply negb_true_iff in E.
  auto 10 with js_values.
Qed.

Lemma formatLayerInfo_hides_nonpositive_current (q : Q) (totalValue : value) :
  (q <= 0)%Q ->
  formatLayerInfo (lit q) totalValue = NoLayers
  \/ formatLayerInfo (lit q) totalValue = TotalOnly totalValue.
Proof.
  intro H. unfold formatLayerInfo, gt, lt. simpl.
  rewrite (proj2 (Qltb_ge 0 q) H). simpl.
  match goal with |- context [if ?b then _ else _] => destruct b end; auto.
Qed.

Lemma formatLayerInfo_hides_nonpositive_total (q : Q) (currentValue : value) :
  (q <= 0)%Q ->
  formatLayerInfo currentValue (lit q) = NoLayers
  \/ formatLayerInfo currentValue (lit q) = CurrentOnly currentValue.
Proof.
  intro H. unfold formatLayerInfo.
  assert (E : (lit q >? lit 0)%js = false) by (now apply Qltb_ge).
  rewrite E.
  destruct (negb (nullish currentValue) && (currentValue >? lit 0)%js); simpl; auto.
Qed.



(** The condition on the stated layer count cannot be dropped: a negative
    count is returned as it is, as current and as total layer. *)
Lemma negative_layer_count_is_returned :
  getLayerInfo Sample.metadata_negative Sample.stats_noinfo
               Sample.progress_12 Sample.toolhead_z18
  = {| currentLayer := lit (-5); totalLayer := lit (-5) |}.
Proof. vm_compute. reflexivity. Qed.


(** *** The matcher consumes its input *)

Lemma star_greedy_shrinks (R : Type) (p : cls) (s : string) (k : string -> option R)
      (res : R) :
  star_greedy p s k = Some res ->
  exists s', k s' = Some res /\ (String.length s' <= String.length s)%nat.
Proof.
  revert res. induction s as [|x s IH]; simpl; intros res H.
  - exists EmptyString. auto.
  - destruct (p x).
    + destruct (star_greedy p s k) as [r|] eqn:E.
      * injection H as <-. destruct (IH r eq_refl) as (s' & Hk & Hl).
        exists s'. split; [exact Hk|simpl; lia].
      * exists (String x s). auto.
    + exists (String x s). auto.
Qed.

Lemma star_lazy_shrinks (R : Type) (p : cls) (s : string) (k : string -> option R)
      (res : R) :
  star_lazy p s k = Some res ->
  exists s', k s' = Some res /\ (String.length s' <= String.length s)%nat.
Proof.
  revert res. induction s as [|x s IH]; simpl; intros res H.
  - destruct (k EmptyString) eqn:E; [|discriminate].
    exists EmptyString. split; [congruence|simpl; lia].
  - destruct (k (String x s)) as [r|] eqn:E.
    + exists (String x s). split; [congruence|simpl; lia].
    + destruct (p x); [|discriminate].
      destruct (IH res H) as (s' & Hk & Hl). exists s'. split; [exact Hk|simpl; lia].
Qed.

(** Whatever the continuation receives is a shorter text, strictly when
    the pattern cannot match the empty string. *)
Lemma run_shrinks (R : Type) (r : re) :
  forall (s : string) (c : captures) (k : string -> captures -> option R) (res : R),
    run r s c k = Some res ->
    exists s' c',
      k s' c' = Some res
      /\ (String.length s' <= String.length s)%nat
      /\ (consuming r = true -> (String.length s' < String.length s)%nat).
Proof.
  induction r as [|p|a IHa b IHb|a IHa b IHb|a IHa|p|p|p|i a IHa|];
    intros s c k res H; simpl in H.
  - exists s, c. repeat split; auto. discriminate.
  - destruct s as [|x s]; [discriminate|]. destruct (p x); [|discriminate].
    exists s, c. simpl. repeat split; auto.
  - destruct (IHa _ _ _ _ H) as (s1 & c1 & H1 & L1 & S1).
    destruct (IHb _ _ _ _ H1) as (s2 & c2 & H2 & L2 & S2).
    exists s2, c2. split; [exact H2|]. split; [simpl; lia|].
    simpl. intro C. apply orb_true_iff in C as [C | C];
      [specialize (S1 C)|specialize (S2 C)]; simpl; lia.
  - simpl. destruct (run a s c k) as [r|] eqn:E.
    + injection H as <-. destruct (IHa _ _ _ _ E) as (s1 & c1 & H1 & L1 & S1).
      exists s1, c1. repeat split; auto. intro C. apply andb_true_iff in C as [C _]. auto.
    + destruct (IHb _ _ _ _ H) as (s1 & c1 & H1 & L1 & S1).
      exists s1, c1. repeat split; auto. intro C. apply andb_true_iff in C as [_ C]. auto.
  - destruct (run a s c k) as [r|] eqn:E.
    + injection H as <-. destruct (IHa _ _ _ _ E) as (s1 & c1 & H1 & L1 & _).
      exists s1, c1. repeat split; auto. discriminate.
    + exists s, c. repeat split; auto. discriminate.
  - apply star_greedy_shrinks in H as (s' & Hk & Hl).
    exists s', c. repeat split; auto. discriminate.
  - destruct s as [|x s]; [discriminate|]. destruct (p x); [|discriminate].
    apply star_greedy_shrinks in H as (s' & Hk & Hl).
    exists s', c. simpl. repeat split; auto; simpl; lia.
  - apply star_lazy_shrinks in H as (s' & Hk & Hl).
    exists s', c. repeat split; auto. discriminate.
  - destruct (IHa _ _ _ _ H) as (s1 & c1 & H1 & L1 & S1).
    eexists s1, _. split; [exact H1|]. split; auto.
  - destruct s; [|discriminate]. exists EmptyString, c. repeat split; auto. discriminate.
Qed.

Lemma exec_shrinks (r : re) (s : string) (m : Match) :
  consuming r = true ->
  exec r s = Some m ->
  (String.length (after m) < String.length s)%nat.
Proof.
  intro C. induction s as [|x s IH]; simpl; intro H.
  - unfold match_here in H.
    destruct (run r EmptyString [] _) as [m'|] eqn:E; [|discriminate].
    injection H as <-.
    apply run_shrinks in E as (s' & c' & Hk & _ & S). injection Hk as <-.
    simpl. apply (S C).
  - unfold match_here in H.
    destruct (run r (String x s) [] _) as [m'|] eqn:E.
    + injection H as <-.
      apply run_shrinks in E as (s' & c' & Hk & _ & S). injection Hk as <-.
      simpl. apply (S C).
    + specialize (IH H). simpl. lia.
Qed.

(** *** Thumbnail extraction *)

Lemma blockRegex_consuming : consuming blockRegex = true.
Proof. reflexivity. Qed.

(** The loop returns the cleaned body of the last block it met, or what
    it started with. *)
Lemma thumbnailLoop_blocks (fuel : nat) :
  forall (text : string) (lastBlock : option string),
    thumbnailLoop fuel text lastBlock
    = match rev (thumbnailBlocks fuel text) with
      | [] => lastBlock
      | body :: _ => Some (cleanBlock body)
      end.
Proof.
  induction fuel as [|fuel IH]; intros text lastBlock; simpl; [reflexivity|].
  destruct (exec blockRegex text) as [m|]; [|reflexivity].
  rewrite IH. simpl.
  destruct (rev (thumbnailBlocks fuel (after m))); reflexivity.
Qed.

(** Any bound above the length of the text gives the same blocks: the loop
    stops because no further block is found, never because of the bound. *)
Lemma thumbnailBlocks_fuel (fuel1 : nat) :
  forall (fuel2 : nat) (text : string),
    (String.length text < fuel1)%nat ->
    (String.length text < fuel2)%nat ->
    thumbnailBlocks fuel1 text = thumbnailBlocks fuel2 text.
Proof.
  induction fuel1 as [|fuel1 IH]; intros fuel2 text H1 H2; [lia|].
  destruct fuel2 as [|fuel2]; [lia|]. simpl.
  destruct (exec blockRegex text) as [m|] eqn:E; [|reflexivity].
  apply exec_shrinks in E; [|exact blockRegex_consuming].
  f_equal. apply IH; lia.
Qed.

Lemma thumbnailLoop_fuel (fuel : nat) (text : string) (lastBlock : option string) :
  (String.length text < fuel)%nat ->
  thumbnailLoop fuel text lastBlock
  = thumbnailLoop (S (String.length text)) text lastBlock.
Proof.
  intro H. rewrite !thumbnailLoop_blocks.
  rewrite (@thumbnailBlocks_fuel fuel (S (String.length text)) text); auto.
Qed.

Lemma thumbnailLoop_last (fuel : nat) (text : string) (lastBlock : option string) :
  thumbnailLoop fuel text lastBlock
  = match thumbnailLoop fuel text None with
    | Some b => Some b
    | None => lastBlock
    end.
Proof.
  rewrite !thumbnailLoop_blocks.
  destruct (rev (thumbnailBlocks fuel text)); reflexivity.
Qed.

(** Cleaning the body of a block written as comment lines gives back the
    payload lines, concatenated. *)
Lemma payload_char_not_space (c : ascii) : payload_char c = true -> is_space c = false.
Proof.
  unfold payload_char. intro H. apply andb_true_iff in H as [H _].
  now apply negb_true_iff in H.
Qed.

Lemma payload_char_not_LF (c : ascii) : payload_char c = true -> Ascii.eqb c "010" = false.
Proof.
  intro H. destruct (Ascii.eqb c "010") eqn:E; [|reflexivity].
  apply Ascii.eqb_eq in E. subst c. discriminate.
Qed.

Lemma trimStart_payload (line : string) :
  all_chars payload_char line = true -> trimStart line = line.
Proof.
  destruct line as [|c line]; simpl; [reflexivity|].
  intro H. apply andb_true_iff in H as [H _].
  now rewrite (payload_char_not_space _ H).
Qed.

Lemma trimEnd_payload (line : string) :
  all_chars payload_char line = true -> trimEnd line = line.
Proof.
  induction line as [|c line IH]; simpl; [reflexivity|].
  intro H. apply andb_true_iff in H as [Hc Hl].
  rewrite (IH Hl), (payload_char_not_space _ Hc). now destruct line.
Qed.

Lemma trimEnd_cons (c : ascii) (s : string) :
  trimEnd (String c s)
  = match trimEnd s with
    | EmptyString => if is_space c then EmptyString else String c EmptyString
    | r => String c r
    end.
Proof. reflexivity. Qed.

Lemma clean_comment_line (line : string) :
  all_chars payload_char line = true ->
  trim (strip_semicolon (trim (String ";" (String " " line)))) = line.
Proof.
  intro H. destruct line as [|c line]; [reflexivity|].
  unfold trim.
  change (trimStart (String ";" (String " " (String c line))))
    with (String ";" (String " " (String c line))).
  rewrite !(trimEnd_cons ";"), !(trimEnd_cons " "), (trimEnd_payload _ H).
  cbn [strip_semicolon Ascii.eqb Bool.eqb].
  change (trimStart (String " " (String c line))) with (trimStart (String c line)).
  rewrite (trimStart_payload _ H). now apply trimEnd_payload.
Qed.

Lemma append_assoc (a b c : string) : ((a ++ b) ++ c = a ++ b ++ c)%string.
Proof. induction a as [|x a IH]; simpl; [reflexivity|now rewrite IH]. Qed.

Lemma split_newline_line (line rest : string) :
  all_chars (fun c => negb (Ascii.eqb c "010")) line = true ->
  split_newline (line ++ String "010" rest) = line :: split_newline rest.
Proof.
  induction line as [|c line IH]; [reflexivity|].
  intro H. cbn [all_chars] in H. apply andb_true_iff in H as [Hc Hl].
  cbn [String.append split_newline]. apply negb_true_iff in Hc.
  now rewrite Hc, (IH Hl).
Qed.

Lemma payload_no_LF (line : string) :
  all_chars payload_char line = true ->
  all_chars (fun c => negb (Ascii.eqb c "010")) line = true.
Proof.
  induction line as [|c line IH]; [reflexivity|].
  cbn [all_chars]. intro H. apply andb_true_iff in H as [Hc Hl].
  now rewrite (payload_char_not_LF _ Hc), (IH Hl).
Qed.

Lemma cleanBlock_commentLines (payload : list string) :
  Forall (fun line => all_chars payload_char line = true) payload ->
  cleanBlock (commentLines payload) = join payload.
Proof.
  intro H. unfold cleanBlock, commentLines.
  change (split_newline (LF ++ ?r)) with (EmptyString :: split_newline r).
  cbn [map filter]. change (trim (strip_semicolon (trim ""))) with "".
  cbn [String.eqb negb].
  induction H as [|line payload Hl _ IH]; [reflexivity|].
  cbn [map join fold_right].
  change (("; " ++ line ++ LF) ++ ?r) with (String ";" (String " " ((line ++ LF) ++ r))).
  rewrite append_assoc.
  change (String ";" (String " " (line ++ LF ++ ?r))) with
    ((String ";" (String " " line)) ++ String "010" r).
  rewrite split_newline_line.
  - cbn [map filter]. rewrite (clean_comment_line _ Hl).
    destruct (String.eqb line "") eqn:E; cbn [negb].
    + apply String.eqb_eq in E. subst line. exact IH.
    + cbn [join fold_right]. f_equal. exact IH.
  - cbn [all_chars]. now rewrite (payload_no_LF _ Hl).
Qed.

(** C9: [extractThumbnailFromGcode] returns the cleaned body of the last
    thumbnail block of the text it fetched (null when there is none): a
    block found first is replaced by any block found after it.  The body
    is cleaned line by line (trim, one leading [;] removed, trim, empty
    lines dropped) and the lines are concatenated, which for a body made
    of comment lines gives back the payload.  The bound on the loop plays
    no part.  On the sample with two blocks the result is the payload of
    the second. *)
Theorem thumbnail_last_block_wins (net : Network) (file text : string) (w : World) :
  file <> "" ->
  gcode_head net file = Some text ->
  fst (extractThumbnailFromGcode net file w) = lastBlockPayload text
  /\ (forall fuel, (String.length text < fuel)%nat ->
      thumbnailLoop fuel text None = extractThumbnail text)
  /\ (exec blockRegex text = None -> fst (extractThumbnailFromGcode net file w) = None)
  /\ (forall m, exec blockRegex text = Some m ->
      fst (extractThumbnailFromGcode net file w)
      = match extractThumbnail (after m) with
        | Some later => Some later
        | None => Some (cleanBlock (group_text m 1))
        end)
  /\ (forall payload,
        Forall (fun line => all_chars payload_char line = true) payload ->
        cleanBlock (commentLines payload) = join payload)
  /\ extractThumbnail Sample.two_thumbnails = Some "CCCCDDDDEE==".
Proof.
  intros Hne Hnet. apply String.eqb_neq in Hne.
  assert (E : fst (extractThumbnailFromGcode net file w) = extractThumbnail text).
  { unfold extractThumbnailFromGcode, normalizeFilename. run_state.
    rewrite Hne. simpl. now rewrite Hnet. }
  rewrite E.
  split; [|split; [|split; [|split; [|split]]]].
  - unfold extractThumbnail, lastBlockPayload. now rewrite thumbnailLoop_blocks.
  - intros fuel H. unfold extractThumbnail. now apply thumbnailLoop_fuel.
  - intro H. unfold extractThumbnail. simpl. now rewrite H.
  - intros m H. unfold extractThumbnail at 1. simpl. rewrite H.
    rewrite thumbnailLoop_last.
    rewrite thumbnailLoop_fuel; [reflexivity|].
    apply exec_shrinks in H; [exact H|exact blockRegex_consuming].
  - exact cleanBlock_commentLines.
  - vm_compute. reflexivity.
Qed.

Lemma thumbnail_last_block_wins_witness :
  fst (extractThumbnailFromGcode Sample.thumbnail_printer "a.gcode" initialWorld)
  = lastBlockPayload Sample.two_thumbnails
  /\ lastBlockPayload Sample.two_thumbnails = Some "CCCCDDDDEE==".
Proof.
  split.
  - apply (@thumbnail_last_block_wins Sample.thumbnail_printer "a.gcode"
             Sample.two_thumbnails initialWorld).
    + discriminate.
    + reflexivity.
  - vm_compute. reflexivity.
Defined.

(* ================================================================== *)
(** ** Further properties *)
(* ================================================================== *)

(** *** Time values *)

Lemma Qdiv_sub_nonneg (p d : Q) : (0 < p)%Q -> (0 <= d)%Q -> (p < 1)%Q -> (0 <= d / p - d)%Q.
Proof.
  intros H0 Hd H1.
  assert (E : (d / p - d == d * ((1 - p) / p))%Q) by (field; lra).
  rewrite E. apply Qmult_le_0_compat; [exact Hd|].
  apply Qle_shift_div_l; [exact H0|lra].
Qed.

Lemma computeRemaining_cases (p d : Q) :
  computeRemainingFromProgress (lit p) (lit d)
  = if Qltb 0 p && Qltb p 1 then lit (d / p - d) else null.
Proof.
  unfold computeRemainingFromProgress, gt, lt, sub, div, lit. simpl.
  destruct (Qltb 0 p) eqn:H0; [|reflexivity].
  destruct (Qltb p 1); [|reflexivity]. simpl.
  apply Qltb_lt in H0. now rewrite (Qis_zero_false_pos H0).
Qed.

(** For a duration that is not negative, the progress-based remaining
    time is null or not negative. *)
Lemma remaining_never_negative (p d : Q) :
  (0 <= d)%Q -> nonneg_or_null (computeRemainingFromProgress (lit p) (lit d)).
Proof.
  intro Hd. rewrite computeRemaining_cases.
  destruct (Qltb 0 p) eqn:H0; [|now left].
  destruct (Qltb p 1) eqn:H1; [|now left].
  right. exists (d / p - d)%Q. split; [reflexivity|].
  apply Qltb_lt in H0. apply Qltb_lt in H1. now apply Qdiv_sub_nonneg.
Qed.

(** Whatever the printer reports as progress (a number, nothing, NaN, an
    infinity), the ratio used is a number between 0 and 1. *)
Lemma clampedProgress_range (rawProgress : value) :
  exists q : Q, clampedProgress rawProgress = lit q /\ (0 <= q)%Q /\ (q <= 1)%Q.
Proof.
  unfold clampedProgress, Math_max, Math_min, or_else.
  destruct (ToNumber rawProgress) as [|[|]|q]; simpl.
  - exists 0%Q. repeat split; discriminate.
  - exists 0%Q. repeat split; discriminate.
  - exists 1%Q. repeat split; discriminate.
  - destruct (Qis_zero q) eqn:Z; simpl.
    + exists 0%Q. repeat split; discriminate.
    + destruct (Qltb q 1) eqn:L1; simpl.
      * destruct (Qltb 0 q) eqn:L0; simpl.
        -- exists q. apply Qltb_lt in L0, L1. repeat split; lra.
        -- exists 0%Q. repeat split; discriminate.
      * exists 1%Q. repeat split; discriminate.
Qed.

Lemma firstPositive_pos_or_null (candidates : list value) :
  firstPositive candidates = null \/ pos (firstPositive candidates).
Proof.
  destruct (firstPositive_null_or_positive candidates) as [H | H]; [now left|now right].
Qed.

(** X1: while printing, for a print duration that is missing or not
    negative, the progress-based remaining time and the slicer-based
    remaining time written by the poll are each null or a number that is
    not negative, whatever progress the printer reports and whatever the
    metadata says. *)
Theorem printing_times_never_negative (PRINTER_IP : string) (net : Network)
        (s : PrinterStatus) (w : World) :
  state (print_stats s) = "printing" ->
  nonneg_or_missing (print_duration (print_stats s)) ->
  exists view,
    fst (fetchPrintStatus PRINTER_IP net (Ok s) w) = Rendered view
    /\ nonneg_or_null (timeEstimate view)
    /\ nonneg_or_null (timeSlicer view)
    /\ timeTotal view = getElapsedTime (print_stats s).
Proof.
  intros Hstate Hd.
  unfold fetchPrintStatus, renderStatus. run_state.
  destruct (ensureMetadataLoaded net (filename (print_stats s)) (state (print_stats s)) _)
    as [u w1].
  rewrite Hstate. simpl.
  eexists. split; [reflexivity|]. cbn [timeEstimate timeSlicer timeTotal].
  assert (D : exists d : Q, (print_duration (print_stats s) || lit 0)%js = lit d /\ (0 <= d)%Q).
  { unfold or_else. destruct Hd as [N | (q & -> & Hq)].
    - destruct (print_duration (print_stats s)); try discriminate;
        exists 0%Q; split; (reflexivity || discriminate).
    - destruct (truthy (lit q)); [exists q|exists 0%Q]; split;
        (reflexivity || assumption || discriminate). }
  destruct D as (d & -> & Hd0).
  split; [|split; [|reflexivity]].
  - fold (clampedProgress (get_opt (virtual_sdcard s) "progress"
                           ?? get_opt (display_status s) "progress" ?? lit 0)%js).
    destruct (clampedProgress_range (get_opt (virtual_sdcard s) "progress"
                           ?? get_opt (display_status s) "progress" ?? lit 0)%js)
      as (p & -> & _).
    now apply remaining_never_negative.
  - destruct (firstPositive_pos_or_null
                [get_opt (cache_data (metadataCache w1)) "estimated_time";
                 get_opt (cache_data (metadataCache w1)) "slicer_estimated_time";
                 get_opt (cache_data (metadataCache w1)) "slicer_time";
                 get_opt (cache_data (metadataCache w1)) "estimated_print_time";
                 get_opt (cache_data (metadataCache w1)) "slicer_estimated_duration";
                 get_opt (cache_data (metadataCache w1)) "print_time";
                 get_opt (info (print_stats s)) "estimated_time";
                 get_opt (info (print_stats s)) "slicer_time";
                 get_opt (info (print_stats s)) "slicer_estimated_time";
                 get_opt (info (print_stats s)) "estimated_print_time";
                 get_opt (info (print_stats s)) "slicer_estimated_duration"])
      as [E | (t & E & Ht)];
      unfold getSlicerTotalSeconds; rewrite E; simpl.
    + now left.
    + right. unfold Math_max. simpl.
      destruct (Qltb 0 (t - d)) eqn:L; eexists; split; try reflexivity.
      * apply Qltb_lt in L. lra.
      * discriminate.
Qed.

Lemma printing_times_never_negative_witness :
  exists view,
    fst (fetchPrintStatus "printer.local" Sample.bare_api
           (Ok {| print_stats := Sample.stats_noinfo;
                  display_status := Sample.progress_12;
                  virtual_sdcard := None;
                  toolhead := Sample.toolhead_z18 |})
           initialWorld) = Rendered view
    /\ nonneg_or_null (timeEstimate view)
    /\ nonneg_or_null (timeSlicer view).
Proof.
  destruct (@printing_times_never_negative "printer.local" Sample.bare_api
              {| print_stats := Sample.stats_noinfo;
                 display_status := Sample.progress_12;
                 virtual_sdcard := None;
                 toolhead := Sample.toolhead_z18 |} initialWorld)
    as (view & H1 & H2 & H3 & _).
  - reflexivity.
  - right. exists 600%Q. split; [reflexivity|discriminate].
  - exists view. repeat split; assumption.
Defined.

(** *** Slicer total and elapsed time *)

Lemma firstPositive_app (l1 l2 : list value) :
  firstPositive (l1 ++ l2)
  = if nullish (firstPositive l1) then firstPositive l2 else firstPositive l1.
Proof.
  induction l1 as [|v l1 IH]; simpl; [reflexivity|].
  destruct (truthy (asNumber v) && (asNumber v >? lit 0)%js) eqn:E; [|exact IH].
  apply andb_true_iff in E as [E _]. now rewrite (truthy_not_nullish _ E).
Qed.

Lemma firstPositive_null_iff (candidates : list value) :
  firstPositive candidates = null
  <-> Forall (fun v => ~ pos (asNumber v)) candidates.
Proof.
  induction candidates as [|v rest IH]; simpl.
  - split; [constructor|reflexivity].
  - destruct (truthy (asNumber v) && (asNumber v >? lit 0)%js) eqn:E.
    + apply andb_true_iff in E as [Et Eg]. split.
      * intro H. rewrite H in Et. discriminate.
      * intro H. inversion H as [|? ? Hv _]; subst. exfalso. apply Hv.
        unfold asNumber in *. destruct (ToNumber v) as [| |q]; simpl in *; try discriminate.
        exists q. split; [reflexivity|now apply Qltb_lt].
    + rewrite IH. split.
      * intro H. constructor; [|exact H].
        intros (q & Hq & Hpos).
        rewrite Hq in E. simpl in E. unfold gt, lt in E. simpl in E.
        rewrite (Qis_zero_false_pos Hpos), (proj2 (Qltb_lt 0 q) Hpos) in E. discriminate.
      * intro H. now inversion H.
Qed.

(** X2: the slicer's total time is null exactly when none of the eleven
    alias fields holds a positive finite number, and it is positive
    otherwise.  The aliases of the metadata come first: the slicer info of
    the print status is consulted only when the metadata gives nothing. *)
Theorem slicer_total_metadata_first (metadata slicerInfo : option obj) :
  getSlicerTotalSeconds metadata slicerInfo
  = (if nullish (getSlicerTotalSeconds metadata None)
     then getSlicerTotalSeconds None slicerInfo
     else getSlicerTotalSeconds metadata None)
  /\ (getSlicerTotalSeconds metadata slicerInfo = null
      <-> (forall key,
             In key ["estimated_time"; "slicer_estimated_time"; "slicer_time";
                     "estimated_print_time"; "slicer_estimated_duration"; "print_time"] ->
             ~ pos (asNumber (get_opt metadata key)))
          /\ (forall key,
                In key ["estimated_time"; "slicer_time"; "slicer_estimated_time";
                        "estimated_print_time"; "slicer_estimated_duration"] ->
                ~ pos (asNumber (get_opt slicerInfo key))))
  /\ positive_or_null (getSlicerTotalSeconds metadata slicerInfo).
Proof.
  split; [|split].
  - unfold getSlicerTotalSeconds.
    change (firstPositive (?a :: ?b :: ?c :: ?d :: ?e :: ?f :: ?rest))
      with (firstPositive ([a; b; c; d; e; f] ++ rest)).
    rewrite !firstPositive_app. simpl get_opt.
    change (firstPositive [undefined; undefined; undefined; undefined; undefined; undefined])
      with null.
    change (firstPositive [undefined; undefined; undefined; undefined; undefined])
      with null.
    cbn [nullish].
    destruct (nullish (firstPositive _)) eqn:E; cbn [nullish]; rewrite ?E; reflexivity.
  - unfold getSlicerTotalSeconds. rewrite firstPositive_null_iff. split.
    + intro H. rewrite Forall_forall in H.
      split; intros key Hin; apply H; simpl in Hin |- *;
        repeat (destruct Hin as [<- | Hin]; [auto 15|]); contradiction.
    + intros [Hm Hs].
      repeat (apply Forall_cons; [first [apply Hm | apply Hs]; simpl; auto 15|]).
      apply Forall_nil.
  - apply firstPositive_null_or_positive.
Qed.

(** X3: the elapsed time is null or a finite number.  It is the total
    duration whenever that is a finite number, and the print duration
    (when finite) if the total duration is missing or not finite; a total
    duration of [null] counts as the number 0 and hides the print
    duration. *)
Theorem elapsed_time_preference (printStats : PrintStats) :
  (getElapsedTime printStats = null \/ fin (getElapsedTime printStats))
  /\ (forall q, total_duration printStats = lit q -> getElapsedTime printStats = lit q)
  /\ (total_duration printStats = undefined \/ isFinite (ToNumber (total_duration printStats)) = false ->
      getElapsedTime printStats = asNumber (print_duration printStats))
  /\ (total_duration printStats = null -> getElapsedTime printStats = lit 0).
Proof.
  unfold getElapsedTime, asNumber, coalesce. repeat split.
  - destruct (ToNumber (total_duration printStats)) as [| |q]; simpl;
      try (right; now exists q);
      destruct (ToNumber (print_duration printStats)) as [| |d]; simpl; auto;
      right; now exists d.
  - intros q ->. reflexivity.
  - intros [-> | H]; simpl.
    + now destruct (isFinite (ToNumber (print_duration printStats))).
    + rewrite H. simpl. now destruct (isFinite (ToNumber (print_duration printStats))).
  - intros ->. reflexivity.
Qed.

Lemma elapsed_time_preference_witness : getElapsedTime Sample.stats_layer5 = lit 660.
Proof.
  apply (proj1 (proj2 (elapsed_time_preference Sample.stats_layer5)) 660%Q).
  reflexivity.
Defined.

(** *** The text of a time *)

Lemma Qfloor_unique (x : Q) (k : Z) :
  (inject_Z k <= x)%Q -> (x < inject_Z (k + 1))%Q -> Qfloor x = k.
Proof.
  intros Hl Hu.
  assert (A : (k <= Qfloor x)%Z).
  { rewrite <- (Qfloor_Z k). now apply Qfloor_resp_le. }
  assert (B : (Qfloor x < k + 1)%Z).
  { rewrite Zlt_Qlt. eapply Qle_lt_trans; [apply Qfloor_le|exact Hu]. }
  lia.
Qed.

Lemma Qfloor_div (x : Q) (n : Z) :
  (0 < n)%Z -> Qfloor (x / inject_Z n) = (Qfloor x / n)%Z.
Proof.
  intro Hn.
  assert (Hq : (0 < inject_Z n)%Q).
  { change 0%Q with (inject_Z 0). now rewrite <- Zlt_Qlt. }
  pose proof (Qfloor_le x) as Hl. pose proof (Qlt_floor x) as Hu.
  pose proof (Z.div_mod (Qfloor x) n ltac:(lia)) as Hdm.
  pose proof (Z.mod_pos_bound (Qfloor x) n Hn) as Hm.
  apply Qfloor_unique.
  - apply Qle_shift_div_l; [exact Hq|].
    eapply Qle_trans; [|exact Hl].
    rewrite <- inject_Z_mult, <- Zle_Qle. lia.
  - apply Qlt_shift_div_r; [exact Hq|].
    eapply Qlt_le_trans; [exact Hu|].
    rewrite <- inject_Z_mult, <- Zle_Qle. lia.
Qed.

Lemma Qfloor_sub (x : Q) (z : Z) : Qfloor (x - inject_Z z) = (Qfloor x - z)%Z.
Proof.
  pose proof (Qfloor_le x) as Hl. pose proof (Qlt_floor x) as Hu.
  apply Qfloor_unique.
  - unfold Z.sub. rewrite inject_Z_plus, inject_Z_opp. lra.
  - replace (Qfloor x - z + 1)%Z with ((Qfloor x + 1) - z)%Z by lia.
    unfold Z.sub. rewrite inject_Z_plus, inject_Z_opp. lra.
Qed.

Lemma Qtrunc_nonneg (x : Q) : (0 <= x)%Q -> Qtrunc x = Qfloor x.
Proof.
  intro H. unfold Qtrunc. now rewrite (proj2 (Qle_bool_iff 0 x) H).
Qed.

Lemma Qltb_inject_Z (a b : Z) : Qltb (inject_Z a) (inject_Z b) = (a <? b)%Z.
Proof.
  destruct (a <? b)%Z eqn:E.
  - apply Qltb_lt. rewrite <- Zlt_Qlt. now apply Z.ltb_lt.
  - apply Qltb_ge. rewrite <- Zle_Qle. apply Z.ltb_ge in E. lia.
Qed.

(** The remainder of a positive number of seconds by a whole number. *)
Lemma floor_rem (s : Q) (n : Z) :
  (0 < s)%Q -> (0 < n)%Z ->
  Qfloor (s - inject_Z n * inject_Z (Qtrunc (s / inject_Z n))) = (Qfloor s mod n)%Z.
Proof.
  intros Hs Hn.
  assert (Hq : (0 < inject_Z n)%Q).
  { change 0%Q with (inject_Z 0). now rewrite <- Zlt_Qlt. }
  rewrite Qtrunc_nonneg.
  - rewrite Qfloor_div by exact Hn.
    rewrite <- inject_Z_mult, Qfloor_sub. rewrite Z.mod_eq by lia. reflexivity.
  - apply Qle_shift_div_l; [exact Hq|]. lra.
Qed.

(** The operators on finite numbers. *)
Lemma lit_div (a b : Q) : Qis_zero b = false -> (lit a / lit b)%js = lit (a / b).
Proof. intro H. unfold div. simpl. now rewrite H. Qed.

Lemma lit_rem (a b : Q) :
  Qis_zero b = false ->
  (lit a mod lit b)%js = lit (a - b * inject_Z (Qtrunc (a / b))).
Proof. intro H. unfold rem. simpl. now rewrite H. Qed.

Lemma lit_floor (a : Q) : Math_floor (lit a) = lit (inject_Z (Qfloor a)).
Proof. reflexivity. Qed.

Lemma lit_gt (a b : Q) : (lit a >? lit b)%js = Qltb b a.
Proof. reflexivity. Qed.

Lemma lit_lt (a b : Q) : (lit a <? lit b)%js = Qltb a b.
Proof. reflexivity. Qed.

Lemma lit_truthy (a : Q) : truthy (lit a) = negb (Qis_zero a).
Proof. reflexivity. Qed.

(** X4: [setTimeValue] shows "--" for a value that is missing, NaN,
    infinite, zero or negative, and for a positive number of seconds it
    shows the whole seconds (fractions dropped) split into hours and
    minutes, minutes and seconds, or seconds; minutes and seconds stay
    below 60. *)
Theorem time_text (s : Q) :
  ((s <= 0)%Q -> setTimeValue (lit s) = NoTime)
  /\ ((0 < s)%Q -> setTimeValue (lit s) = clockText (Qfloor s))
  /\ (forall v, nullish v = true \/ Number_isFinite v = false -> setTimeValue v = NoTime)
  /\ (forall t, (0 <= (t mod 3600) / 60 < 60)%Z /\ (0 <= t mod 60 < 60)%Z).
Proof.
  split; [|split; [|split]].
  - intro H. unfold setTimeValue, formatTime, lt. simpl.
    destruct (Qltb s 0) eqn:L; [reflexivity|]. simpl.
    apply Qltb_ge in L. assert (E : (s == 0)%Q) by lra.
    unfold Qis_zero. now rewrite (Qeq_eq_bool _ _ E).
  - intro H. unfold setTimeValue, formatTime.
    change (nullish (lit s)) with false. change (Number_isFinite (lit s)) with true.
    rewrite lit_lt, lit_truthy, (proj2 (Qltb_ge s 0)) by lra.
    rewrite (Qis_zero_false_pos H). cbn [negb orb].
    rewrite !lit_div, !lit_rem, !lit_floor, !lit_div, !lit_floor by reflexivity.
    change (3600%Q) with (inject_Z 3600). change (60%Q) with (inject_Z 60).
    rewrite !lit_gt. change (0%Q) with (inject_Z 0).
    rewrite !Qfloor_div by lia.
    rewrite !floor_rem by (assumption || lia).
    rewrite !Qltb_inject_Z. reflexivity.
  - intros v [H | H]; unfold setTimeValue; rewrite H; [reflexivity|].
    simpl. now rewrite orb_true_r.
  - intro t. split.
    + pose proof (Z.mod_pos_bound t 3600 ltac:(lia)). split.
      * apply Z.div_pos; lia.
      * apply Z.div_lt_upper_bound; lia.
    + apply Z.mod_pos_bound. lia.
Qed.

Lemma time_text_witness :
  setTimeValue (lit 8100.5) = HoursMinutes (lit 2) (lit 15)
  /\ setTimeValue (lit 0) = NoTime.
Proof.
  split.
  - rewrite (proj1 (proj2 (time_text 8100.5))); reflexivity.
  - apply (proj1 (time_text 0)). discriminate.
Defined.

(** *** Layers from the metadata geometry and from the progress *)

Lemma lit_max_one (x : Q) : Math_max (lit 1) (lit x) = lit (if Qltb 1 x then x else 1).
Proof. unfold Math_max. simpl. now destruct (Qltb 1 x). Qed.

Lemma lit_min (t x : Q) : Math_min (lit t) (lit x) = lit (if Qltb x t then x else t).
Proof. unfold Math_min. simpl. now destruct (Qltb x t). Qed.

Lemma lit_round (a : Q) : Math_round (lit a) = lit (inject_Z (Qfloor (a + (1 # 2)))).
Proof. reflexivity. Qed.

Lemma lit_sub (a b : Q) : (lit a - lit b)%js = lit (a - b).
Proof. reflexivity. Qed.

Lemma lit_add (a b : Q) : (lit a + lit b)%js = lit (a + b).
Proof. reflexivity. Qed.

Lemma lit_mul (a b : Q) : (lit a * lit b)%js = lit (a * b).
Proof. reflexivity. Qed.

Lemma lit_inj (a b : Q) : lit a = lit b -> a = b.
Proof. intro H. now injection H. Qed.

Lemma truthy_lit_nonzero (a : Q) : truthy (lit a) = true -> Qis_zero a = false.
Proof. simpl. now rewrite negb_true_iff. Qed.

Lemma Qmax_one_mono (x y : Q) :
  (x <= y)%Q -> ((if Qltb 1 x then x else 1) <= (if Qltb 1 y then y else 1))%Q.
Proof.
  intro H. destruct (Qltb 1 x) eqn:Ex, (Qltb 1 y) eqn:Ey;
    try apply Qltb_lt in Ex; try apply Qltb_lt in Ey;
    try apply Qltb_ge in Ex; try apply Qltb_ge in Ey; lra.
Qed.

Lemma Qmin_mono (t x y : Q) :
  (x <= y)%Q -> ((if Qltb x t then x else t) <= (if Qltb y t then y else t))%Q.
Proof.
  intro H. destruct (Qltb x t) eqn:Ex, (Qltb y t) eqn:Ey;
    try apply Qltb_lt in Ex; try apply Qltb_lt in Ey;
    try apply Qltb_ge in Ex; try apply Qltb_ge in Ey; lra.
Qed.

Lemma floor_mono (x y : Q) : (x <= y)%Q -> (inject_Z (Qfloor x) <= inject_Z (Qfloor y))%Q.
Proof. intro H. rewrite <- Zle_Qle. now apply Qfloor_resp_le. Qed.

(** The total of the metadata geometry does not depend on the toolhead;
    it is null or a number that is not zero. *)
Lemma metadata_total_form (toolhead : option Toolhead) (md : obj) :
  json_obj (Some md) = true ->
  total (computeLayerFromMetadata toolhead (Some md)) = null
  \/ exists t : Q, total (computeLayerFromMetadata toolhead (Some md)) = lit t
                   /\ Qis_zero t = false.
Proof.
  intro Hj. unfold computeLayerFromMetadata. cbn [total].
  set (layerHeight := get md "layer_height").
  set (firstLayerHeight := (get md "first_layer_height" || layerHeight)%js).
  set (objectHeight := get md "object_height").
  set (layerCount := asNumber _).
  assert (Jl : json_value layerHeight = true) by now apply json_get.
  assert (Jo : json_value objectHeight = true) by now apply json_get.
  assert (Jf : json_value (get md "first_layer_height") = true) by now apply json_get.
  assert (T0 : (layerCount || null)%js = null
               \/ exists t, (layerCount || null)%js = lit t /\ Qis_zero t = false).
  { unfold or_else. destruct (truthy layerCount) eqn:E; [|now left]. right.
    subst layerCount. unfold asNumber in *.
    destruct (ToNumber _) as [| |q]; simpl in *; try discriminate.
    exists q. split; [reflexivity|now apply negb_true_iff]. }
  destruct (negb (truthy (layerCount || null)%js) && truthy layerHeight && truthy objectHeight)
    eqn:E; [|exact T0].
  apply andb_true_iff in E as [E Eo]. apply andb_true_iff in E as [_ El].
  right.
  destruct (json_truthy_fin _ Jl El) as [l Hl].
  destruct (json_truthy_fin _ Jo Eo) as [o Ho].
  assert (F : fin firstLayerHeight).
  { subst firstLayerHeight. apply fin_or_else; [exact Jf|now exists l]. }
  destruct F as [f Hf]. rewrite Hl, Ho, Hf.
  rewrite Hl in El. apply truthy_lit_nonzero in El.
  rewrite lit_sub, (lit_div _ _ El), lit_add, lit_round, lit_max_one.
  eexists. split; [reflexivity|].
  apply Qis_zero_false_pos.
  destruct (Qltb 1 _) eqn:L; [apply Qltb_lt in L|]; lra.
Qed.

(** The current layer of the metadata geometry, for a layer height
    [l <> 0] and a Z height [z]. *)
Lemma metadata_current_form (toolhead : option Toolhead) (md : obj) (l z : Q) :
  json_obj (Some md) = true ->
  get md "layer_height" = lit l ->
  Qis_zero l = false ->
  toolheadZ toolhead = lit z ->
  exists f : Q,
    (get md "first_layer_height" || lit l)%js = lit f
    /\ current (computeLayerFromMetadata toolhead (Some md))
       = match total (computeLayerFromMetadata None (Some md)) with
         | Num (Fin t) =>
             lit (let c := inject_Z (Qfloor ((z - f) / l + 1)) in
                  let c := if Qltb 1 c then c else 1 in
                  if Qltb c t then c else t)
         | _ =>
             lit (let c := inject_Z (Qfloor ((z - f) / l + 1)) in
                  if Qltb 1 c then c else 1)
         end.
Proof.
  intros Hj Hl Hz0 Hz.
  assert (Jf : json_value (get md "first_layer_height") = true) by now apply json_get.
  assert (F : fin (get md "first_layer_height" || lit l)%js).
  { apply fin_or_else; [exact Jf|now exists l]. }
  destruct F as [f Hf]. exists f. split; [exact Hf|].
  destruct (metadata_total_form None md Hj) as [T | (t & T & Tz)]; rewrite T;
    unfold computeLayerFromMetadata in *; cbn [current total] in *;
    match type of T with ?X = _ => set (tot := X) in * end;
    rewrite Hl, Hz, Hf, T.
  - rewrite lit_truthy, Hz0. cbn [negb nullish andb lit truthy].
    now rewrite lit_sub, (lit_div _ _ Hz0), lit_add, lit_floor, lit_max_one.
  - rewrite !lit_truthy, Hz0, Tz. cbn [negb nullish andb lit].
    now rewrite lit_sub, (lit_div _ _ Hz0), lit_add, lit_floor, lit_max_one, lit_min.
Qed.

Lemma total_toolhead_independent (th1 th2 : option Toolhead) (metadata : option obj) :
  total (computeLayerFromMetadata th1 metadata)
  = total (computeLayerFromMetadata th2 metadata).
Proof. destruct metadata; reflexivity. Qed.

(** X5: for JSON metadata and Z height, the current layer derived from
    the metadata geometry never exceeds the total derived from it. *)
Theorem metadata_layer_within_total (toolhead : option Toolhead) (md : obj) (c t : Q) :
  json_obj (Some md) = true ->
  json_value (toolheadZ toolhead) = true ->
  current (computeLayerFromMetadata toolhead (Some md)) = lit c ->
  total (computeLayerFromMetadata toolhead (Some md)) = lit t ->
  (c <= t)%Q.
Proof.
  intros Hj Hz Hc Ht.
  assert (G : truthy (get md "layer_height") && negb (nullish (toolheadZ toolhead)) = true).
  { unfold computeLayerFromMetadata in Hc. cbn [current] in Hc.
    destruct (truthy (get md "layer_height") && negb (nullish (toolheadZ toolhead)));
      [reflexivity|discriminate]. }
  apply andb_true_iff in G as [Gl Gz]. apply negb_true_iff in Gz.
  destruct (json_truthy_fin _ (json_get md "layer_height" Hj) Gl) as [l Hl].
  destruct (json_defined_fin _ Hz Gz) as [z Hzq].
  rewrite Hl in Gl. apply truthy_lit_nonzero in Gl.
  destruct (metadata_current_form toolhead md Hj Hl Gl Hzq) as (f & _ & E).
  rewrite (total_toolhead_independent None toolhead), Ht in E.
  rewrite Hc in E. apply lit_inj in E. subst c. cbv zeta.
  destruct (Qltb _ t) eqn:L; [apply Qltb_lt in L|]; lra.
Qed.

Lemma metadata_layer_within_total_witness :
  exists c t : Q,
    current (computeLayerFromMetadata Sample.toolhead_z18 Sample.metadata_100) = lit c
    /\ total (computeLayerFromMetadata Sample.toolhead_z18 Sample.metadata_100) = lit t
    /\ (c <= t)%Q.
Proof.
  exists 9%Q, 100%Q. split; [reflexivity|]. split; [reflexivity|].
  apply (@metadata_layer_within_total Sample.toolhead_z18
           [("layer_height", lit 0.2); ("layer_count", lit 100)] 9 100);
    reflexivity.
Defined.

(** X6: for a positive layer height, the current layer derived from the
    metadata geometry does not decrease when the nozzle rises. *)
Theorem metadata_layer_monotone (th1 th2 : option Toolhead) (md : obj) (l z1 z2 : Q) :
  json_obj (Some md) = true ->
  get md "layer_height" = lit l ->
  (0 < l)%Q ->
  toolheadZ th1 = lit z1 ->
  toolheadZ th2 = lit z2 ->
  (z1 <= z2)%Q ->
  exists c1 c2 : Q,
    current (computeLayerFromMetadata th1 (Some md)) = lit c1
    /\ current (computeLayerFromMetadata th2 (Some md)) = lit c2
    /\ (c1 <= c2)%Q.
Proof.
  intros Hj Hl Hpos H1 H2 Hz.
  pose proof (Qis_zero_false_pos Hpos) as Hl0.
  destruct (metadata_current_form th1 md Hj Hl Hl0 H1) as (f & Hf & E1).
  destruct (metadata_current_form th2 md Hj Hl Hl0 H2) as (f' & Hf' & E2).
  rewrite Hf in Hf'. apply lit_inj in Hf'. subst f'.
  assert (F : (inject_Z (Qfloor ((z1 - f) / l + 1)) <= inject_Z (Qfloor ((z2 - f) / l + 1)))%Q).
  { apply floor_mono.
    assert (D : ((z1 - f) / l <= (z2 - f) / l)%Q).
    { apply Qle_shift_div_l; [exact Hpos|].
      assert (E : ((z1 - f) / l * l == z1 - f)%Q) by (field; lra).
      rewrite E. lra. }
    lra. }
  rewrite E1, E2.
  destruct (total (computeLayerFromMetadata None (Some md))) as [| |[| |t]];
    eexists; eexists; (split; [reflexivity|split; [reflexivity|]]); cbv zeta;
    try (now apply Qmax_one_mono).
  now apply Qmin_mono, Qmax_one_mono.
Qed.

Lemma metadata_layer_monotone_witness :
  exists c1 c2 : Q,
    current (computeLayerFromMetadata
               (Some {| position := Some [lit 0; lit 0; lit 1; lit 0] |})
               Sample.metadata_100) = lit c1
    /\ current (computeLayerFromMetadata Sample.toolhead_z18 Sample.metadata_100) = lit c2
    /\ (c1 <= c2)%Q.
Proof.
  apply (@metadata_layer_monotone
           (Some {| position := Some [lit 0; lit 0; lit 1; lit 0] |})
           Sample.toolhead_z18
           [("layer_height", lit 0.2); ("layer_count", lit 100)] 0.2 1 1.8);
    (reflexivity || discriminate).
Defined.

(** The current layer derived from the progress, for a layer count [t]
    that is not zero and a positive progress [p]. *)
Lemma progress_current_form (displayStatus : option obj) (md : obj) (t p : Q) :
  metadataLayerCount (Some md) = lit t ->
  Qis_zero t = false ->
  get_opt displayStatus "progress" = lit p ->
  (0 < p)%Q ->
  computeLayerFromProgress displayStatus (Some md)
  = {| current :=
         lit (let r := inject_Z (Qfloor (p * t + (1 # 2))) in
              let m := if Qltb r t then r else t in
              if Qltb 1 m then m else 1);
       total := lit t |}.
Proof.
  intros Ht Hz Hp Hpos. unfold metadataLayerCount in Ht. cbn [get_opt] in Ht.
  unfold computeLayerFromProgress. rewrite Ht, Hp.
  rewrite lit_truthy, Hz. cbn [negb nullish orb lit].
  assert (E : (lit p <=? lit 0)%js = false).
  { change (lit p <=? lit 0)%js with (Qle_bool p 0).
    destruct (Qle_bool p 0) eqn:E; [|reflexivity].
    apply Qle_bool_iff in E. lra. }
  change (Num (Fin p)) with (lit p). rewrite E.
  now rewrite lit_mul, lit_round, lit_min, lit_max_one.
Qed.

(** X7: for a metadata layer count [t >= 1] and a positive progress, the
    current layer derived from the progress lies between 1 and [t]; it
    does not decrease when the progress grows; and at a progress of 1 or
    more it is [t] when [t] is a whole number. *)
Theorem progress_layer_bounds (ds1 ds2 : option obj) (md : obj) (t p1 p2 : Q) :
  metadataLayerCount (Some md) = lit t ->
  (1 <= t)%Q ->
  get_opt ds1 "progress" = lit p1 ->
  get_opt ds2 "progress" = lit p2 ->
  (0 < p1)%Q ->
  (p1 <= p2)%Q ->
  exists c1 c2 : Q,
    current (computeLayerFromProgress ds1 (Some md)) = lit c1
    /\ current (computeLayerFromProgress ds2 (Some md)) = lit c2
    /\ (1 <= c1)%Q /\ (c1 <= c2)%Q /\ (c2 <= t)%Q
    /\ ((1 <= p2)%Q -> (exists n : Z, t = inject_Z n) -> c2 = t).
Proof.
  intros Ht H1 Hp1 Hp2 Hpos Hle.
  assert (Hz : Qis_zero t = false) by (apply Qis_zero_false_pos; lra).
  rewrite (progress_current_form ds1 md Ht Hz Hp1 Hpos).
  rewrite (progress_current_form ds2 md Ht Hz Hp2) by lra.
  cbn [current]. eexists. eexists. split; [reflexivity|]. split; [reflexivity|].
  cbv zeta.
  assert (F : (inject_Z (Qfloor (p1 * t + (1 # 2))) <= inject_Z (Qfloor (p2 * t + (1 # 2))))%Q).
  { apply floor_mono. apply Qplus_le_l. apply Qmult_le_compat_r; lra. }
  split; [|split; [|split]].
  - destruct (Qltb 1 _) eqn:L; [apply Qltb_lt in L|]; lra.
  - now apply Qmax_one_mono, Qmin_mono.
  - destruct (Qltb (inject_Z (Qfloor (p2 * t + (1 # 2)))) t) eqn:L;
      [apply Qltb_lt in L|];
      (destruct (Qltb 1 _) eqn:L1; [apply Qltb_lt in L1|]); lra.
  - intros Hp (n & Hn).
    assert (G : (t <= inject_Z (Qfloor (p2 * t + (1 # 2))))%Q).
    { subst t. rewrite <- Zle_Qle. rewrite <- (Qfloor_Z n) at 1.
      apply Qfloor_resp_le.
      assert (M : (1 * inject_Z n <= p2 * inject_Z n)%Q)
        by (apply Qmult_le_compat_r; lra).
      lra. }
    rewrite (proj2 (Qltb_ge _ _) G).
    destruct (Qltb 1 t) eqn:L; [reflexivity|].
    apply Qltb_ge in L. subst t.
    change 1%Q with (inject_Z 1) in L, H1.
    rewrite <- Zle_Qle in L, H1. assert (n = 1%Z) by lia. now subst n.
Qed.

Lemma progress_layer_bounds_witness :
  exists c1 c2 : Q,
    current (computeLayerFromProgress Sample.progress_12 Sample.metadata_100) = lit c1
    /\ current (computeLayerFromProgress (Some [("progress", lit 1)]) Sample.metadata_100)
       = lit c2
    /\ (1 <= c1)%Q /\ (c1 <= c2)%Q /\ (c2 <= 100)%Q.
Proof.
  destruct (@progress_layer_bounds Sample.progress_12 (Some [("progress", lit 1)])
              [("layer_height", lit 0.2); ("layer_count", lit 100)] 100 0.12 1)
    as (c1 & c2 & H1 & H2 & H3 & H4 & H5 & _);
    try reflexivity; try discriminate.
  exists c1, c2. repeat split; assumption.
Defined.

(** *** Geometry derived after the scan of a header *)

Lemma Qfloor_half (n : Z) (x : Q) : (x == inject_Z n + (1 # 2))%Q -> Qfloor x = n.
Proof.
  intro E. apply Qfloor_unique; rewrite E.
  - lra.
  - rewrite inject_Z_plus. change (inject_Z 1) with 1%Q. lra.
Qed.

Lemma Qltb_one_inject (n : Z) :
  (1 <= n)%Z -> (if Qltb 1 (inject_Z n) then inject_Z n else 1%Q) = inject_Z n.
Proof.
  intro H. change 1%Q with (inject_Z 1). rewrite Qltb_inject_Z.
  destruct (1 <? n)%Z eqn:E; [reflexivity|].
  apply Z.ltb_ge in E. now replace n with 1%Z by lia.
Qed.

(** X8: the two derivations that follow the scan are inverse to each
    other.  From a layer height [l] and a count of [n] layers the object
    height [l * n] is derived (the count is kept); and from an object
    height of one first layer [f] plus [n - 1] layers of height [l] the
    count [n] is derived. *)
Theorem geometry_round_trip (meta : obj) (l f h : Q) (n : Z) :
  get meta "layer_height" = lit l ->
  Qis_zero l = false ->
  (1 <= n)%Z ->
  (truthy (get meta "object_height") = false ->
   get meta "layer_count" = lit (inject_Z n) ->
   get (deriveGeometry meta) "object_height" = lit (l * inject_Z n)
   /\ get (deriveGeometry meta) "layer_count" = lit (inject_Z n))
  /\ (truthy (get meta "layer_count") = false ->
      (get meta "first_layer_height" || get meta "layer_height")%js = lit f ->
      get meta "object_height" = lit h ->
      Qis_zero h = false ->
      (h == f + l * inject_Z (n - 1))%Q ->
      get (deriveGeometry meta) "layer_count" = lit (inject_Z n)
      /\ get (deriveGeometry meta) "object_height" = lit h).
Proof.
  intros Hl Hl0 Hn.
  assert (Hn0 : Qis_zero (inject_Z n) = false).
  { apply Qis_zero_false_pos. change 0%Q with (inject_Z 0). rewrite <- Zlt_Qlt. lia. }
  split.
  - intros Ho Hc. unfold deriveGeometry. rewrite Ho, Hl, Hc.
    rewrite !lit_truthy, Hl0, Hn0. cbn [negb andb].
    rewrite !get_set. cbn [String.eqb Ascii.eqb Bool.eqb andb].
    rewrite Hl, Hc, lit_mul, !lit_truthy, Hl0, Hn0. cbn [negb andb].
    rewrite andb_false_r. rewrite !get_set. cbn [String.eqb Ascii.eqb Bool.eqb andb].
    now rewrite Hc.
  - intros Hc Hf Ho Hh0 Hh. unfold deriveGeometry.
    rewrite Ho, lit_truthy, Hh0. cbn [negb andb].
    rewrite Hf, Ho, Hl, Hc. rewrite !lit_truthy, Hh0, Hl0. cbn [negb andb].
    rewrite !get_set. cbn [String.eqb Ascii.eqb Bool.eqb andb].
    rewrite Ho. split; [|reflexivity].
    rewrite lit_sub, (lit_div _ _ Hl0), lit_add, lit_round.
    rewrite (@Qfloor_half n).
    + now rewrite lit_max_one, Qltb_one_inject.
    + rewrite Hh. unfold Z.sub. rewrite inject_Z_plus, inject_Z_opp.
      change (inject_Z 1) with 1%Q.
      assert (L : ~ (l == 0)%Q).
      { intro E. unfold Qis_zero in Hl0. now rewrite (Qeq_eq_bool _ _ E) in Hl0. }
      field. exact L.
Qed.

Lemma geometry_round_trip_witness :
  get (deriveGeometry [("layer_height", lit 0.2); ("layer_count", lit 100)]) "object_height"
  = lit (0.2 * 100)
  /\ get (deriveGeometry [("layer_height", lit 0.2); ("object_height", lit 20.0)])
       "layer_count" = lit 100.
Proof.
  split.
  - apply (proj1 (@geometry_round_trip [("layer_height", lit 0.2); ("layer_count", lit 100)]
                    0.2 0.2 20.0 100 eq_refl eq_refl ltac:(lia))); reflexivity.
  - apply (proj2 (@geometry_round_trip [("layer_height", lit 0.2); ("object_height", lit 20.0)]
                    0.2 0.2 20.0 100 eq_refl eq_refl ltac:(lia))); reflexivity.
Defined.

(** *** The scan of a header *)

Lemma coalesce_defined (a b : value) : nullish a = false -> (a ?? b)%js = a.
Proof. intro H. unfold coalesce. now rewrite H. Qed.

Lemma fill_keeps (meta : obj) (key' lower : string) (regex : re) (key : string) :
  nullish (get meta key) = false ->
  get (fill meta key' lower regex) key = get meta key.
Proof.
  intro H. unfold fill. rewrite get_set.
  destruct (String.eqb key' key) eqn:E; [|reflexivity].
  apply String.eqb_eq in E. subst key'. now apply coalesce_defined.
Qed.

Lemma scanLine_keeps (meta : obj) (rawLine key : string) :
  nullish (get meta key) = false ->
  get (scanLine meta rawLine) key = get meta key.
Proof.
  intro H. unfold scanLine.
  destruct (negb (startsWith (trim rawLine) ";")); [reflexivity|].
  set (lower := toLowerCase (trim rawLine)).
  assert (K : forall m k' r, get m key = get meta key ->
                             get (fill m k' lower r) key = get meta key).
  { intros m k' r E. rewrite fill_keeps; [exact E|now rewrite E]. }
  match goal with
  | |- get (match ?h with _ => _ end) key = _ =>
      destruct h; rewrite ?get_set;
      try (destruct (String.eqb "object_height" key) eqn:E;
           [apply String.eqb_eq in E; subst key; rewrite coalesce_defined|]);
      repeat apply K; try reflexivity;
      match goal with |- nullish ?x = false => replace x with (get meta "object_height") end;
      try exact H; symmetry; repeat apply K; reflexivity
  end.
Qed.

(** X9: in the scan of header lines, a field that holds a number is never
    changed by a later line: the first line that sets it wins. *)
Theorem scan_first_value_wins (before after : list string) (key : string) :
  nullish (get (fold_left scanLine before []) key) = false ->
  get (fold_left scanLine (before ++ after) []) key
  = get (fold_left scanLine before []) key.
Proof.
  rewrite fold_left_app. generalize (fold_left scanLine before []). intros meta H.
  revert meta H. induction after as [|line rest IH]; intros meta H; simpl; [reflexivity|].
  rewrite IH.
  - now apply scanLine_keeps.
  - now rewrite scanLine_keeps.
Qed.

Lemma scan_first_value_wins_witness :
  get (fold_left scanLine ([";LAYER_COUNT:100"] ++ [";LAYER_COUNT:7"; ";TIME:60"]) [])
      "layer_count"
  = lit 100.
Proof.
  rewrite (@scan_first_value_wins [";LAYER_COUNT:100"] [";LAYER_COUNT:7"; ";TIME:60"]
             "layer_count"); reflexivity.
Defined.

Lemma digits_to_Z_nonneg (s : string) :
  forall acc : Z, (0 <= acc)%Z -> (0 <= digits_to_Z acc s)%Z.
Proof.
  induction s as [|c s IH]; intros acc H; cbn [digits_to_Z]; [exact H|].
  apply IH. unfold digit_val.
  pose proof (Nat2Z.is_nonneg (code c - 48)). lia.
Qed.

Lemma Number_of_string_nonneg (s : string) :
  Number_of_string s = NaN \/ exists q : Q, Number_of_string s = Fin q /\ (0 <= q)%Q.
Proof.
  unfold Number_of_string. destruct s as [|c s].
  - right. exists 0%Q. split; [reflexivity|discriminate].
  - destruct (split_dot (String c s)) as [ip rest].
    destruct (all_digits ip && all_digits _ && negb _); [|now left].
    right. eexists. split; [reflexivity|].
    unfold Qle. cbn [Qnum Qden].
    pose proof (@digits_to_Z_nonneg ip 0%Z ltac:(lia)).
    pose proof (@digits_to_Z_nonneg
                  match rest with Some f => f | None => EmptyString end 0%Z ltac:(lia)).
    assert (0 <= 10 ^ Z.of_nat (String.length
               match rest with Some f => f | None => EmptyString end))%Z
      by (apply Z.pow_nonneg; lia).
    nia.
Qed.

Lemma numberFromLine_nonneg (line : string) (regex : re) :
  numberFromLine line regex = null
  \/ exists q : Q, numberFromLine line regex = lit q /\ (0 <= q)%Q.
Proof.
  unfold numberFromLine. destruct (exec regex line) as [m|]; [|now left].
  unfold Number_of_group. destruct (capture (groups m) 1) as [s|]; [|now left].
  destruct (Number_of_string_nonneg s) as [-> | (q & -> & Hq)]; [now left|].
  right. now exists q.
Qed.

Lemma fill_nonneg (meta : obj) (key' lower : string) (regex : re) :
  (forall key, nonneg_field (get meta key)) ->
  forall key, nonneg_field (get (fill meta key' lower regex) key).
Proof.
  intros H key. unfold fill. rewrite get_set.
  destruct (String.eqb key' key); [|apply H].
  unfold coalesce. destruct (nullish (get meta key')) eqn:E; [|apply H].
  destruct (numberFromLine_nonneg lower regex) as [-> | (q & -> & Hq)].
  - right. now left.
  - right. right. now exists q.
Qed.

Lemma scanLine_nonneg (meta : obj) (rawLine : string) :
  (forall key, nonneg_field (get meta key)) ->
  forall key, nonneg_field (get (scanLine meta rawLine) key).
Proof.
  intros H. unfold scanLine.
  destruct (negb (startsWith (trim rawLine) ";")); [exact H|].
  set (lower := toLowerCase (trim rawLine)).
  set (filled := fill (fill (fill (fill (fill (fill (fill (fill (fill (fill meta
         _ _ _) _ _ _) _ _ _) _ _ _) _ _ _) _ _ _) _ _ _) _ _ _) _ _ _) _ _ _).
  assert (F : forall key, nonneg_field (get filled key))
    by (subst filled; repeat apply fill_nonneg; exact H).
  destruct (numberFromLine_nonneg lower re_height) as [-> | (q & -> & Hq)];
    [exact F|].
  intro key. cbn [lit]. rewrite get_set.
  destruct (String.eqb "object_height" key); [|apply F].
  unfold coalesce. destruct (nullish (get filled "object_height")); [|apply F].
  right. right. now exists q.
Qed.

Lemma scan_nonneg (lines : list string) :
  forall meta, (forall key, nonneg_field (get meta key)) ->
               forall key, nonneg_field (get (fold_left scanLine lines meta) key).
Proof.
  induction lines as [|line rest IH]; intros meta H; simpl; [exact H|].
  apply IH. now apply scanLine_nonneg.
Qed.

Lemma nonneg_truthy (v : value) :
  nonneg_field v -> truthy v = true -> exists q : Q, v = lit q /\ (0 <= q)%Q /\ Qis_zero q = false.
Proof.
  intros [-> | [-> | (q & -> & Hq)]]; simpl; try discriminate.
  intro H. exists q. repeat split; [exact Hq|now apply negb_true_iff].
Qed.

Lemma deriveGeometry_nonneg (meta : obj) :
  (forall key, nonneg_field (get meta key)) ->
  forall key, nonneg_field (get (deriveGeometry meta) key).
Proof.
  intro H. unfold deriveGeometry.
  set (meta1 := if negb (truthy (get meta "object_height")) && _ && _ then _ else meta).
  assert (H1 : forall key, nonneg_field (get meta1 key)).
  { subst meta1.
    destruct (negb (truthy (get meta "object_height")) && truthy (get meta "layer_height")
              && truthy (get meta "layer_count")) eqn:E; [|exact H].
    apply andb_true_iff in E as [E Ec]. apply andb_true_iff in E as [_ El].
    destruct (nonneg_truthy (H "layer_height") El) as (l & -> & Hl & _).
    destruct (nonneg_truthy (H "layer_count") Ec) as (c & -> & Hc & _).
    intro key. rewrite get_set. destruct (String.eqb "object_height" key); [|apply H].
    right. right. exists (l * c)%Q. split; [reflexivity|now apply Qmult_le_0_compat]. }
  destruct (truthy (get meta1 "object_height") && truthy (get meta1 "layer_height")
            && negb (truthy (get meta1 "layer_count"))) eqn:E; [|exact H1].
  apply andb_true_iff in E as [E _]. apply andb_true_iff in E as [Eo El].
  destruct (nonneg_truthy (H1 "object_height") Eo) as (o & Ho & _ & _).
  destruct (nonneg_truthy (H1 "layer_height") El) as (l & Hl & _ & Hl0).
  assert (F : exists f, (get meta1 "first_layer_height" || get meta1 "layer_height")%js = lit f).
  { unfold or_else. destruct (truthy (get meta1 "first_layer_height")) eqn:Ef.
    - destruct (nonneg_truthy (H1 "first_layer_height") Ef) as (f & Hf & _). now exists f.
    - now exists l. }
  destruct F as [f Hf].
  intro key. rewrite get_set. destruct (String.eqb "layer_count" key); [|apply H1].
  rewrite Hf, Ho, Hl, lit_sub, (lit_div _ _ Hl0), lit_add, lit_round, lit_max_one.
  right. right. eexists. split; [reflexivity|].
  destruct (Qltb 1 _) eqn:L; [apply Qltb_lt in L|]; lra.
Qed.

(** X10: no field of a record returned by [parseGcodeHeader] is a
    negative number.  The three fields that are only read from the text
    (the layer height, the first layer height and the estimated time)
    are each unset, null, or a finite number that is not negative.  For
    the object height and the layer count, which may also be derived by
    arithmetic, only the sign is stated. *)
Theorem header_fields_nonnegative (text : string) (meta : obj) (key : string) :
  parseGcodeHeader text = Some meta ->
  (forall q, get meta key = lit q -> (0 <= q)%Q)
  /\ (In key ["layer_height"; "first_layer_height"; "estimated_time"] ->
      nonneg_field (get meta key)).
Proof.
  unfold parseGcodeHeader. destruct (String.eqb text ""); [discriminate|].
  destruct (truthy _ || truthy _ || truthy _ || truthy _); [|discriminate].
  intro E. injection E as <-.
  assert (nonneg_field (get (deriveGeometry (scanHeader text)) key)) as N.
  { apply deriveGeometry_nonneg. unfold scanHeader. apply scan_nonneg.
    intro k. now left. }
  split; [|intros _; exact N].
  intros q Hq. rewrite Hq in N.
  destruct N as [N | [N | (q' & N & Hq')]]; try discriminate.
  apply lit_inj in N. now rewrite N.
Qed.

Lemma header_fields_nonnegative_witness :
  exists meta,
    parseGcodeHeader ("; layer_height = 0.2" ++ LF ++ ";TIME:3600") = Some meta
    /\ (forall q, get meta "estimated_time" = lit q -> (0 <= q)%Q)
    /\ (In "estimated_time" ["layer_height"; "first_layer_height"; "estimated_time"] ->
        nonneg_field (get meta "estimated_time")).
Proof.
  eexists. split.
  - vm_compute. reflexivity.
  - apply (@header_fields_nonnegative ("; layer_height = 0.2" ++ LF ++ ";TIME:3600")).
    vm_compute. reflexivity.
Defined.

(** *** Filename heuristics *)

Lemma set_keeps_truthy (data : obj) (key' key : string) (v : value) :
  truthy (get data key') = false ->
  truthy (get data key) = true ->
  get (set data key' v) key = get data key.
Proof.
  intros Hf Ht. rewrite get_set.
  destruct (String.eqb key' key) eqn:E; [|reflexivity].
  apply String.eqb_eq in E. subst key'. congruence.
Qed.

Lemma inferLayerHeight_keeps (file : string) (data : obj) (key : string) :
  truthy (get data key) = true ->
  get (inferLayerHeight file data) key = get data key.
Proof.
  intro H. unfold inferLayerHeight.
  destruct (negb (truthy (get data "layer_height"))) eqn:El; [|reflexivity].
  apply negb_true_iff in El.
  destruct (exec re_filename_height file) as [m|]; [|reflexivity].
  set (inferredHeight := match capture (groups m) 1 with
                         | Some d => Num (Number_of_string ("0." ++ d))
                         | None => Num NaN
                         end).
  destruct ((inferredHeight >=? lit 0.05)%js && (inferredHeight <=? lit 0.5)%js);
    [|reflexivity].
  set (data1 := set data "layer_height" inferredHeight).
  assert (K : get data1 key = get data key) by (now apply set_keeps_truthy).
  destruct (truthy (get data1 "object_height") && negb (truthy (get data1 "layer_count")))
    eqn:E; [|exact K].
  apply andb_true_iff in E as [_ Ec]. apply negb_true_iff in Ec.
  rewrite set_keeps_truthy; [exact K|exact Ec|now rewrite K].
Qed.

Lemma inferEstimatedTime_keeps (file : string) (data : obj) (key : string) :
  truthy (get data key) = true ->
  get (inferEstimatedTime file data) key = get data key.
Proof.
  intro H. unfold inferEstimatedTime.
  destruct (negb (truthy (get data "estimated_time"))) eqn:Et; [|reflexivity].
  apply negb_true_iff in Et.
  destruct (exec re_filename_time file) as [m|]; [|reflexivity].
  destruct (group_truthy m 1 || group_truthy m 2 || group_truthy m 3); [|reflexivity].
  match goal with |- get (if ?b then _ else _) _ = _ => destruct b end; [|reflexivity].
  now apply set_keeps_truthy.
Qed.

(** The layer height taken from a file name lies between 0.05 and 0.5. *)
Lemma inferLayerHeight_range (file : string) (data : obj) :
  get (inferLayerHeight file data) "layer_height" = get data "layer_height"
  \/ exists q : Q, get (inferLayerHeight file data) "layer_height" = lit q
                   /\ (0.05 <= q)%Q /\ (q <= 0.5)%Q.
Proof.
  unfold inferLayerHeight.
  destruct (negb (truthy (get data "layer_height"))); [|now left].
  destruct (exec re_filename_height file) as [m|]; [|now left].
  set (inferredHeight := match capture (groups m) 1 with
                         | Some d => Num (Number_of_string ("0." ++ d))
                         | None => Num NaN
                         end).
  clearbody inferredHeight.
  destruct ((inferredHeight >=? lit 0.05)%js && (inferredHeight <=? lit 0.5)%js) eqn:E;
    [|now left].
  right. apply andb_true_iff in E as [E1 E2].
  assert (G : get (set data "layer_height" inferredHeight) "layer_height" = inferredHeight)
    by (rewrite get_set; reflexivity).
  assert (R : exists q, inferredHeight = lit q /\ (0.05 <= q)%Q /\ (q <= 0.5)%Q).
  { clear G. unfold ge, le in E1, E2.
    destruct inferredHeight as [| |[|[|]|q]]; simpl in *; try discriminate;
      try (vm_compute in E1; discriminate).
    exists q. apply Qle_bool_iff in E1, E2. auto. }
  destruct R as (q & Hq & Hr). exists q. split; [|exact Hr].
  match goal with |- get (if ?b then _ else _) _ = _ => destruct b end.
  - rewrite get_set. cbn [String.eqb Ascii.eqb Bool.eqb andb]. now rewrite G.
  - now rewrite G.
Qed.

(** X11: the filename heuristics only fill gaps.  A field of the record
    that holds a non-zero number is left as it is, whatever the file
    name; and a layer height that the heuristics do set lies between 0.05
    and 0.5. *)
Theorem heuristics_only_fill_gaps (file : string) (data : obj) :
  (forall key, truthy (get data key) = true ->
               get (inferEstimatedTime file (inferLayerHeight file data)) key
               = get data key)
  /\ (get (inferEstimatedTime file (inferLayerHeight file data)) "layer_height"
      = get data "layer_height"
      \/ exists q : Q,
           get (inferEstimatedTime file (inferLayerHeight file data)) "layer_height" = lit q
           /\ (0.05 <= q)%Q /\ (q <= 0.5)%Q).
Proof.
  split.
  - intros key H. rewrite inferEstimatedTime_keeps.
    + now apply inferLayerHeight_keeps.
    + now rewrite inferLayerHeight_keeps.
  - assert (T : get (inferEstimatedTime file (inferLayerHeight file data)) "layer_height"
                = get (inferLayerHeight file data) "layer_height").
    { unfold inferEstimatedTime.
      destruct (negb (truthy (get (inferLayerHeight file data) "estimated_time")));
        [|reflexivity].
      destruct (exec re_filename_time file) as [m|]; [|reflexivity].
      destruct (group_truthy m 1 || group_truthy m 2 || group_truthy m 3); [|reflexivity].
      match goal with |- get (if ?b then _ else _) _ = _ => destruct b end;
        [|reflexivity].
      rewrite get_set. reflexivity. }
    rewrite T. apply inferLayerHeight_range.
Qed.

Lemma heuristics_only_fill_gaps_witness :
  get (inferEstimatedTime "2h_0.3mm.gcode"
         (inferLayerHeight "2h_0.3mm.gcode"
            [("layer_height", lit 0.2); ("estimated_time", lit 3600)])) "layer_height"
  = lit 0.2
  /\ get (inferEstimatedTime "2h_0.3mm.gcode"
            (inferLayerHeight "2h_0.3mm.gcode"
               [("layer_height", lit 0.2); ("estimated_time", lit 3600)])) "estimated_time"
     = lit 3600.
Proof.
  split;
    apply (proj1 (@heuristics_only_fill_gaps "2h_0.3mm.gcode"
                    [("layer_height", lit 0.2); ("estimated_time", lit 3600)]));
    reflexivity.
Defined.

(** *** Metadata cache *)

Lemma ensureMetadataLoaded_replaces (net : Network) (file : string) (w : World) :
  file <> "" ->
  option_string_eqb (cache_filename (metadataCache w)) file
  && is_some (cache_data (metadataCache w)) = false ->
  snd (ensureMetadataLoaded net file "printing" w)
  = {| metadataCache := resolvedEntry net file;
       apiRetryCount := apiRetryCount w;
       requests := (requests w ++ resolutionRequests net file)%list |}.
Proof.
  intros Hne Hgate. apply String.eqb_neq in Hne.
  unfold ensureMetadataLoaded, fetchMetadata, fetchMetadataFromApi,
    fetchMetadataFromGcode, normalizeFilename, resolvedEntry, resolutionResult,
    resolutionRequests.
  run_state. simpl. rewrite Hne, Hgate. simpl.
  destruct (metadata_of net file) as [data|]; simpl.
  - reflexivity.
  - rewrite <- app_assoc. simpl.
    destruct (file_head net file) as [text|]; simpl.
    + destruct (parseGcodeHeader text); reflexivity.
    + reflexivity.
Qed.

Lemma ensureMetadataLoaded_gate (net : Network) (file : string) (w : World) :
  option_string_eqb (cache_filename (metadataCache w)) file
  && is_some (cache_data (metadataCache w)) = true ->
  ensureMetadataLoaded net file "printing" w = (tt, w).
Proof.
  intro H. unfold ensureMetadataLoaded. run_state. simpl.
  destruct (String.eqb file ""); [reflexivity|]. now rewrite H.
Qed.

(** X12: a successful resolution is cached.  When the printer has
    metadata for the file (from the API or from the head of the file),
    any number of successive calls of [ensureMetadataLoaded] for that
    file leaves the same cache and the same requests as the first call:
    at most one resolution is performed. *)
Theorem successful_resolution_cached (net : Network) (file : string) (w : World) (n : nat) :
  file <> "" ->
  resolutionResult net file <> None ->
  ensureCalls net file (S n) w = ensureCalls net file 1 w
  /\ (exists data, cache_data (metadataCache (ensureCalls net file (S n) w)) = Some data)
  /\ (List.length (requests (ensureCalls net file (S n) w)) <= List.length (requests w) + 2)%nat.
Proof.
  intros Hne Hres.
  assert (One : option_string_eqb (cache_filename (metadataCache (ensureCalls net file 1 w))) file
                && is_some (cache_data (metadataCache (ensureCalls net file 1 w))) = true
                /\ (List.length (requests (ensureCalls net file 1 w)) <= List.length (requests w) + 2)%nat).
  { unfold ensureCalls. simpl.
    destruct (option_string_eqb (cache_filename (metadataCache w)) file
              && is_some (cache_data (metadataCache w))) eqn:G.
    - rewrite (ensureMetadataLoaded_gate net file w G). simpl. split; [exact G|lia].
    - rewrite (ensureMetadataLoaded_replaces net w Hne G). simpl.
      rewrite String.eqb_refl. split.
      + destruct (resolutionResult net file); [reflexivity|congruence].
      + rewrite length_app. unfold resolutionRequests.
        destruct (metadata_of net file); simpl; lia. }
  destruct One as [G L].
  assert (E : ensureCalls net file (S n) w = ensureCalls net file 1 w).
  { induction n as [|n IH]; [reflexivity|].
    change (ensureCalls net file (S (S n)) w)
      with (snd (ensureMetadataLoaded net file "printing" (ensureCalls net file (S n) w))).
    rewrite IH. now rewrite (ensureMetadataLoaded_gate net file _ G). }
  rewrite E. split; [reflexivity|]. split; [|exact L].
  apply andb_true_iff in G as [_ G].
  destruct (cache_data (metadataCache (ensureCalls net file 1 w))) as [data|];
    [now exists data|discriminate].
Qed.

Lemma successful_resolution_cached_witness :
  requests (ensureCalls Sample.bare_api "a.gcode" 5 initialWorld) = [GetMetadata "a.gcode"].
Proof.
  rewrite (proj1 (@successful_resolution_cached Sample.bare_api "a.gcode" initialWorld 4
                    ltac:(discriminate) ltac:(discriminate))).
  reflexivity.
Defined.

(** X13: a call of [ensureMetadataLoaded] while printing, for a file that
    is not the cached one, replaces the whole cache entry by the
    resolution of the new file (name, record and source tag: the API if
    it answers, else the head of the file); nothing of the previous entry
    remains, whatever it was.  When the state is not [printing] or the
    name is empty, nothing changes and nothing is requested. *)
Theorem cache_replaced_on_new_file (net : Network) (file : string) (w : World) :
  (file <> "" ->
   cache_filename (metadataCache w) <> Some file ->
   metadataCache (snd (ensureMetadataLoaded net file "printing" w)) = resolvedEntry net file
   /\ requests (snd (ensureMetadataLoaded net file "printing" w))
      = (requests w ++ resolutionRequests net file)%list)
  /\ (forall st, st <> "printing" -> ensureMetadataLoaded net file st w = (tt, w))
  /\ (forall st, ensureMetadataLoaded net "" st w = (tt, w)).
Proof.
  split; [|split].
  - intros Hne Hother.
    assert (G : option_string_eqb (cache_filename (metadataCache w)) file
                && is_some (cache_data (metadataCache w)) = false).
    { destruct (cache_filename (metadataCache w)) as [cached|]; [|reflexivity].
      simpl. destruct (String.eqb cached file) eqn:E; [|reflexivity].
      apply String.eqb_eq in E. congruence. }
    rewrite (ensureMetadataLoaded_replaces net w Hne G). split; reflexivity.
  - intros st H. apply String.eqb_neq in H. unfold ensureMetadataLoaded.
    now rewrite H.
  - intro st. unfold ensureMetadataLoaded. simpl. now rewrite orb_true_r.
Qed.

Lemma cache_replaced_on_new_file_witness :
  metadataCache (snd (ensureMetadataLoaded Sample.bare_api "b.gcode" "printing"
                        Sample.world_after_print))
  = {| cache_filename := Some "b.gcode";
       cache_data := Some [("size", lit 123456)];
       cache_source := Some "api" |}.
Proof.
  rewrite (proj1 (proj1 (@cache_replaced_on_new_file Sample.bare_api "b.gcode"
                           Sample.world_after_print)
                    ltac:(discriminate) ltac:(discriminate))).
  reflexivity.
Defined.

(** *** Retry policy over arbitrary runs *)

Lemma ensureMetadataLoaded_count (net : Network) (file st : string) (w : World) :
  apiRetryCount (snd (ensureMetadataLoaded net file st w)) = apiRetryCount w.
Proof.
  destruct (String.eqb st "printing") eqn:Es.
  - apply String.eqb_eq in Es. subst st.
    destruct (String.eqb file "") eqn:Ef.
    + apply String.eqb_eq in Ef. subst file. reflexivity.
    + apply String.eqb_neq in Ef.
      destruct (option_string_eqb (cache_filename (metadataCache w)) file
                && is_some (cache_data (metadataCache w))) eqn:G.
      * now rewrite (ensureMetadataLoaded_gate net file w G).
      * now rewrite (ensureMetadataLoaded_replaces net w Ef G).
  - unfold ensureMetadataLoaded. now rewrite Es.
Qed.

Lemma renderStatus_count (net : Network) (s : PrinterStatus) (w : World) :
  apiRetryCount (snd (renderStatus net s w)) = apiRetryCount w.
Proof.
  unfold renderStatus. run_state.
  pose proof (ensureMetadataLoaded_count net (filename (print_stats s))
                (state (print_stats s)) w) as E.
  destruct (ensureMetadataLoaded net (filename (print_stats s)) (state (print_stats s)) w)
    as [u w1].
  simpl in E. rewrite <- E.
  destruct (String.eqb (state (print_stats s)) "printing"); [reflexivity|].
  destruct (String.eqb (state (print_stats s)) "paused"); reflexivity.
Qed.

Lemma handleError_step (PRINTER_IP message : string) (w : World) :
  (apiRetryCount w <= maxApiRetries)%nat ->
  let r := handleError PRINTER_IP message w in
  (apiRetryCount (snd r) <= maxApiRetries)%nat
  /\ delay_in_range (fst r)
  /\ apiRetryCount (snd r)
     = ((if is_retry (fst r) then 1 else 0) + apiRetryCount w)%nat
  /\ metadataCache (snd r) = metadataCache w.
Proof.
  intro H. unfold handleError. run_state.
  destruct (isNetworkError message && (apiRetryCount w <? maxApiRetries)%nat) eqn:E;
    cbn [fst snd apiRetryCount metadataCache is_retry delay_in_range].
  - apply andb_true_iff in E as [_ E]. apply Nat.ltb_lt in E.
    assert (P : (2 ^ 0 <= 2 ^ (Z.of_nat (S (apiRetryCount w)) - 1))%Z)
      by (apply Z.pow_le_mono_r; lia).
    change (2 ^ 0)%Z with 1%Z in P.
    unfold maxApiRetries in *. repeat split; lia.
  - repeat split; auto.
Qed.

Lemma fetchPrintStatus_step (PRINTER_IP : string) (net : Network) (r : Response) (w : World) :
  (apiRetryCount w <= maxApiRetries)%nat ->
  (apiRetryCount (snd (fetchPrintStatus PRINTER_IP net r w)) <= maxApiRetries)%nat
  /\ delay_in_range (fst (fetchPrintStatus PRINTER_IP net r w))
  /\ (is_failure r = true ->
      apiRetryCount (snd (fetchPrintStatus PRINTER_IP net r w))
      = ((if is_retry (fst (fetchPrintStatus PRINTER_IP net r w)) then 1 else 0)
         + apiRetryCount w)%nat).
Proof.
  intro H. destruct r as [message|code statusText|s|message];
    cbn [fetchPrintStatus is_failure].
  - destruct (handleError_step PRINTER_IP message w H) as (A & B & C & _). auto.
  - destruct (handleError_step PRINTER_IP ("HTTP " ++ show_nat code ++ ": " ++ statusText)
                w H) as (A & B & C & _). auto.
  - run_state.
    pose proof (renderStatus_count net s
                  {| metadataCache := metadataCache w; apiRetryCount := 0;
                     requests := requests w |}) as E.
    destruct (renderStatus net s _) as [view w1]. simpl in *.
    rewrite E. repeat split; [unfold maxApiRetries; lia|discriminate].
  - run_state.
    destruct (handleError_step PRINTER_IP message
                {| metadataCache := metadataCache w; apiRetryCount := 0;
                   requests := requests w |}) as (A & B & _).
    { unfold maxApiRetries. simpl. lia. }
    split; [exact A|]. split; [exact B | discriminate].
Qed.

(** X14: over any run of polls, whatever the responses, the retry counter
    never exceeds [maxApiRetries] and every scheduled retry is delayed by
    at least 2000 ms and at most 30000 ms.  In a run in which every
    request fails (it is rejected, or the response is not ok), the retries
    scheduled and the counter at the start add up to the counter at the
    end: at most [maxApiRetries] retries are scheduled before a response
    is ok. *)
Theorem retry_budget (PRINTER_IP : string) (net : Network) (responses : list Response)
        (w : World) :
  (apiRetryCount w <= maxApiRetries)%nat ->
  (apiRetryCount (snd (polls PRINTER_IP net responses w)) <= maxApiRetries)%nat
  /\ Forall delay_in_range (fst (polls PRINTER_IP net responses w))
  /\ (forallb is_failure responses = true ->
      (List.length (filter is_retry (fst (polls PRINTER_IP net responses w)))
       + apiRetryCount w
       = apiRetryCount (snd (polls PRINTER_IP net responses w)))%nat).
Proof.
  revert w. induction responses as [|r rest IH]; intros w H.
  - simpl. repeat split; auto.
  - cbn [polls]. run_state.
    destruct (fetchPrintStatus_step PRINTER_IP net r w H) as (A & B & C).
    destruct (fetchPrintStatus PRINTER_IP net r w) as [o w1]. simpl in A, B, C.
    destruct (IH w1 A) as (A' & B' & C').
    destruct (polls PRINTER_IP net rest w1) as [os w2]. simpl in *.
    split; [exact A'|]. split; [now constructor|].
    intro F. apply andb_true_iff in F as [Fr Frest].
    specialize (C Fr). specialize (C' Frest).
    destruct (is_retry o); simpl; lia.
Qed.

Lemma retry_budget_witness :
  List.length
    (filter is_retry
       (fst (polls "192.168.1.50" Sample.silent
               (repeat (Rejected "Failed to fetch") 20) initialWorld)))
  = 5%nat.
Proof.
  pose proof (proj2 (proj2 (@retry_budget "192.168.1.50" Sample.silent
                              (repeat (Rejected "Failed to fetch") 20) initialWorld
                              ltac:(unfold maxApiRetries; simpl; lia)))
                eq_refl) as H.
  simpl apiRetryCount in H at 1. rewrite Nat.add_0_r in H. rewrite H. reflexivity.
Defined.

(** X15: a successful poll resets the retry counter, whatever it was: a
    network failure right after a success is retried after 2000 ms, as
    the first of five. *)
Theorem success_resets_backoff (PRINTER_IP : string) (net : Network) (s : PrinterStatus)
        (message : string) (w : World) :
  isNetworkError message = true ->
  apiRetryCount (snd (fetchPrintStatus PRINTER_IP net (Ok s) w)) = 0%nat
  /\ exists view,
       fst (polls PRINTER_IP net [Ok s; Rejected message] w)
       = [Rendered view; RetryScheduled 2000 "Retrying... (1/5)"].
Proof.
  intro Hnet.
  assert (Z0 : apiRetryCount (snd (fetchPrintStatus PRINTER_IP net (Ok s) w)) = 0%nat).
  { cbn [fetchPrintStatus]. run_state.
    pose proof (renderStatus_count net s
                  {| metadataCache := metadataCache w; apiRetryCount := 0;
                     requests := requests w |}) as E.
    destruct (renderStatus net s _) as [view w1]. exact E. }
  split; [exact Z0|].
  cbn [polls]. unfold bind at 1.
  destruct (fetchPrintStatus PRINTER_IP net (Ok s) w) as [o w1] eqn:F.
  assert (O : exists view, o = Rendered view).
  { cbn [fetchPrintStatus] in F. unfold bind, ret in F.
    destruct (setRetryCount 0 w) as [u w0].
    destruct (renderStatus net s w0) as [view w1'].
    injection F as <- _. now exists view. }
  destruct O as [view ->]. exists view.
  simpl in Z0. cbn [fetchPrintStatus]. unfold handleError. run_state.
  rewrite Z0, Hnet. reflexivity.
Qed.

Lemma success_resets_backoff_witness :
  exists view,
    fst (polls "192.168.1.50" Sample.silent
           [Rejected "Failed to fetch"; Rejected "Failed to fetch";
            Ok Sample.status_complete; Rejected "Failed to fetch"]
           initialWorld)
    = [RetryScheduled 2000 "Retrying... (1/5)"; RetryScheduled 4000 "Retrying... (2/5)";
       Rendered view; RetryScheduled 2000 "Retrying... (1/5)"].
Proof.
  destruct (proj2 (@success_resets_backoff "192.168.1.50" Sample.silent
                     Sample.status_complete "Failed to fetch"
                     (snd (polls "192.168.1.50" Sample.silent
                             [Rejected "Failed to fetch"; Rejected "Failed to fetch"]
                             initialWorld))
                     eq_refl)) as [view H].
  exists view. vm_compute in H. vm_compute. injection H as <-. reflexivity.
Defined.

(** *** Failures that are not retried *)

Lemma prefix_append (p s : string) : String.prefix p (p ++ s) = true.
Proof.
  induction p as [|c p IH]; simpl; [now destruct s|].
  destruct (ascii_dec c c); [exact IH|contradiction].
Qed.

Lemma includes_prefix (p s : string) : includes (p ++ s) p = true.
Proof.
  destruct p as [|c p]; [now destruct s|].
  cbn [String.append includes].
  change (String c (p ++ s)) with (String c p ++ s). now rewrite prefix_append.
Qed.

(** X16: a failure whose message does not look like a network error (it
    contains none of the texts Failed to fetch, NetworkError and
    TypeError) is never retried.  When the request itself fails, by a
    rejected fetch or by a response that is not ok, the retry counter,
    the cache and the request log stay as they were.  When the response
    is ok but no status can be read from it, the counter has already
    been reset: it is 0 afterwards, whatever it was, and the cache and the
    request log are unchanged.  If the status text does not look like a
    network error, a response with status 401 or 403 is reported as
    Authentication Error; and one with status 404 as API Not Found if
    moreover the status text contains neither HTTP 401 nor HTTP 403. *)
Theorem other_failures_not_retried (PRINTER_IP : string) (net : Network) (w : World) :
  (forall message,
     isNetworkError message = false ->
     exists text, fetchPrintStatus PRINTER_IP net (Rejected message) w = (Failed text, w))
  /\ (forall code statusText,
        isNetworkError ("HTTP " ++ show_nat code ++ ": " ++ statusText) = false ->
        exists text,
          fetchPrintStatus PRINTER_IP net (HttpError code statusText) w = (Failed text, w))
  /\ (forall message,
        isNetworkError message = false ->
        exists text,
          fetchPrintStatus PRINTER_IP net (Unreadable message) w
          = (Failed text,
             {| metadataCache := metadataCache w; apiRetryCount := 0;
                requests := requests w |}))
  /\ (forall statusText,
        isNetworkError statusText = false ->
        fetchPrintStatus PRINTER_IP net (HttpError 401 statusText) w
        = (Failed "Authentication Error", w)
        /\ fetchPrintStatus PRINTER_IP net (HttpError 403 statusText) w
           = (Failed "Authentication Error", w))
  /\ (forall statusText,
        isNetworkError statusText = false ->
        includes statusText "HTTP 401" = false ->
        includes statusText "HTTP 403" = false ->
        fetchPrintStatus PRINTER_IP net (HttpError 404 statusText) w
        = (Failed "API Not Found", w)).
Proof.
  split; [|split; [|split; [|split]]].
  - intros message H. cbn [fetchPrintStatus]. unfold handleError. run_state.
    rewrite H. cbn [andb]. eexists. destruct w. reflexivity.
  - intros code st H. cbn [fetchPrintStatus]. unfold handleError. run_state.
    rewrite H. cbn [andb]. eexists. destruct w. reflexivity.
  - intros message H. cbn [fetchPrintStatus]. unfold handleError. run_state.
    rewrite H. cbn [andb]. eexists. reflexivity.
  - intros st H.
    assert (E1 : isNetworkError ("HTTP 401: " ++ st) = false) by exact H.
    assert (E3 : isNetworkError ("HTTP 403: " ++ st) = false) by exact H.
    split; cbn [fetchPrintStatus]; unfold handleError; run_state;
      change ("HTTP " ++ show_nat 401 ++ ": " ++ st) with ("HTTP 401: " ++ st);
      change ("HTTP " ++ show_nat 403 ++ ": " ++ st) with ("HTTP 403: " ++ st);
      rewrite ?E1, ?E3; cbn [andb].
    + change ("HTTP 401: " ++ st) with ("HTTP 401" ++ (": " ++ st)).
      rewrite includes_prefix. destruct w. reflexivity.
    + change ("HTTP 403: " ++ st) with ("HTTP 403" ++ (": " ++ st)).
      rewrite includes_prefix, orb_true_r. destruct w. reflexivity.
  - intros st H H1 H3.
    assert (E : isNetworkError ("HTTP 404: " ++ st) = false) by exact H.
    assert (E1 : includes ("HTTP 404: " ++ st) "HTTP 401" = false) by exact H1.
    assert (E3 : includes ("HTTP 404: " ++ st) "HTTP 403" = false) by exact H3.
    cbn [fetchPrintStatus]. unfold handleError. run_state.
    change ("HTTP " ++ show_nat 404 ++ ": " ++ st) with ("HTTP 404: " ++ st).
    rewrite E, E1, E3. cbn [andb orb].
    change ("HTTP 404: " ++ st) with ("HTTP 404" ++ (": " ++ st)).
    rewrite includes_prefix. destruct w. reflexivity.
Qed.

Lemma other_failures_not_retried_witness :
  fetchPrintStatus "printer.local" Sample.silent (HttpError 404 "Not Found") initialWorld
  = (Failed "API Not Found", initialWorld)
  /\ exists text,
       fetchPrintStatus "printer.local" Sample.silent
         (Unreadable "Unexpected token < in JSON at position 0")
         {| metadataCache := metadataCache initialWorld; apiRetryCount := 3;
            requests := [] |}
       = (Failed text,
          {| metadataCache := metadataCache initialWorld; apiRetryCount := 0;
             requests := [] |}).
Proof.
  split.
  - apply (proj2 (proj2 (proj2 (proj2 (@other_failures_not_retried "printer.local"
                                         Sample.silent initialWorld)))));
      reflexivity.
  - apply (proj1 (proj2 (proj2 (@other_failures_not_retried "printer.local" Sample.silent
                                  {| metadataCache := metadataCache initialWorld;
                                     apiRetryCount := 3; requests := [] |})))).
    reflexivity.
Defined.

(** *** Chamber reading *)

Lemma Math_round_finite (v : value) :
  Number_isFinite (Math_round v) = true ->
  exists n : Z, Math_round v = lit (inject_Z n).
Proof.
  unfold Math_round. destruct (ToNumber v) as [| |q]; simpl; try discriminate.
  intros _. now eexists.
Qed.



(** *** The payload of a thumbnail *)

Section AllChars.
Variable p : ascii -> bool.

Lemma all_chars_append (a b : string) :
  all_chars p (a ++ b) = all_chars p a && all_chars p b.
Proof.
  induction a as [|c a IH]; simpl; [reflexivity|].
  now rewrite IH, andb_assoc.
Qed.

Lemma all_chars_trimStart (s : string) :
  all_chars p s = true -> all_chars p (trimStart s) = true.
Proof.
  induction s as [|c s IH]; simpl; [reflexivity|].
  intro H. destruct (is_space c); [|exact H].
  apply andb_true_iff in H as [_ H]. now apply IH.
Qed.

Lemma all_chars_trimEnd (s : string) :
  all_chars p s = true -> all_chars p (trimEnd s) = true.
Proof.
  induction s as [|c s IH]; [reflexivity|].
  intro H. cbn [all_chars] in H. apply andb_true_iff in H as [Hc Hs].
  rewrite trimEnd_cons. specialize (IH Hs).
  destruct (trimEnd s) as [|d r].
  - destruct (is_space c); [reflexivity|]. simpl. now rewrite Hc.
  - cbn [all_chars] in *. now rewrite Hc, IH.
Qed.

Lemma all_chars_trim (s : string) :
  all_chars p s = true -> all_chars p (trim s) = true.
Proof. intro H. unfold trim. now apply all_chars_trimEnd, all_chars_trimStart. Qed.

Lemma all_chars_strip_semicolon (s : string) :
  all_chars p s = true -> all_chars p (strip_semicolon s) = true.
Proof.
  destruct s as [|c s]; simpl; [reflexivity|].
  intro H. destruct (Ascii.eqb c ";"); [|exact H].
  now apply andb_true_iff in H as [_ H].
Qed.

Lemma all_chars_join (parts : list string) :
  Forall (fun s => all_chars p s = true) parts -> all_chars p (join parts) = true.
Proof.
  induction 1 as [|s parts Hs _ IH]; simpl; [reflexivity|].
  now rewrite all_chars_append, Hs, IH.
Qed.
End AllChars.

Lemma split_newline_no_line_feed (s : string) :
  Forall (fun line => no_line_feed line = true) (split_newline s).
Proof.
  induction s as [|c s IH]; simpl.
  - constructor; [reflexivity|constructor].
  - destruct (Ascii.eqb c "010") eqn:E.
    + constructor; [reflexivity|exact IH].
    + destruct (split_newline s) as [|h t].
      * constructor; [|constructor]. unfold no_line_feed. simpl. now rewrite E.
      * inversion IH as [|? ? Hh Ht]; subst. constructor; [|exact Ht].
        unfold no_line_feed in *. simpl. now rewrite E, Hh.
Qed.

Lemma cleanBlock_no_line_feed (body : string) : no_line_feed (cleanBlock body) = true.
Proof.
  unfold cleanBlock, no_line_feed. apply all_chars_join.
  pose proof (split_newline_no_line_feed body) as H.
  induction H as [|line rest Hl _ IH]; simpl; [constructor|].
  destruct (negb (String.eqb (trim (strip_semicolon (trim line))) "")); [|exact IH].
  constructor; [|exact IH].
  now apply all_chars_trim, all_chars_strip_semicolon, all_chars_trim.
Qed.

(** X18: the payload that [extractThumbnailFromGcode] returns never
    contains a line feed: the lines of the block are joined into one
    base64 string. *)
Theorem thumbnail_payload_single_line (net : Network) (file : string) (w : World)
        (payload : string) :
  fst (extractThumbnailFromGcode net file w) = Some payload ->
  no_line_feed payload = true.
Proof.
  unfold extractThumbnailFromGcode. destruct (normalizeFilename file); [|discriminate].
  run_state. simpl.
  destruct (gcode_head net s) as [text|]; [|discriminate].
  unfold extractThumbnail. rewrite thumbnailLoop_blocks.
  destruct (rev (thumbnailBlocks (S (String.length text)) text)) as [|body rest];
    [discriminate|].
  intro H. injection H as <-. apply cleanBlock_no_line_feed.
Qed.

Lemma thumbnail_payload_single_line_witness :
  no_line_feed "CCCCDDDDEE==" = true.
Proof.
  apply (@thumbnail_payload_single_line Sample.thumbnail_printer "a.gcode" initialWorld).
  vm_compute. reflexivity.
Defined.

(** *** Camera reloads *)

Lemma cameraRun_delays (url : string) (flipX flipY : bool) (events : list CameraEvent) :
  forall cam : Camera,
    snd (cameraRun url flipX flipY events cam)
    = firstn (loadFailures events) (skipn (cam_retryCount cam) [1000; 2000; 4000]%Z)
    /\ cam_retryCount (fst (cameraRun url flipX flipY events cam))
       = (cam_retryCount cam + loadFailures events)%nat.
Proof.
  induction events as [|e rest IH]; intro cam.
  - split; [reflexivity|unfold loadFailures; simpl; lia].
  - destruct e as [| |now]; cbn [cameraRun].
    + destruct (IH (cameraOnLoad cam)) as [D C]. split; [exact D|exact C].
    + unfold cameraOnError.
      set (cam' := {| cam_retryCount := S (cam_retryCount cam); cam_src := cam_src cam;
                      cam_hidden := cam_hidden cam; cam_loaded := false;
                      cam_transform := cam_transform cam |}).
      destruct (IH cam') as [D C].
      destruct (cameraRun url flipX flipY rest cam') as [final delays].
      cbn [fst snd] in *. subst cam'. cbn [cam_retryCount] in *.
      change (loadFailures (ImageFailed :: rest)) with (S (loadFailures rest)).
      split; [|lia]. rewrite D.
      destruct (cam_retryCount cam) as [|[|[|k]]]; try reflexivity.
      cbn [Nat.leb cameraMaxRetries skipn]. now rewrite skipn_nil, !firstn_nil.
    + destruct (IH (loadCamera url flipX flipY now cam)) as [D C]. split; [exact D|exact C].
Qed.

(** X19: after [setupCamera] with a camera URL, whatever the sequence of
    loads, failures and reloads, the reloads scheduled are delayed by
    1000, 2000 and 4000 ms, one per failed load, and there are never more
    than three of them: the counter is not reset when the image loads,
    and the cap of 8000 ms is never reached. *)
Theorem camera_reloads (url : string) (flipX flipY : bool) (events : list CameraEvent)
        (cam : Camera) :
  url <> "" ->
  snd (cameraRun url flipX flipY events (setupCamera url flipX flipY cam))
  = firstn (loadFailures events) [1000; 2000; 4000]%Z
  /\ (List.length (snd (cameraRun url flipX flipY events (setupCamera url flipX flipY cam)))
      <= cameraMaxRetries)%nat
  /\ Forall (fun delay => (delay < 8000)%Z)
       (snd (cameraRun url flipX flipY events (setupCamera url flipX flipY cam))).
Proof.
  intro H. apply String.eqb_neq in H.
  assert (E : snd (cameraRun url flipX flipY events (setupCamera url flipX flipY cam))
              = firstn (loadFailures events) [1000; 2000; 4000]%Z).
  { unfold setupCamera. rewrite H.
    now rewrite (proj1 (cameraRun_delays url flipX flipY events _)). }
  rewrite E. split; [reflexivity|]. split.
  - rewrite length_firstn. apply Nat.le_min_r.
  - destruct (loadFailures events) as [|[|[|k]]]; cbn [firstn];
      rewrite ?firstn_nil; repeat (apply Forall_cons; [lia|]); apply Forall_nil.
Qed.

Lemma camera_reloads_witness :
  snd (cameraRun "http://cam/stream" false false
         [ImageFailed; ReloadFires 17; ImageLoaded; ImageFailed; ReloadFires 42;
          ImageFailed; ReloadFires 99; ImageFailed; ImageFailed]
         (setupCamera "http://cam/stream" false false
            {| cam_retryCount := 0; cam_src := ""; cam_hidden := true;
               cam_loaded := false; cam_transform := "" |}))
  = [1000; 2000; 4000]%Z.
Proof.
  rewrite (proj1 (@camera_reloads "http://cam/stream" false false
                    [ImageFailed; ReloadFires 17; ImageLoaded; ImageFailed; ReloadFires 42;
                     ImageFailed; ReloadFires 99; ImageFailed; ImageFailed]
                    {| cam_retryCount := 0; cam_src := ""; cam_hidden := true;
                       cam_loaded := false; cam_transform := "" |}
                    ltac:(discriminate))).
  reflexivity.
Defined.

(* ------------------------------------------------------------------ *)
(** *** Printer configuration *)

Lemma is_nil_app (A : Type) (l : list A) (x : A) : is_nil (l ++ [x])%list = false.
Proof. destruct l; reflexivity. Qed.

Lemma not_a_filled_string_false (v : jsval) :
  not_a_filled_string v = false <-> filled_string v.
Proof.
  unfold filled_string. destruct v as [| | b | n | s]; simpl; split;
    try discriminate; try (intros (t & H & _); discriminate).
  - intro H. exists s. split; [reflexivity|]. intro E. rewrite E in H. discriminate.
  - intros (t & E & H). injection E as <-.
    destruct (String.eqb_spec (trim s) ""); congruence.
Qed.

Lemma filled_string_truthy (v : jsval) : filled_string v -> js_truthy v = true.
Proof.
  intros (s & -> & H). simpl.
  destruct (String.eqb_spec s ""); [|reflexivity].
  subst s. exfalso. apply H. reflexivity.
Qed.

Lemma interval_check (v : jsval) :
  negb (isFinite (js_Number v)) || num_lt (js_Number v) (Fin 500)
    || num_lt (Fin 60000) (js_Number v) = false
  <-> interval_in_range v.
Proof.
  unfold interval_in_range. destruct (js_Number v) as [| s | q]; simpl.
  - split; [discriminate | intros (q & H & _); discriminate].
  - split; [discriminate | intros (q & H & _); discriminate].
  - unfold Qltb. split.
    + intro H. apply orb_false_iff in H as [H1 H2].
      apply negb_false_iff, Qle_bool_iff in H1, H2.
      exists q. repeat split; assumption.
    + intros (q' & E & H1 & H2). injection E as <-.
      apply orb_false_iff. split; apply negb_false_iff, Qle_bool_iff; assumption.
Qed.

Lemma validateConfig_checks (c : config) :
  valid (validateConfig (Object c) true) = true
  <-> negb (js_truthy (field c "id")) || not_a_filled_string (field c "id") = false
      /\ negb (js_truthy (field c "name")) && negb (js_truthy (field c "label")) = false
      /\ negb (js_truthy (field c "ip")) && negb (js_truthy (field c "host")) = false
      /\ not_a_filled_string (js_or (field c "ip") (field c "host")) = false
      /\ (field c "updateInterval" = JUndefined
          \/ negb (isFinite (js_Number (field c "updateInterval")))
             || num_lt (js_Number (field c "updateInterval")) (Fin 500)
             || num_lt (Fin 60000) (js_Number (field c "updateInterval")) = false).
Proof.
  unfold validateConfig. cbv zeta. cbn [andb].
  destruct (negb (js_truthy (field c "id")) || not_a_filled_string (field c "id"));
  destruct (negb (js_truthy (field c "name")) && negb (js_truthy (field c "label")));
  destruct (negb (js_truthy (field c "ip")) && negb (js_truthy (field c "host")));
  destruct (not_a_filled_string (js_or (field c "ip") (field c "host")));
  destruct (field c "updateInterval") as [| | b | n | s];
  match goal with
  | |- context [ negb (isFinite ?i) || num_lt ?i (Fin 500) || num_lt (Fin 60000) ?i ] =>
      destruct (negb (isFinite i) || num_lt i (Fin 500) || num_lt (Fin 60000) i)
  | _ => idtac
  end;
  cbn; split; intros; try discriminate; try tauto;
  repeat match goal with H : _ /\ _ |- _ => destruct H end;
  try discriminate;
  match goal with H : _ \/ _ |- _ => destruct H; discriminate end.
Qed.

Lemma validateConfig_well_formed (cfg : item) :
  valid (validateConfig cfg true) = true <-> well_formed cfg.
Proof.
  destruct cfg as [v | c].
  - split; [discriminate | intros (c & H & _); discriminate].
  - rewrite validateConfig_checks. unfold well_formed. split.
    + intros (H1 & H2 & H3 & H4 & H5).
      exists c. split; [reflexivity|].
      apply orb_false_iff in H1 as [_ H1]. apply not_a_filled_string_false in H1.
      apply not_a_filled_string_false in H4.
      split; [exact H1|]. split.
      { apply andb_false_iff in H2 as [H2 | H2]; apply negb_false_iff in H2; tauto. }
      split; [exact H4|].
      destruct H5 as [H5 | H5]; [now left | right; now apply interval_check].
    + intros (c' & E & H1 & H2 & H4 & H5). injection E as <-.
      pose proof (filled_string_truthy H1) as T1.
      pose proof (filled_string_truthy H4) as T4.
      apply not_a_filled_string_false in H1, H4.
      split; [now rewrite T1, H1|]. split.
      { destruct H2 as [H2 | H2]; rewrite H2; [reflexivity | apply andb_false_r]. }
      split.
      { unfold js_or in T4. destruct (js_truthy (field c "ip")); [reflexivity|].
        now rewrite T4. }
      split; [exact H4|].
      destruct H5 as [H5 | H5]; [now left | right; now apply interval_check].
Qed.

Lemma validateConfig_errors (cfg : item) (isFromList : bool) :
  valid (validateConfig cfg isFromList) = false -> errors (validateConfig cfg isFromList) <> [].
Proof.
  destruct cfg as [v | c]; [discriminate|].
  unfold validateConfig. cbv zeta. cbn [valid errors].
  intros H E. rewrite E in H. discriminate.
Qed.

Lemma validateEach_report (l : list item) :
  forall (index : nat) (errs : list ListError) (acc : list item) (ids : list jsval),
  exists (new : list ListError) (kept : list item),
    validateEach index l errs acc ids = ((errs ++ new)%list, (acc ++ kept)%list)
    /\ (List.length kept <= List.length l)%nat
    /\ (new = [] <-> kept = l)
    /\ (forall e, In e new -> (index < error_number e <= index + List.length l)%nat)
    /\ (forall i cfg, nth_error l i = Some cfg ->
        In cfg kept \/ exists e, In e new /\ error_number e = (index + i + 1)%nat).
Proof.
  induction l as [|cfg rest IH]; intros index errs acc ids.
  - exists [], []. rewrite !app_nil_r. split; [reflexivity|]. split; [apply Nat.le_refl|].
    split; [tauto|]. split; [intros e []|].
    intros [|i] c H; discriminate.
  - cbn [validateEach].
    assert (Hrej : forall (first : list ListError) new kept,
      first <> [] ->
      (forall e, In e first -> error_number e = (index + 1)%nat) ->
      (List.length kept <= List.length rest)%nat ->
      (forall e, In e new -> (S index < error_number e <= S index + List.length rest)%nat) ->
      (forall i c, nth_error rest i = Some c ->
         In c kept \/ exists e, In e new /\ error_number e = (S index + i + 1)%nat) ->
      (List.length kept <= List.length (cfg :: rest))%nat
      /\ ((first ++ new)%list = [] <-> kept = cfg :: rest)
      /\ (forall e, In e (first ++ new)%list ->
            (index < error_number e <= index + List.length (cfg :: rest))%nat)
      /\ (forall i c, nth_error (cfg :: rest) i = Some c ->
          In c kept \/ exists e, In e (first ++ new)%list /\ error_number e = (index + i + 1)%nat)).
    { intros first new kept Hne Hnum Hlen Hrange Hall. cbn [List.length].
      split; [lia|]. split.
      { split.
        - intro E. apply app_eq_nil in E as [E _]. contradiction.
        - intro E. subst kept. cbn [List.length] in Hlen. lia. }
      split.
      { intros e He. apply in_app_or in He as [He | He].
        - rewrite (Hnum e He). lia.
        - specialize (Hrange e He). lia. }
      intros [|i] c Hc.
      - right. destruct first as [|e first]; [contradiction|].
        exists e. split; [now left|]. rewrite (Hnum e (or_introl eq_refl)). lia.
      - cbn [nth_error] in Hc. destruct (Hall i c Hc) as [H | (e & He & Hn)]; [now left|].
        right. exists e. split; [apply in_or_app; now right | lia]. }
    destruct (valid (validateConfig cfg true)) eqn:V; cbn [negb].
    + destruct (existsb (same_value (item_field cfg "id")) ids) eqn:D.
      * destruct (IH (S index) (errs ++ [DuplicateId (index + 1) (item_field cfg "id")])%list
                     acc ids) as (new & kept & E & Hlen & _ & Hrange & Hall).
        exists ([DuplicateId (index + 1) (item_field cfg "id")] ++ new)%list, kept.
        rewrite E, app_assoc. split; [reflexivity|].
        apply Hrej; try assumption; [discriminate|].
        intros e [<- | []]. reflexivity.
      * destruct (IH (S index) errs (acc ++ [cfg])%list (ids ++ [item_field cfg "id"])%list)
          as (new & kept & E & Hlen & Hnil & Hrange & Hall).
        exists new, (cfg :: kept).
        rewrite E, <- app_assoc. split; [reflexivity|]. cbn [List.length].
        split; [lia|]. split.
        { split.
          - intro N. f_equal. now apply Hnil.
          - intro N. injection N as N. now apply Hnil. }
        split.
        { intros e He. specialize (Hrange e He). lia. }
        intros [|i] c Hc.
        { injection Hc as <-. left. now left. }
        cbn [nth_error] in Hc. destruct (Hall i c Hc) as [H | (e & He & Hn)].
        { left. now right. }
        right. exists e. split; [assumption | lia].
    + destruct (IH (S index)
                   (errs ++ map (PrinterError (index + 1)) (errors (validateConfig cfg true)))%list
                   acc ids) as (new & kept & E & Hlen & _ & Hrange & Hall).
      exists (map (PrinterError (index + 1)) (errors (validateConfig cfg true)) ++ new)%list, kept.
      rewrite E, app_assoc. split; [reflexivity|].
      apply Hrej; try assumption.
      * intro N. apply map_eq_nil in N. now apply (validateConfig_errors cfg true).
      * intros e He. apply in_map_iff in He as (x & <- & _). reflexivity.
Qed.

Lemma same_value_string (s : string) (ids : list jsval) :
  existsb (same_value (JString s)) ids = false -> ~ In (JString s) ids.
Proof.
  intros H I. assert (existsb (same_value (JString s)) ids = true) as T; [|congruence].
  apply existsb_exists. exists (JString s). split; [assumption|]. simpl. apply String.eqb_refl.
Qed.

Lemma validateEach_accepted (l : list item) :
  forall (index : nat) (errs : list ListError) (acc : list item) (ids : list jsval),
    Forall well_formed acc ->
    ids = map (fun cfg => item_field cfg "id") acc ->
    NoDup ids ->
    Forall well_formed (snd (validateEach index l errs acc ids))
    /\ NoDup (map (fun cfg => item_field cfg "id") (snd (validateEach index l errs acc ids))).
Proof.
  induction l as [|cfg rest IH]; intros index errs acc ids Hwf Hids Hnd.
  - cbn [validateEach snd]. split; [assumption | now rewrite <- Hids].
  - cbn [validateEach].
    destruct (valid (validateConfig cfg true)) eqn:V; cbn [negb]; [|now apply IH].
    destruct (existsb (same_value (item_field cfg "id")) ids) eqn:D; [now apply IH|].
    apply validateConfig_well_formed in V.
    apply IH.
    + apply Forall_app. split; [assumption|]. apply Forall_cons; [assumption | apply Forall_nil].
    + rewrite map_app, Hids. reflexivity.
    + destruct V as (c & -> & (s & Hs & _) & _). cbn [item_field] in *. rewrite Hs in *.
      apply same_value_string in D.
      apply NoDup_app; [assumption | apply NoDup_cons; [intros [] | apply NoDup_nil] |].
      intros x Hx [<- | []]. contradiction.
Qed.

(** X20: whatever [validatePrinterList] is given, every printer it keeps
    in [validConfigs] is an object with a non-blank string id, a name or
    a label, a non-blank string address ([ip], else [host]) and, when
    [updateInterval] is set, one that reads as a number from 500 to
    60000; and no two kept printers have the same id. *)
Theorem accepted_printers_well_formed (printerList : option (list item)) :
  Forall well_formed (validConfigs (validatePrinterList printerList))
  /\ NoDup (map (fun cfg => item_field cfg "id")
                (validConfigs (validatePrinterList printerList))).
Proof.
  destruct printerList as [[|cfg rest]|]; cbn [validatePrinterList validConfigs];
    try (split; [apply Forall_nil | apply NoDup_nil]).
  pose proof (@validateEach_accepted (cfg :: rest) 0 [] [] []
                (Forall_nil _) eq_refl (NoDup_nil _)) as H.
  destruct (validateEach 0 (cfg :: rest) [] [] []) as [allErrors accepted].
  exact H.
Qed.

(** X21: a printer list is valid exactly when no error is reported, and
    then it is a non-empty array of which every printer is kept, in the
    order given: the test that some printer was kept never decides. *)
Theorem printer_list_valid (printerList : option (list item)) :
  (list_valid (validatePrinterList printerList) = true
   <-> list_errors (validatePrinterList printerList) = [])
  /\ (list_valid (validatePrinterList printerList) = true ->
      printerList = Some (validConfigs (validatePrinterList printerList))
      /\ validConfigs (validatePrinterList printerList) <> []).
Proof.
  destruct printerList as [[|cfg rest]|];
    cbn [validatePrinterList validConfigs list_valid list_errors];
    try (split; [split; discriminate | discriminate]).
  destruct (validateEach_report (cfg :: rest) 0 [] [] [])
    as (new & kept & E & _ & Hnil & _ & _).
  rewrite E. cbn [app list_valid list_errors validConfigs].
  split.
  - split.
    + intro H. apply andb_true_iff in H as [H _]. now destruct new.
    + intro H. subst new. rewrite (proj1 Hnil eq_refl). reflexivity.
  - intro H. apply andb_true_iff in H as [H _].
    assert (new = []) as N by now destruct new.
    rewrite (proj1 Hnil N). split; [reflexivity | discriminate].
Qed.

Lemma printer_list_valid_witness :
  Some SamplePrinters.printers
  = Some (validConfigs (validatePrinterList (Some SamplePrinters.printers)))
  /\ validConfigs (validatePrinterList (Some SamplePrinters.printers)) <> [].
Proof.
  apply (proj2 (printer_list_valid (Some SamplePrinters.printers))).
  reflexivity.
Defined.

(** X22: every printer of a list is accounted for: it is kept, or an
    error carrying its number (counted from 1) is reported; and every
    error reported for a non-empty list carries the number of one of
    its printers. *)
Theorem rejected_printers_reported (printerList : list item) (i : nat) (cfg : item) :
  nth_error printerList i = Some cfg ->
  (In cfg (validConfigs (validatePrinterList (Some printerList)))
   \/ exists e, In e (list_errors (validatePrinterList (Some printerList)))
                /\ error_number e = S i)
  /\ (forall e, In e (list_errors (validatePrinterList (Some printerList))) ->
      (1 <= error_number e <= List.length printerList)%nat).
Proof.
  intro Hi. destruct printerList as [|first rest]; [destruct i; discriminate|].
  cbn [validatePrinterList].
  destruct (validateEach_report (first :: rest) 0 [] [] [])
    as (new & kept & E & _ & _ & Hrange & Hall).
  rewrite E. cbn [app list_errors validConfigs]. split.
  - destruct (Hall i cfg Hi) as [H | (e & He & Hn)]; [now left|].
    right. exists e. split; [assumption|]. rewrite Hn. lia.
  - intros e He. specialize (Hrange e He). lia.
Qed.

Lemma rejected_printers_reported_witness :
  (In (Primitive JNull) (validConfigs (validatePrinterList (Some SamplePrinters.with_null)))
   \/ exists e, In e (list_errors (validatePrinterList (Some SamplePrinters.with_null)))
                /\ error_number e = 2%nat)
  /\ (forall e, In e (list_errors (validatePrinterList (Some SamplePrinters.with_null))) ->
      (1 <= error_number e <= List.length SamplePrinters.with_null)%nat).
Proof.
  apply (@rejected_printers_reported SamplePrinters.with_null 1 (Primitive JNull)).
  reflexivity.
Defined.

Lemma lookupName_well_formed (numberToString : num -> string) (cfg : item) :
  well_formed cfg ->
  exists id, item_field cfg "id" = JString id
             /\ lookupName numberToString cfg = Normal (toLowerCase id).
Proof.
  intros (c & -> & Hid & _). pose proof (filled_string_truthy Hid) as T.
  destruct Hid as (id & E & _). exists id. split; [exact E|].
  unfold lookupName, property. cbn [item_field] in *.
  unfold js_or at 3. rewrite T. unfold js_or at 2. rewrite T. unfold js_or. rewrite T.
  rewrite E. reflexivity.
Qed.

Lemma findConfig_first (numberToString : num -> string) (list : list item) (lowerKey : string) :
  Forall well_formed list ->
  exists result,
    findConfig numberToString list lowerKey = Normal result
    /\ match result with
       | Some cfg =>
           exists i id,
             nth_error list i = Some cfg
             /\ item_field cfg "id" = JString id
             /\ toLowerCase id = lowerKey
             /\ (forall j other s, (j < i)%nat -> nth_error list j = Some other ->
                   item_field other "id" = JString s -> toLowerCase s <> lowerKey)
       | None =>
           forall other s, In other list ->
             item_field other "id" = JString s -> toLowerCase s <> lowerKey
       end.
Proof.
  induction 1 as [|cfg rest Hcfg Hrest IH].
  - exists None. split; [reflexivity|]. intros other s [].
  - cbn [findConfig].
    destruct (lookupName_well_formed numberToString Hcfg) as (id & Eid & ->).
    destruct (String.eqb_spec (toLowerCase id) lowerKey) as [E | N].
    + exists (Some cfg). split; [reflexivity|].
      exists 0%nat, id. repeat split; try assumption. intros j other s Hj. lia.
    + destruct IH as (result & -> & Hres). exists result. split; [reflexivity|].
      destruct result as [found|].
      * destruct Hres as (i & fid & Hi & Hf & Hk & Hfirst).
        exists (S i), fid. repeat split; try assumption.
        intros [|j] other s Hj Hn Hs.
        -- injection Hn as <-. rewrite Eid in Hs. injection Hs as <-. exact N.
        -- apply (Hfirst j other s); [lia | exact Hn | exact Hs].
      * intros other s [<- | Hin] Hs.
        -- rewrite Eid in Hs. injection Hs as <-. exact N.
        -- now apply (Hres other s).
Qed.

(** X23: on a list of well-formed printers [selectConfig] never throws
    and finds a printer by its id alone, ignoring case: the result is
    the first printer whose id equals the key up to case, and [null]
    only for an empty key or when no id matches; names and labels are
    not consulted. *)
Theorem select_by_id (numberToString : num -> string) (list : list item) (key : string) :
  Forall well_formed list ->
  exists result,
    selectConfig numberToString list key = Normal result
    /\ match result with
       | Some cfg =>
           key <> ""
           /\ exists i id,
                nth_error list i = Some cfg
                /\ item_field cfg "id" = JString id
                /\ toLowerCase id = toLowerCase key
                /\ (forall j other s, (j < i)%nat -> nth_error list j = Some other ->
                      item_field other "id" = JString s ->
                      toLowerCase s <> toLowerCase key)
       | None =>
           key = ""
           \/ forall other s, In other list ->
                item_field other "id" = JString s -> toLowerCase s <> toLowerCase key
       end.
Proof.
  intro Hwf. unfold selectConfig.
  destruct (String.eqb_spec key "") as [E | N].
  - exists None. split; [reflexivity | now left].
  - destruct (findConfig_first numberToString (toLowerCase key) Hwf) as (result & -> & H).
    exists result. split; [reflexivity|].
    destruct result as [cfg|]; [split; assumption | now right].
Qed.

Lemma sample_printers_well_formed : Forall well_formed SamplePrinters.printers.
Proof.
  apply Forall_cons; [|apply Forall_cons; [|apply Forall_nil]].
  - exists SamplePrinters.voron.
    split; [reflexivity|]. split; [exists "Voron"; split; [reflexivity | discriminate]|].
    split; [left; reflexivity|].
    split; [exists "10.0.0.5"; split; [reflexivity | discriminate]|].
    right. exists 750%Q. split; [reflexivity|]. split; discriminate.
  - exists SamplePrinters.ender.
    split; [reflexivity|]. split; [exists "ender"; split; [reflexivity | discriminate]|].
    split; [left; reflexivity|].
    split; [exists "ender.local"; split; [reflexivity | discriminate] | left; reflexivity].
Defined.

Lemma select_by_id_witness :
  exists result,
    selectConfig SamplePrinters.numberToString SamplePrinters.printers "VORON" = Normal result
    /\ match result with
       | Some cfg =>
           "VORON" <> ""
           /\ exists i id,
                nth_error SamplePrinters.printers i = Some cfg
                /\ item_field cfg "id" = JString id
                /\ toLowerCase id = toLowerCase "VORON"
                /\ (forall j other s, (j < i)%nat ->
                      nth_error SamplePrinters.printers j = Some other ->
                      item_field other "id" = JString s ->
                      toLowerCase s <> toLowerCase "VORON")
       | None =>
           "VORON" = ""
           \/ forall other s, In other SamplePrinters.printers ->
                item_field other "id" = JString s -> toLowerCase s <> toLowerCase "VORON"
       end.
Proof.
  apply (@select_by_id SamplePrinters.numberToString SamplePrinters.printers "VORON").
  exact sample_printers_well_formed.
Defined.

Lemma js_or_default (a b : jsval) : js_truthy b = true -> js_truthy (js_or a b) = true.
Proof. intro H. unfold js_or. destruct (js_truthy a) eqn:E; assumption. Qed.

Lemma interval_in_range_truthy (v : jsval) :
  interval_in_range v -> js_truthy v = true /\ num_truthy (js_Number v) = true.
Proof.
  intros (q & E & H1 & _).
  assert (Qis_zero q = false) as NZ.
  { unfold Qis_zero. destruct (Qeq_bool q 0) eqn:Z; [|reflexivity].
    apply Qeq_bool_iff in Z. rewrite Z in H1. exfalso. revert H1. apply Qlt_not_le. reflexivity. }
  split; [|rewrite E; simpl; now rewrite NZ].
  destruct v as [| | b | n | s]; simpl in E |- *.
  - discriminate.
  - injection E as <-. vm_compute in NZ. discriminate.
  - exfalso. revert H1. destruct b; injection E as <-; apply Qlt_not_le; reflexivity.
  - subst n. simpl. now rewrite NZ.
  - destruct (String.eqb_spec s ""); [|reflexivity].
    subst s. injection E as <-. vm_compute in NZ. discriminate.
Qed.

(** X24: for a well-formed printer that sets [updateInterval],
    [applyConfig] polls at exactly that interval, a number from 500 to
    60000 ms: neither [intervalMs], nor the page's data attribute, nor
    the default of 2000 ms is used. *)
Theorem interval_of_accepted_printer (numberToString : num -> string)
        (c : config) (dataset : Dataset) :
  well_formed (Object c) ->
  field c "updateInterval" <> JUndefined ->
  UPDATE_INTERVAL (applyConfig numberToString (Some c) dataset)
    = js_Number (field c "updateInterval")
  /\ interval_in_range (field c "updateInterval").
Proof.
  intros (c' & E & _ & _ & _ & H) Hset. injection E as <-.
  destruct H as [H | H]; [contradiction|].
  split; [|exact H].
  destruct (interval_in_range_truthy H) as [T N].
  unfold applyConfig. cbv zeta. cbn [UPDATE_INTERVAL].
  assert (forall b, js_or (field c "updateInterval") b = field c "updateInterval") as R
    by (intro b; unfold js_or; now rewrite T).
  rewrite !R. now rewrite N.
Qed.

Lemma interval_of_accepted_printer_witness :
  UPDATE_INTERVAL
    (applyConfig SamplePrinters.numberToString (Some SamplePrinters.voron) SamplePrinters.page)
    = js_Number (field SamplePrinters.voron "updateInterval")
  /\ interval_in_range (field SamplePrinters.voron "updateInterval").
Proof.
  apply (@interval_of_accepted_printer SamplePrinters.numberToString SamplePrinters.voron).
  - exact (Forall_inv sample_printers_well_formed).
  - discriminate.
Defined.

(** X25: after [applyConfig] the printer name and address are never
    empty, and the camera URL is empty exactly when no camera is
    configured and the address is the string localhost; for any other
    address the webcam stream of the printer is used. *)
Theorem camera_url_default (numberToString : num -> string)
        (cfg : option config) (dataset : Dataset) :
  js_truthy (PRINTER_NAME (applyConfig numberToString cfg dataset)) = true
  /\ js_truthy (PRINTER_IP (applyConfig numberToString cfg dataset)) = true
  /\ (js_truthy (CAMERA_URL (applyConfig numberToString cfg dataset)) = false
      <-> js_truthy (field (match cfg with Some c => c | None => [] end) "camera") = false
          /\ PRINTER_IP (applyConfig numberToString cfg dataset) = JString "localhost")
  /\ (js_truthy (field (match cfg with Some c => c | None => [] end) "camera") = false ->
      PRINTER_IP (applyConfig numberToString cfg dataset) <> JString "localhost" ->
      CAMERA_URL (applyConfig numberToString cfg dataset)
        = JString ("http://"
                     ++ js_String numberToString (PRINTER_IP (applyConfig numberToString cfg dataset))
                     ++ "/webcam/?action=stream")).
Proof.
  unfold applyConfig. cbv zeta. cbn [PRINTER_NAME PRINTER_IP CAMERA_URL].
  set (config := match cfg with Some c => c | None => [] end).
  set (ip := js_or _ (JString "localhost")).
  assert (js_truthy ip = true) as Tip by (apply js_or_default; reflexivity).
  split; [apply js_or_default; reflexivity|]. split; [exact Tip|].
  rewrite Tip.
  destruct (js_truthy (field config "camera")) eqn:C.
  - assert (js_or (field config "camera") (JString "") = field config "camera") as ->
      by (unfold js_or; now rewrite C).
    rewrite C. cbn [negb andb]. rewrite C.
    split; [split; [discriminate | intros [H _]; discriminate]|]. discriminate.
  - assert (js_or (field config "camera") (JString "") = JString "") as ->
      by (unfold js_or; now rewrite C).
    cbn [js_truthy String.eqb negb andb].
    destruct (is_string ip "localhost") eqn:L; cbn [negb js_truthy].
    + assert (ip = JString "localhost") as ->.
      { destruct ip as [| | b | n | s]; try discriminate.
        simpl in L. apply String.eqb_eq in L. now subst s. }
      split; [split; [split; reflexivity | reflexivity]|]. intros _ H. now elim H.
    + split.
      * split; [discriminate|]. intros [_ H]. rewrite H in L. discriminate.
      * reflexivity.
Qed.

Lemma camera_url_default_witness :
  CAMERA_URL (applyConfig SamplePrinters.numberToString (Some SamplePrinters.ender)
                          SamplePrinters.page)
  = JString ("http://"
               ++ js_String SamplePrinters.numberToString
                    (PRINTER_IP (applyConfig SamplePrinters.numberToString
                                             (Some SamplePrinters.ender) SamplePrinters.page))
               ++ "/webcam/?action=stream").
Proof.
  apply (proj2 (proj2 (proj2 (camera_url_default SamplePrinters.numberToString
                                (Some SamplePrinters.ender) SamplePrinters.page)))).
  - reflexivity.
  - discriminate.
Defined.

(* ------------------------------------------------------------------ *)
(** *** Chamber temperature detection *)

Lemma truthy_name_some (name : option string) (n : string) :
  truthy_name name = Some n -> name = Some n /\ n <> "".
Proof.
  destruct name as [m|]; simpl; [|discriminate].
  destruct (String.eqb_spec m ""); [discriminate|].
  intro E. injection E as <-. split; [reflexivity | assumption].
Qed.

Lemma truthy_name_filled (n : string) : n <> "" -> truthy_name (Some n) = Some n.
Proof. intro H. simpl. destruct (String.eqb_spec n ""); [contradiction | reflexivity]. Qed.

Lemma getChamberObjectName_known (listing : option (list string)) (now : Z)
      (s s' : ChamberState) (name : string) :
  getChamberObjectName listing now s = (Some name, s') ->
  chamberObjectName s' = Some name.
Proof.
  unfold getChamberObjectName.
  destruct (truthy_name (chamberObjectName s)) as [n|] eqn:T.
  - intro E. injection E as <- <-. now apply truthy_name_some in T.
  - destruct (fetchObjectList listing now s) as [[objects|] s1]; [|discriminate].
    destruct (matchCandidates chamberCandidates objects (map toLowerCase objects));
      [|discriminate].
    intro E. injection E as <- <-. reflexivity.
Qed.

Lemma probeCandidates_found (status : string -> option obj) (candidates : list string) :
  forall (s s' : ChamberState) (temps : ChamberReading),
    probeCandidates status candidates s = (Some temps, s') ->
    exists name, In name candidates
                 /\ chamberObjectName s' = Some name
                 /\ parseTempEntry (status name) = Some temps.
Proof.
  induction candidates as [|candidate rest IH]; intros s s' temps; [discriminate|].
  cbn [probeCandidates querySingleObject].
  destruct (parseTempEntry (status candidate)) as [parsed|] eqn:P.
  - intro E. injection E as <- <-. exists candidate.
    split; [now left|]. split; [reflexivity | exact P].
  - intro E. destruct (IH _ _ _ E) as (name & Hin & Hname & Hp).
    exists name. split; [now right|]. split; assumption.
Qed.

Lemma chamberCandidates_filled (name : string) : In name chamberCandidates -> name <> "".
Proof.
  unfold chamberCandidates. cbn [In].
  intros H E. subst name.
  repeat (destruct H as [H | H]; [discriminate|]). exact H.
Qed.

(** X26: when [fetchChamberTemp] returns a reading, the object that gave
    it is remembered under a non-empty name, and as long as that object
    keeps answering, every later call returns its reading with a single
    request, a query of that object: the object list and the other
    candidates are not asked again. *)
Theorem chamber_sensor_remembered (listing : option (list string))
        (status : string -> option obj) (now : Z) (s s' : ChamberState)
        (temps : ChamberReading) :
  fetchChamberTemp listing status now s = (Some temps, s') ->
  exists name,
    chamberObjectName s' = Some name
    /\ name <> ""
    /\ parseTempEntry (status name) = Some temps
    /\ forall (later : Z) (listing' : option (list string)),
         fetchChamberTemp listing' status later s'
         = (Some temps, sendRequest (QueryObject name) s').
Proof.
  intro H.
  assert (exists name, chamberObjectName s' = Some name /\ name <> ""
                       /\ parseTempEntry (status name) = Some temps)
    as (name & Hname & Hne & Hp).
  { unfold fetchChamberTemp in H.
    destruct (getChamberObjectName listing now s) as [objName s1] eqn:G.
    destruct (truthy_name objName) as [n|] eqn:T.
    - apply truthy_name_some in T as [-> Hn].
      apply getChamberObjectName_known in G.
      cbn [querySingleObject] in H.
      destruct (parseTempEntry (status n)) as [parsed|] eqn:P.
      + injection H as <- <-. exists n. repeat split; assumption.
      + apply probeCandidates_found in H as (name & Hin & Hname & Hp).
        exists name. repeat split; try assumption. now apply chamberCandidates_filled.
    - apply probeCandidates_found in H as (name & Hin & Hname & Hp).
      exists name. repeat split; try assumption. now apply chamberCandidates_filled. }
  exists name. repeat split; try assumption.
  intros later listing'. unfold fetchChamberTemp, getChamberObjectName.
  rewrite Hname, (truthy_name_filled Hne), (truthy_name_filled Hne).
  cbn [querySingleObject]. now rewrite Hp.
Qed.

Lemma chamber_sensor_remembered_witness :
  exists name,
    chamberObjectName
      (snd (fetchChamberTemp SamplePrinters.listing SamplePrinters.status 1000
                             initialChamberState)) = Some name
    /\ name <> ""
    /\ parseTempEntry (SamplePrinters.status name)
       = Some {| chamber_current := lit 42; chamber_target := lit 42 |}
    /\ forall (later : Z) (listing' : option (list string)),
         fetchChamberTemp listing' SamplePrinters.status later
           (snd (fetchChamberTemp SamplePrinters.listing SamplePrinters.status 1000
                                  initialChamberState))
         = (Some {| chamber_current := lit 42; chamber_target := lit 42 |},
            sendRequest (QueryObject name)
              (snd (fetchChamberTemp SamplePrinters.listing SamplePrinters.status 1000
                                     initialChamberState))).
Proof.
  apply (@chamber_sensor_remembered SamplePrinters.listing SamplePrinters.status 1000
           initialChamberState).
  vm_compute. reflexivity.
Defined.

Lemma fetchObjectList_requests (listing : option (list string)) (now : Z) (s : ChamberState) :
  exists sent,
    chamberRequests (snd (fetchObjectList listing now s)) = (chamberRequests s ++ sent)%list
    /\ (List.length sent <= 1)%nat.
Proof.
  unfold fetchObjectList.
  destruct (match objectListCache s with
            | Some _ => (now - objectListFetchedAt s <? 30000)%Z
            | None => false
            end).
  - exists []. split; [now rewrite app_nil_r | simpl; lia].
  - exists [ListObjects]. destruct listing; split; reflexivity || apply Nat.le_refl.
Qed.

Lemma getChamberObjectName_requests (listing : option (list string)) (now : Z)
      (s : ChamberState) :
  exists sent,
    chamberRequests (snd (getChamberObjectName listing now s)) = (chamberRequests s ++ sent)%list
    /\ (List.length sent <= 1)%nat.
Proof.
  unfold getChamberObjectName.
  destruct (truthy_name (chamberObjectName s)).
  - exists []. split; [now rewrite app_nil_r | simpl; lia].
  - destruct (fetchObjectList_requests listing now s) as (sent & E & L).
    exists sent. split; [|exact L].
    destruct (fetchObjectList listing now s) as [[objects|] s1]; [|exact E].
    destruct (matchCandidates chamberCandidates objects (map toLowerCase objects)); exact E.
Qed.

Lemma probeCandidates_none (status : string -> option obj) (candidates : list string) :
  forall s : ChamberState,
    (forall name, In name candidates -> parseTempEntry (status name) = None) ->
    fst (probeCandidates status candidates s) = None
    /\ chamberRequests (snd (probeCandidates status candidates s))
       = (chamberRequests s ++ map QueryObject candidates)%list.
Proof.
  induction candidates as [|candidate rest IH]; intros s H.
  - cbn [probeCandidates fst snd map]. now rewrite app_nil_r.
  - cbn [probeCandidates querySingleObject].
    rewrite (H candidate (or_introl eq_refl)).
    destruct (IH (sendRequest (QueryObject candidate) s)) as [E1 E2].
    { intros name Hin. apply H. now right. }
    split; [exact E1|]. rewrite E2. cbn [sendRequest chamberRequests map].
    now rewrite <- app_assoc.
Qed.



Lemma indexOf_map (f : string -> string) (x : string) (objects : list string) :
  match indexOf (map f objects) x with
  | Some idx => In (nth idx objects "") objects /\ f (nth idx objects "") = x
  | None => forall o, In o objects -> f o <> x
  end.
Proof.
  induction objects as [|o rest IH]; cbn [map indexOf].
  - intros o [].
  - destruct (String.eqb_spec (f o) x) as [E | N].
    + cbn [nth]. split; [now left | exact E].
    + destruct (indexOf (map f rest) x) as [idx|]; cbn [option_map].
      * cbn [nth]. destruct IH as [Hin Hf]. split; [now right | exact Hf].
      * intros o' [<- | Hin]; [exact N | now apply IH].
Qed.

Lemma matchCandidates_first (objects : list string) (candidates : list string) :
  match matchCandidates candidates objects (map toLowerCase objects) with
  | Some name =>
      exists before candidate after,
        candidates = (before ++ candidate :: after)%list
        /\ In name objects
        /\ toLowerCase name = toLowerCase candidate
        /\ (forall c o, In c before -> In o objects -> toLowerCase o <> toLowerCase c)
  | None =>
      forall c o, In c candidates -> In o objects -> toLowerCase o <> toLowerCase c
  end.
Proof.
  induction candidates as [|candidate rest IH]; cbn [matchCandidates].
  - intros c o [].
  - pose proof (indexOf_map toLowerCase (toLowerCase candidate) objects) as I.
    destruct (indexOf (map toLowerCase objects) (toLowerCase candidate)) as [idx|].
    + destruct I as [Hin Hf]. exists [], candidate, rest.
      repeat split; try assumption. intros c o [].
    + destruct (matchCandidates rest objects (map toLowerCase objects)) as [name|].
      * destruct IH as (before & c & after & -> & Hin & Hl & Hfirst).
        exists (candidate :: before), c, after. repeat split; try assumption.
        intros c' o [<- | Hc] Ho; [now apply I | now apply Hfirst].
      * intros c o [<- | Hc] Ho; [now apply I | now apply IH].
Qed.

(** X28: on a fresh start [getChamberObjectName] takes the chamber
    object from the printer's object list: the name it returns is one
    the printer listed, in the printer's spelling, equal up to case to
    the first candidate, in the order of the candidates, that the list
    contains; it returns nothing exactly when the list is unavailable
    or holds no candidate. In both cases the list is requested once. *)
Theorem chamber_object_from_list (listing : option (list string)) (now : Z) :
  match fst (getChamberObjectName listing now initialChamberState) with
  | Some name =>
      exists objects before candidate after,
        listing = Some objects
        /\ chamberCandidates = (before ++ candidate :: after)%list
        /\ In name objects
        /\ toLowerCase name = toLowerCase candidate
        /\ (forall c o, In c before -> In o objects -> toLowerCase o <> toLowerCase c)
  | None =>
      listing = None
      \/ exists objects,
           listing = Some objects
           /\ forall c o, In c chamberCandidates -> In o objects ->
                toLowerCase o <> toLowerCase c
  end
  /\ chamberRequests (snd (getChamberObjectName listing now initialChamberState))
     = [ListObjects].
Proof.
  unfold getChamberObjectName, fetchObjectList, initialChamberState.
  cbn [truthy_name chamberObjectName objectListCache].
  destruct listing as [objects|]; [|split; [now left | reflexivity]].
  pose proof (matchCandidates_first objects chamberCandidates) as M.
  destruct (matchCandidates chamberCandidates objects (map toLowerCase objects)) as [name|];
    cbn [fst snd]; (split; [|reflexivity]).
  - destruct M as (before & candidate & after & M). exists objects, before, candidate, after.
    split; [reflexivity | exact M].
  - right. exists objects. split; [reflexivity | exact M].
Qed.

Lemma chamber_object_from_list_witness :
  match fst (getChamberObjectName SamplePrinters.listing 1000 initialChamberState) with
  | Some name =>
      exists objects before candidate after,
        SamplePrinters.listing = Some objects
        /\ chamberCandidates = (before ++ candidate :: after)%list
        /\ In name objects
        /\ toLowerCase name = toLowerCase candidate
        /\ (forall c o, In c before -> In o objects -> toLowerCase o <> toLowerCase c)
  | None =>
      SamplePrinters.listing = None
      \/ exists objects,
           SamplePrinters.listing = Some objects
           /\ forall c o, In c chamberCandidates -> In o objects ->
                toLowerCase o <> toLowerCase c
  end
  /\ chamberRequests (snd (getChamberObjectName SamplePrinters.listing 1000
                                                initialChamberState))
     = [ListObjects].
Proof.
  exact (chamber_object_from_list SamplePrinters.listing 1000).
Defined.

(* ------------------------------------------------------------------ *)
(** *** File name shown *)

Lemma lower_char_fold (x c : ascii) :
  In x ["."; "g"; "c"; "o"; "d"; "e"]%char -> lower_char c = x -> chr_i x c = true.
Proof.
  intros [<- | [<- | [<- | [<- | [<- | [<- | []]]]]]];
    destruct c as [[] [] [] [] [] [] [] []]; vm_compute; intro H;
    first [reflexivity | discriminate H].
Qed.

Lemma match_gcode_suffix (ext : string) :
  toLowerCase ext = ".gcode" ->
  match_here gcodeSuffix ext = Some {| groups := []; after := "" |}.
Proof.
  destruct ext as [|a [|b [|c [|d [|e [|f [|g s]]]]]]]; try discriminate.
  cbn [toLowerCase]. intro H. injection H as Ha Hb Hc Hd He Hf.
  unfold match_here, gcodeSuffix. cbn [LitI run].
  rewrite (@lower_char_fold "." a), (@lower_char_fold "g" b), (@lower_char_fold "c" c),
    (@lower_char_fold "o" d), (@lower_char_fold "d" e), (@lower_char_fold "e" f);
    try assumption; cbn [In]; tauto.
Qed.

Lemma match_gcode_length (s : string) (m : Match) :
  match_here gcodeSuffix s = Some m -> String.length s = 6%nat.
Proof.
  unfold match_here, gcodeSuffix. cbn [LitI run].
  destruct s as [|a [|b [|c [|d [|e [|f [|g s]]]]]]];
    repeat match goal with
           | |- context [if ?t then _ else _] => destruct t
           end;
    try discriminate; reflexivity.
Qed.

Lemma string_length_append (a b : string) :
  String.length (a ++ b) = (String.length a + String.length b)%nat.
Proof. induction a as [|c a IH]; simpl; [reflexivity | now rewrite IH]. Qed.

Lemma toLowerCase_length (s : string) : String.length (toLowerCase s) = String.length s.
Proof. induction s as [|c s IH]; simpl; [reflexivity | now rewrite IH]. Qed.

Lemma remove_gcode_suffix (base ext : string) :
  toLowerCase ext = ".gcode" -> remove_match gcodeSuffix (base ++ ext) = base.
Proof.
  intro H. induction base as [|c base IH].
  - cbn [append]. destruct ext as [|x ext]; [discriminate|].
    cbn [remove_match]. now rewrite (@match_gcode_suffix _ H).
  - cbn [append remove_match].
    destruct (match_here gcodeSuffix (String c (base ++ ext))) as [m|] eqn:M.
    + apply match_gcode_length in M. cbn [String.length] in M.
      rewrite string_length_append, <- (toLowerCase_length ext), H in M.
      cbn [String.length] in M. lia.
    + now rewrite IH.
Qed.

Lemma split_on_one (sep : ascii) (s : string) :
  all_chars (fun c => negb (Ascii.eqb c sep)) s = true -> split_on sep s = [s].
Proof.
  induction s as [|c s IH]; [reflexivity|].
  cbn [all_chars split_on]. intro H. apply andb_true_iff in H as [Hc Hs].
  apply negb_true_iff in Hc. rewrite Hc, (IH Hs). reflexivity.
Qed.

Lemma split_on_cons (sep : ascii) (s : string) : exists h t, split_on sep s = h :: t.
Proof.
  induction s as [|c s (h & t & IH)]; [now exists "", []|].
  cbn [split_on]. rewrite IH. destruct (Ascii.eqb c sep); eauto.
Qed.

Lemma pop_after_separator (sep : ascii) (dir rest : string) :
  pop (split_on sep (dir ++ String sep rest)) = pop (split_on sep rest).
Proof.
  unfold pop.
  assert (exists h t, split_on sep (dir ++ String sep rest) = h :: t
                      /\ t <> []
                      /\ last t "" = last (split_on sep rest) "") as (h & t & E & Ht & L).
  { induction dir as [|c dir (h & t & E & Ht & L)].
    - cbn [append split_on]. rewrite Ascii.eqb_refl.
      exists "", (split_on sep rest). split; [reflexivity|]. split; [|reflexivity].
      destruct (split_on_cons sep rest) as (h & t & ->). discriminate.
    - cbn [append split_on]. rewrite E. destruct (Ascii.eqb c sep).
      + exists "", (h :: t). split; [reflexivity|]. split; [discriminate|].
        destruct t; [contradiction | exact L].
      + exists (String c h), t. split; [reflexivity|]. split; assumption. }
  rewrite E. destruct t; [contradiction | exact L].
Qed.

(** X29: [formatFilename] shows the base name of a G-code file: for a
    name without a slash followed by the extension .gcode in any case,
    the directory in front (whatever slashes it holds) and the
    extension are dropped and the name itself is returned unchanged,
    dots and inner .gcode included. *)
Theorem filename_base_shown (dir base ext : string) :
  all_chars not_slash base = true ->
  toLowerCase ext = ".gcode" ->
  formatFilename (Some (dir ++ "/" ++ base ++ ext)) = Some base
  /\ formatFilename (Some (base ++ ext)) = Some base.
Proof.
  intros Hbase Hext.
  assert (all_chars not_slash (base ++ ext) = true) as Hall.
  { rewrite all_chars_append, Hbase.
    destruct ext as [|a [|b [|c [|d [|e [|f [|g s]]]]]]]; try discriminate.
    cbn [toLowerCase] in Hext. injection Hext as Ha Hb Hc Hd He Hf.
    revert Ha Hb Hc Hd He Hf.
    destruct a as [[] [] [] [] [] [] [] []]; try discriminate; intros _;
    destruct b as [[] [] [] [] [] [] [] []]; try discriminate; intros _;
    destruct c as [[] [] [] [] [] [] [] []]; try discriminate; intros _;
    destruct d as [[] [] [] [] [] [] [] []]; try discriminate; intros _;
    destruct e as [[] [] [] [] [] [] [] []]; try discriminate; intros _;
    destruct f as [[] [] [] [] [] [] [] []]; try discriminate; intros _;
    reflexivity. }
  assert (pop (split_on "/" (base ++ ext)) = base ++ ext) as P
    by (now rewrite (@split_on_one "/" _ Hall)).
  assert (forall f, f <> "" ->
            formatFilename (Some f) = Some (remove_match gcodeSuffix (pop (split_on "/" f))))
    as F by (intros [|c s] N; [contradiction | reflexivity]).
  split.
  - rewrite F by (destruct dir; discriminate).
    change ("/" ++ base ++ ext) with (String "/" (base ++ ext)).
    rewrite pop_after_separator, P. now rewrite remove_gcode_suffix.
  - rewrite F, P; [now rewrite remove_gcode_suffix|].
    destruct base; [|discriminate]. cbn [append]. intros ->. discriminate.
Qed.

Lemma filename_base_shown_witness :
  formatFilename (Some ("gcodes/benchy" ++ "/" ++ "3DBenchy_0.2mm.v2" ++ ".GCode"))
  = Some "3DBenchy_0.2mm.v2"
  /\ formatFilename (Some ("3DBenchy_0.2mm.v2" ++ ".GCode")) = Some "3DBenchy_0.2mm.v2".
Proof.
  apply (@filename_base_shown "gcodes/benchy" "3DBenchy_0.2mm.v2" ".GCode"); reflexivity.
Defined.
